(** * Sketch-to-painting orchestration: parameter resolution, prompt
      composition and backend dispatch

    A shallow embedding of the orchestration code of the drawing-to-painting
    application ([enhanced_theme_system.py], [ngrok_config.py] and the
    backend-calling functions of [frontend/app.py]) together with the
    properties that its specification states about it.

    Conventions of the embedding.
    - A Python [str] is a [string]; [a in b] on strings is [contains a b],
      [s.lower()] is [lower s] (ASCII letters only: the keyword tables and the
      prompts of the examples are ASCII), [s.startswith(p)] is
      [String.prefix p s], and the truth value of a string is [truthy].
    - A Python [dict] with string keys is a [gmap string _]; a failed
      subscript (a [KeyError]) is the [None] of the lookup.
    - A Python [float] literal is the rational number it denotes ([Q]).
    - Code that talks to the outside (HTTP requests, the Gradio client,
      [time.sleep], Streamlit output) runs in a state monad over a [world]:
      the replies still to come and the trace of what the program did.
      Streamlit messages are recorded without their emoji. *)

From Stdlib Require Import String Ascii ZArith QArith List Bool Lia.
From stdpp Require Import base option gmap strings.
Import ListNotations.
Open Scope string_scope.

(** ** Python strings *)

Module PyStr.

(** [bool(s)] for a string: non-empty. *)
Definition truthy (s : string) : bool :=
  match s with
  | EmptyString => false
  | String _ _ => true
  end.

(** [needle in hay]: [needle] occurs in [hay] as a substring. *)
Fixpoint contains (needle hay : string) : bool :=
  String.prefix needle hay
  || match hay with
     | EmptyString => false
     | String _ rest => contains needle rest
     end.

(** [any(word in s for word in words)]. *)
Definition any_in (words : list string) (s : string) : bool :=
  existsb (fun word => contains word s) words.

Definition lower_ascii (c : ascii) : ascii :=
  let n := nat_of_ascii c in
  if (65 <=? n)%nat && (n <=? 90)%nat then ascii_of_nat (n + 32) else c.

(** [s.lower()] on ASCII text. *)
Fixpoint lower (s : string) : string :=
  match s with
  | EmptyString => EmptyString
  | String c rest => String (lower_ascii c) (lower rest)
  end.

End PyStr.
Export PyStr.

(** ** enhanced_theme_system.py *)

Module ThemeSystem.

(** The value type of [THEME_DESCRIPTIONS]: a dict with these four keys. *)
Record theme_info := {
  description : string;
  style : string;
  positive_prompt : string;
  negative_prompt : string
}.

(** The literal of the source, entry by entry (its keys are pairwise
    distinct). *)
Definition THEME_DESCRIPTIONS : gmap string theme_info := list_to_map [
  ("Realistic portrait, professional photography, natural skin, detailed features, studio background, sharp focus, beautiful",
   {| description := "Professional photography with natural skin texture and detailed facial features";
      style := "realistic";
      positive_prompt := "realistic portrait, professional photography, natural skin, detailed features, studio background, sharp focus, beautiful";
      negative_prompt := "cartoon, anime, illustration, painting, drawing, sketch, unrealistic, deformed" |});
  ("Professional headshot, natural lighting, studio background, sharp focus, high resolution, detailed facial features",
   {| description := "Corporate headshot style with natural lighting and high resolution";
      style := "realistic";
      positive_prompt := "professional headshot, natural lighting, studio background, sharp focus, high resolution, detailed facial features";
      negative_prompt := "cartoon, anime, illustration, painting, drawing, sketch, unrealistic, deformed" |});
  ("Studio photography, natural lighting, detailed face, professional camera, sharp focus, beautiful features, high quality",
   {| description := "Studio photography with natural lighting and professional camera quality";
      style := "realistic";
      positive_prompt := "studio photography, natural lighting, detailed face, professional camera, sharp focus, beautiful features, high quality";
      negative_prompt := "cartoon, anime, illustration, painting, drawing, sketch, unrealistic, deformed" |});
  ("High fashion portrait, professional photography, natural skin texture, detailed eyes, natural hair, studio lighting, 4k quality",
   {| description := "High fashion magazine style with 4K quality and detailed features";
      style := "realistic";
      positive_prompt := "high fashion portrait, professional photography, natural skin texture, detailed eyes, natural hair, studio lighting, 4k quality";
      negative_prompt := "cartoon, anime, illustration, painting, drawing, sketch, unrealistic, deformed" |});
  ("Celebrity style portrait, professional photography, natural skin, detailed features, studio background, sharp focus, beautiful",
   {| description := "Celebrity magazine style with professional photography";
      style := "realistic";
      positive_prompt := "celebrity style portrait, professional photography, natural skin, detailed features, studio background, sharp focus, beautiful";
      negative_prompt := "cartoon, anime, illustration, painting, drawing, sketch, unrealistic, deformed" |});
  ("Magazine cover portrait, natural lighting, detailed face, professional camera, sharp focus, beautiful features, high quality",
   {| description := "Magazine cover style with professional camera and sharp focus";
      style := "realistic";
      positive_prompt := "magazine cover portrait, natural lighting, detailed face, professional camera, sharp focus, beautiful features, high quality";
      negative_prompt := "cartoon, anime, illustration, painting, drawing, sketch, unrealistic, deformed" |});
  ("Artistic portrait, professional photography, natural skin texture, detailed eyes, natural hair, studio lighting, 4k quality",
   {| description := "Artistic photography with natural skin texture and detailed features";
      style := "realistic";
      positive_prompt := "artistic portrait, professional photography, natural skin texture, detailed eyes, natural hair, studio lighting, 4k quality";
      negative_prompt := "cartoon, anime, illustration, painting, drawing, sketch, unrealistic, deformed" |});
  ("Cinematic portrait, natural lighting, detailed face, professional camera, sharp focus, beautiful features, high quality",
   {| description := "Cinematic movie style with dramatic lighting and professional quality";
      style := "realistic";
      positive_prompt := "cinematic portrait, natural lighting, detailed face, professional camera, sharp focus, beautiful features, high quality";
      negative_prompt := "cartoon, anime, illustration, painting, drawing, sketch, unrealistic, deformed" |});
  ("Vintage portrait, professional photography, natural skin, detailed features, studio background, sharp focus, beautiful",
   {| description := "Vintage photography style with classic studio lighting";
      style := "realistic";
      positive_prompt := "vintage portrait, professional photography, natural skin, detailed features, studio background, sharp focus, beautiful";
      negative_prompt := "cartoon, anime, illustration, painting, drawing, sketch, unrealistic, deformed" |});
  ("Modern portrait, natural lighting, detailed face, professional camera, sharp focus, beautiful features, high quality",
   {| description := "Modern photography style with natural lighting and professional camera";
      style := "realistic";
      positive_prompt := "modern portrait, natural lighting, detailed face, professional camera, sharp focus, beautiful features, high quality";
      negative_prompt := "cartoon, anime, illustration, painting, drawing, sketch, unrealistic, deformed" |});
  ("Van Gogh style",
   {| description := "Post-impressionist painting style with bold colors and expressive brushstrokes";
      style := "cartoon";
      positive_prompt := "Van Gogh style painting, post-impressionist, bold colors, expressive brushstrokes, artistic";
      negative_prompt := "realistic, photograph, modern, clean, smooth" |});
  ("Cartoon version",
   {| description := "Classic cartoon style with bold outlines and vibrant colors";
      style := "cartoon";
      positive_prompt := "cartoon style, bold outlines, vibrant colors, animated, stylized";
      negative_prompt := "realistic, photograph, detailed, natural" |});
  ("Turn into a cyborg",
   {| description := "Sci-fi cyborg style with mechanical parts and futuristic elements";
      style := "cartoon";
      positive_prompt := "cyborg, sci-fi, mechanical parts, futuristic, robotic, metallic";
      negative_prompt := "realistic, natural, organic, human" |});
  ("Watercolor painting",
   {| description := "Soft watercolor painting style with flowing colors and artistic texture";
      style := "cartoon";
      positive_prompt := "watercolor painting, soft colors, flowing, artistic, painterly";
      negative_prompt := "realistic, photograph, sharp, digital" |});
  ("Anime style",
   {| description := "Japanese anime style with large eyes and stylized features";
      style := "cartoon";
      positive_prompt := "anime style, Japanese animation, large eyes, stylized features, vibrant colors";
      negative_prompt := "realistic, photograph, natural, detailed" |});
  ("Futuristic robot",
   {| description := "Futuristic robot design with metallic surfaces and advanced technology";
      style := "cartoon";
      positive_prompt := "futuristic robot, metallic, advanced technology, sci-fi, mechanical";
      negative_prompt := "realistic, human, natural, organic" |});
  ("Old photo",
   {| description := "Vintage photograph style with sepia tones and aged appearance";
      style := "realistic";
      positive_prompt := "vintage photograph, sepia tones, aged, nostalgic, classic";
      negative_prompt := "modern, digital, colorful, sharp" |});
  ("Pop art",
   {| description := "Pop art style with bold colors and graphic design elements";
      style := "cartoon";
      positive_prompt := "pop art style, bold colors, graphic design, Andy Warhol inspired";
      negative_prompt := "realistic, natural, subtle, muted" |});
  ("Impressionist painting",
   {| description := "Impressionist painting style with visible brushstrokes and light effects";
      style := "cartoon";
      positive_prompt := "impressionist painting, visible brushstrokes, light effects, artistic";
      negative_prompt := "realistic, photograph, sharp, detailed" |});
  ("Disney animation style",
   {| description := "Classic Disney animation style with charming and magical appearance";
      style := "cartoon";
      positive_prompt := "Disney animation style, charming, magical, colorful, family-friendly";
      negative_prompt := "realistic, dark, mature, realistic" |});
  ("Studio Ghibli style",
   {| description := "Studio Ghibli animation style with detailed backgrounds and magical atmosphere";
      style := "cartoon";
      positive_prompt := "Studio Ghibli style, magical atmosphere, detailed backgrounds, anime";
      negative_prompt := "realistic, photograph, modern, dark" |});
  ("Pixar 3D animation",
   {| description := "Pixar 3D animation style with detailed textures and expressive features";
      style := "cartoon";
      positive_prompt := "Pixar 3D animation, detailed textures, expressive features, colorful";
      negative_prompt := "realistic, photograph, 2D, flat" |});
  ("Realistic humanoid",
   {| description := "Realistic humanoid robot with detailed mechanical features";
      style := "realistic";
      positive_prompt := "realistic humanoid robot, detailed mechanical features, advanced technology";
      negative_prompt := "cartoon, anime, stylized, simple" |});
  ("Cartoon Network style",
   {| description := "Cartoon Network animation style with bold colors and exaggerated features";
      style := "cartoon";
      positive_prompt := "Cartoon Network style, bold colors, exaggerated features, animated";
      negative_prompt := "realistic, natural, subtle, detailed" |});
  ("Marvel comic style",
   {| description := "Marvel comic book style with dynamic poses and bold colors";
      style := "cartoon";
      positive_prompt := "Marvel comic style, dynamic poses, bold colors, superhero";
      negative_prompt := "realistic, photograph, natural, subtle" |});
  ("DC Comics style",
   {| description := "DC Comics style with dramatic lighting and comic book aesthetics";
      style := "cartoon";
      positive_prompt := "DC Comics style, dramatic lighting, comic book, superhero";
      negative_prompt := "realistic, photograph, natural, subtle" |});
  ("Japanese manga",
   {| description := "Japanese manga style with distinctive black and white artwork";
      style := "cartoon";
      positive_prompt := "Japanese manga style, black and white, distinctive artwork, anime";
      negative_prompt := "realistic, photograph, colorful, natural" |});
  ("European oil painting",
   {| description := "Classical European oil painting style with rich textures and colors";
      style := "realistic";
      positive_prompt := "European oil painting, classical, rich textures, artistic, masterwork";
      negative_prompt := "cartoon, anime, modern, digital" |});
  ("Digital art",
   {| description := "Modern digital art style with clean lines and vibrant colors";
      style := "cartoon";
      positive_prompt := "digital art, clean lines, vibrant colors, modern, stylized";
      negative_prompt := "realistic, photograph, traditional, natural" |});
  ("Steampunk style",
   {| description := "Steampunk aesthetic with Victorian-era mechanical elements";
      style := "cartoon";
      positive_prompt := "steampunk style, Victorian-era, mechanical elements, brass, gears";
      negative_prompt := "realistic, modern, clean, simple" |});
  ("Cyberpunk aesthetic",
   {| description := "Cyberpunk aesthetic with neon lights and futuristic urban elements";
      style := "cartoon";
      positive_prompt := "cyberpunk aesthetic, neon lights, futuristic, urban, dystopian";
      negative_prompt := "realistic, natural, rural, peaceful" |});
  ("Fantasy art",
   {| description := "Fantasy art style with magical elements and mystical atmosphere";
      style := "cartoon";
      positive_prompt := "fantasy art, magical elements, mystical atmosphere, enchanted";
      negative_prompt := "realistic, modern, mundane, ordinary" |});
  ("Sci-fi concept art",
   {| description := "Science fiction concept art with futuristic technology and alien worlds";
      style := "cartoon";
      positive_prompt := "sci-fi concept art, futuristic technology, alien worlds, space";
      negative_prompt := "realistic, historical, natural, Earth" |});
  ("Horror movie style",
   {| description := "Horror movie aesthetic with dark atmosphere and dramatic lighting";
      style := "realistic";
      positive_prompt := "horror movie style, dark atmosphere, dramatic lighting, suspenseful";
      negative_prompt := "bright, cheerful, colorful, safe" |});
  ("Romantic painting",
   {| description := "Romantic era painting style with emotional and dramatic elements";
      style := "realistic";
      positive_prompt := "romantic painting, emotional, dramatic, artistic, classical";
      negative_prompt := "cartoon, anime, modern, digital" |})  ].

Definition default_theme_info (theme_name : string) : theme_info :=
  {| description := "Custom theme with unique artistic style";
     style := "realistic";
     positive_prompt := theme_name;
     negative_prompt := "deformed, extra limbs, multiple faces, mutated hands, blurry, out of focus, low quality" |}.

Definition get_theme_info (theme_name : string) : theme_info :=
  match THEME_DESCRIPTIONS !! theme_name with
  | Some info => info
  | None => default_theme_info theme_name
  end.

Definition anatomical_defects : string :=
  ", deformed, extra limbs, multiple faces, mutated hands, blurry, out of focus, low quality, glitch, split face, extra heads, extra bodies, anatomical error".

(** Returns [(enhanced_prompt, enhanced_negative, theme_info['style'])]. *)
Definition get_enhanced_prompts_for_theme
    (theme_name sketch_type user_prompt : string) : string * string * string :=
  let theme_info := get_theme_info theme_name in
  let '(enhanced_prompt, enhanced_negative) :=
    if truthy user_prompt then
      if String.eqb sketch_type "face" then
        if String.eqb (style theme_info) "realistic" then
          (user_prompt +:+ ", realistic portrait of one person, " +:+ positive_prompt theme_info +:+ ", detailed facial features, proper anatomy, single face",
           negative_prompt theme_info +:+ anatomical_defects)
        else
          (user_prompt +:+ ", anime style portrait, " +:+ positive_prompt theme_info +:+ ", stylized features, clean lines, detailed illustration, single face",
           negative_prompt theme_info +:+ anatomical_defects +:+ ", realistic, photograph")
      else
        if String.eqb (style theme_info) "realistic" then
          (user_prompt +:+ ", realistic full body portrait of one person, " +:+ positive_prompt theme_info +:+ ", proper anatomy, single figure, natural pose",
           negative_prompt theme_info +:+ anatomical_defects +:+ ", multiple people")
        else
          (user_prompt +:+ ", anime style full body portrait, " +:+ positive_prompt theme_info +:+ ", stylized features, clean lines, detailed illustration, single figure, dynamic pose",
           negative_prompt theme_info +:+ anatomical_defects +:+ ", multiple people, realistic, photograph")
    else
      if String.eqb sketch_type "face" then
        if String.eqb (style theme_info) "realistic" then
          ("realistic portrait of one person, " +:+ positive_prompt theme_info +:+ ", detailed facial features, proper anatomy, single face",
           negative_prompt theme_info +:+ anatomical_defects)
        else
          ("anime style portrait, " +:+ positive_prompt theme_info +:+ ", stylized features, clean lines, detailed illustration, single face",
           negative_prompt theme_info +:+ anatomical_defects +:+ ", realistic, photograph")
      else
        if String.eqb (style theme_info) "realistic" then
          ("realistic full body portrait of one person, " +:+ positive_prompt theme_info +:+ ", proper anatomy, single figure, natural pose",
           negative_prompt theme_info +:+ anatomical_defects +:+ ", multiple people")
        else
          ("anime style full body portrait, " +:+ positive_prompt theme_info +:+ ", stylized features, clean lines, detailed illustration, single figure, dynamic pose",
           negative_prompt theme_info +:+ anatomical_defects +:+ ", multiple people, realistic, photograph")
  in
  (enhanced_prompt, enhanced_negative, style theme_info).

End ThemeSystem.

(** ** The outside world of frontend/app.py *)

Module World.

(** A decoded picture (a PIL [Image]), named by its contents. *)
Definition image := string.

Inductive st_level := st_success | st_info | st_warning | st_error | st_spinner.

(** How a request body is encoded: [json=...] or [files=..., data=...]. *)
Inductive encoding := JsonBody | MultipartForm.

#[warnings="-register-all"]
Inductive jval :=
| JStr (s : string)
| JInt (z : Z)
| JNum (q : Q)
| JBool (b : bool)
| JObj (fields : list (string * jval)).

Definition payload := list (string * jval).

(** [data[key]] of a request body. *)
Fixpoint field (key : string) (data : payload) : option jval :=
  match data with
  | [] => None
  | (k, v) :: rest => if String.eqb k key then Some v else field key rest
  end.

(** What the program does to the outside, in the order it does it. A
    Streamlit message is recorded as the format string of the source. *)
Inductive event :=
| Post (enc : encoding) (url : string) (data : payload)
| Predict (space api_name : string) (args : payload)
| Sleep (seconds : Z)
| St (level : st_level) (text : string).

Record response := {
  status_code : Z;
  content_type : string;                (* the content-type header, if any *)
  content : string;                     (* response.content / response.text *)
  json : option (gmap string string)    (* response.json(); None: it raises *)
}.

(** The exception classes the handlers tell apart. *)
Inductive exn_class := ETimeout | EConnectionError | EOther.

Inductive reply :=
| Responds (r : response)
| Raises (cls : exn_class).

Inductive predict_reply :=
| PredictReturns (result : list string)
| PredictRaises.

(** Configuration, the remote services and the library functions that the
    program does not define. The [n]-th outside call is answered by
    [requests_post n] or [client_predict n]. *)
Record env := {
  CURRENT_NGROK_URL : string;                          (* ngrok_config.py *)
  getenv_HF_TOKEN : string;       (* os.getenv("HF_TOKEN", <the literal of the source>) *)
  requests_post : nat -> encoding -> string -> payload -> reply;
  gradio_client_installed : bool;
  client_predict : nat -> string -> string -> payload -> predict_reply;
  b64encode : string -> string;
  b64decode : string -> option string;                 (* None: it raises *)
  Image_open : string -> option image;                 (* None: it raises *)
  path_exists : string -> bool;
  Image_open_path : string -> option image             (* None: it raises *)
}.

Record world := {
  calls : nat;            (* outside calls made so far *)
  trace : list event      (* oldest first *)
}.

Definition M (A : Type) : Type := world -> A * world.

Definition ret {A} (a : A) : M A := fun w => (a, w).

Definition bind {A B} (c : M A) (k : A -> M B) : M B :=
  fun w => let '(a, w') := c w in k a w'.

Definition emit (e : event) : M unit :=
  fun w => (tt, {| calls := calls w; trace := trace w ++ [e] |}).

Definition st (level : st_level) (text : string) : M unit := emit (St level text).

Definition sleep (seconds : Z) : M unit := emit (Sleep seconds).

Definition post (E : env) (enc : encoding) (url : string) (data : payload) : M reply :=
  fun w => (requests_post E (calls w) enc url data,
            {| calls := S (calls w); trace := trace w ++ [Post enc url data] |}).

Definition predict (E : env) (space api_name : string) (args : payload) : M predict_reply :=
  fun w => (client_predict E (calls w) space api_name args,
            {| calls := S (calls w); trace := trace w ++ [Predict space api_name args] |}).

Definition when (b : bool) (c : M unit) : M unit := if b then c else ret tt.

Definition is_post (e : event) : bool :=
  match e with Post _ _ _ => true | _ => false end.

Definition is_sleep (e : event) : bool :=
  match e with Sleep _ => true | _ => false end.

End World.
Export World.

Notation "x <- c1 ;; c2" := (bind c1 (fun x => c2))
  (at level 100, c1 at next level, right associativity).
Notation "c1 ;; c2" := (bind c1 (fun _ => c2))
  (at level 100, right associativity).

(** ** ngrok_config.py *)

Module NgrokConfig.

Definition get_backend_url (E : env) : string := CURRENT_NGROK_URL E +:+ "/generate".

Definition get_base_url (E : env) : string := CURRENT_NGROK_URL E.

End NgrokConfig.
Export NgrokConfig.

(** ** frontend/app.py: the parameter table *)

Module Presets.

(** One innermost dict of [PRESET_PARAMETERS]. *)
Record preset := {
  controlnet_conditioning_scale : Q;
  guidance_scale : Q;
  num_inference_steps : Z;
  control_type : string
}.

(** [{k: v for k, v in params_dict.items() if k != "control_type"}]. *)
Record optimal_params := {
  op_controlnet_conditioning_scale : Q;
  op_guidance_scale : Q;
  op_num_inference_steps : Z
}.

Definition without_control_type (p : preset) : optimal_params :=
  {| op_controlnet_conditioning_scale := controlnet_conditioning_scale p;
     op_guidance_scale := guidance_scale p;
     op_num_inference_steps := num_inference_steps p |}.

Definition PRESET_PARAMETERS : gmap string (gmap string (gmap string preset)) :=
  list_to_map [
   ("realistic", list_to_map [
    ("face", list_to_map [
      ("Default", {| controlnet_conditioning_scale := 0.95; guidance_scale := 6.5;
                      num_inference_steps := 30; control_type := "scribble" |});
      ("Balanced", {| controlnet_conditioning_scale := 0.9; guidance_scale := 6.0;
                      num_inference_steps := 30; control_type := "scribble" |});
      ("Creative", {| controlnet_conditioning_scale := 0.8; guidance_scale := 7.0;
                      num_inference_steps := 30; control_type := "scribble" |}) ]);
    ("full_body", list_to_map [
      ("Default", {| controlnet_conditioning_scale := 0.60; guidance_scale := 8.0;
                      num_inference_steps := 30; control_type := "scribble" |});
      ("Balanced", {| controlnet_conditioning_scale := 0.70; guidance_scale := 7.5;
                      num_inference_steps := 30; control_type := "scribble" |});
      ("Creative", {| controlnet_conditioning_scale := 0.8; guidance_scale := 7.0;
                      num_inference_steps := 30; control_type := "scribble" |}) ]) ]);
   ("cartoon", list_to_map [
    ("face", list_to_map [
      ("Default", {| controlnet_conditioning_scale := 0.95; guidance_scale := 7.0;
                      num_inference_steps := 32; control_type := "scribble" |});
      ("Balanced", {| controlnet_conditioning_scale := 0.9; guidance_scale := 6.5;
                      num_inference_steps := 34; control_type := "scribble" |});
      ("Creative", {| controlnet_conditioning_scale := 0.8; guidance_scale := 6.0;
                      num_inference_steps := 36; control_type := "scribble" |}) ]);
    ("full_body", list_to_map [
      ("Default", {| controlnet_conditioning_scale := 0.95; guidance_scale := 7.0;
                      num_inference_steps := 32; control_type := "scribble" |});
      ("Balanced", {| controlnet_conditioning_scale := 0.9; guidance_scale := 6.5;
                      num_inference_steps := 34; control_type := "scribble" |});
      ("Creative", {| controlnet_conditioning_scale := 0.8; guidance_scale := 6.0;
                      num_inference_steps := 36; control_type := "scribble" |}) ]) ]);
   ("ultra_realistic", list_to_map [
    ("face", list_to_map [
      ("Default", {| controlnet_conditioning_scale := 0.95; guidance_scale := 7.0;
                      num_inference_steps := 32; control_type := "canny" |});
      ("Balanced", {| controlnet_conditioning_scale := 0.9; guidance_scale := 6.5;
                      num_inference_steps := 34; control_type := "canny" |});
      ("Creative", {| controlnet_conditioning_scale := 0.58; guidance_scale := 3.0;
                      num_inference_steps := 36; control_type := "canny" |}) ]);
    ("full_body", list_to_map [
      ("Default", {| controlnet_conditioning_scale := 0.95; guidance_scale := 7.0;
                      num_inference_steps := 32; control_type := "canny" |});
      ("Balanced", {| controlnet_conditioning_scale := 0.4; guidance_scale := 8.0;
                      num_inference_steps := 34; control_type := "canny" |});
      ("Creative", {| controlnet_conditioning_scale := 0.4; guidance_scale := 8.0;
                      num_inference_steps := 36; control_type := "canny" |}) ]) ]) ].

(** [PRESET_PARAMETERS[a][b][c]]: the preset, or the key of the [KeyError]. *)
Definition subscript3 (a b c : string) : string + preset :=
  match PRESET_PARAMETERS !! a with
  | None => inl a
  | Some by_sketch_type =>
      match by_sketch_type !! b with
      | None => inl b
      | Some by_preset =>
          match by_preset !! c with
          | None => inl c
          | Some params_dict => inr params_dict
          end
      end
  end.

(** The preset key extracted from the full preset choice string. *)
Definition preset_key_of (preset_choice : string) : string :=
  if contains "Creative" preset_choice then "Creative"
  else if contains "Balanced" preset_choice then "Balanced"
  else "Default".

(** [inl key]: a [KeyError] leaves the function (raised in the handler). *)
Definition get_parameters_from_preset (art_style sketch_type preset_choice : string)
    : M (string + optimal_params * string) :=
  let preset_key := preset_key_of preset_choice in
  match subscript3 art_style sketch_type preset_key with
  | inr params_dict =>
      ret (inr (without_control_type params_dict, control_type params_dict))
  | inl _ =>
      st st_error "Parameter lookup error: {e}. Using default realistic face parameters." ;;
      match subscript3 "realistic" "face" "Default" with
      | inr fallback_dict =>
          ret (inr (without_control_type fallback_dict, control_type fallback_dict))
      | inl key => ret (inl key)
      end
  end.

End Presets.
Export Presets.

(** ** frontend/app.py: the backend-calling functions *)

Module Backends.

Definition balanced_negative : string :=
  "deformed, distorted, disfigured, bad anatomy, bad proportions, extra limbs, missing limbs, floating limbs, mutated hands and fingers, out of focus, long neck, long body, mutated hands and fingers, missing arms, missing legs, extra arms, extra legs, malformed limbs, mutated limbs, double image, blurred, ugly, disgusting, amputation, extra limbs, extra arms, extra legs, disfigured, gross proportions, malformed, mutated, anatomical, anatomical error, goofy, unrealistic, cartoon, anime, painting, drawing, sketch, illustration, low quality, blurry, pixelated".

(** [range(n)]. *)
Definition range (n : nat) : list nat := seq 0 n.

(** How [call_enhanced_controlnet_api] ends: it returns, or [st.stop()]
    ends the script run (Streamlit raises a [BaseException] there, which
    no [except Exception] of the function catches). *)
Inductive outcome :=
| Returns (result : option image)
| Stopped.

(** How its retry loop ends. *)
Inductive loop_exit :=
| Break (r : response)     (* [break] with [response] bound *)
| StStop                   (* [st.stop()] *)
| Exhausted.               (* the [for] ran out; [response] is unbound *)

Section WithEnv.

Variable E : env.

(** *** call_local_controlnet_fallback *)

Definition local_also_failed : M (option image) :=
  st st_error "Local backend also failed: {local_error}" ;;
  st st_info "Please check your Colab backend is running" ;;
  ret None.

Definition call_local_controlnet_fallback
    (image_bytes prompt negative_prompt : string) : M (option image) :=
  let backend_url := get_backend_url E in
  if contains "your-ngrok-url-here" backend_url then
    st st_warning "Backend URL not configured" ;;
    st st_info "Update ngrok_config.py with your current ngrok URL" ;;
    st st_info "   Edit CURRENT_NGROK_URL in ngrok_config.py" ;;
    ret None
  else
    let data := [("image", JStr image_bytes);
                 ("prompt", JStr prompt);
                 ("negative_prompt", JStr negative_prompt)] in
    r <- post E MultipartForm backend_url data ;;
    match r with
    | Responds response =>
        if (status_code response =? 200)%Z then
          match Image_open E (content response) with
          | Some result_image =>
              st st_success "Local ControlNet generation successful!" ;;
              ret (Some result_image)
          | None => local_also_failed
          end
        else
          st st_error "Local backend error: {response.status_code}" ;;
          ret None
    | Raises _ => local_also_failed
    end.

(** *** call_sdxl_http_api *)

Definition sdxl_endpoints : list (string * string) :=
  [("SDXL Base 1.0",
    "https://api-inference.huggingface.co/models/stabilityai/stable-diffusion-xl-base-1.0");
   ("SD 1.5 (Fallback)",
    "https://api-inference.huggingface.co/models/runwayml/stable-diffusion-v1-5")].

Definition sketch_guided_prompt (prompt : string) : string :=
  "professional photography, " +:+ prompt +:+ ", based on sketch outline, following the sketch composition, high quality, detailed, natural lighting, sharp focus, beautiful, 8k, ultra detailed".

(** The [for endpoint in sdxl_endpoints] loop. The [Authorization] header
    built from [hf_token] is not part of the recorded request. *)
Fixpoint sdxl_http_loop (endpoints : list (string * string))
    (prompt negative_prompt : string) : M (option image) :=
  match endpoints with
  | [] => ret None
  | (_, url) :: rest =>
      let enhanced_prompt := sketch_guided_prompt prompt in
      let final_negative :=
        if truthy negative_prompt then negative_prompt else balanced_negative in
      let payload :=
        [("inputs", JStr enhanced_prompt);
         ("parameters", JObj [("negative_prompt", JStr final_negative);
                              ("num_inference_steps", JInt 30);
                              ("guidance_scale", JNum 7.5)])] in
      r <- post E JsonBody url payload ;;
      match r with
      | Responds response =>
          if (status_code response =? 200)%Z then
            if String.prefix "image/" (content_type response) then
              match Image_open E (content response) with
              | Some result_image => ret (Some result_image)
              | None =>
                  st st_warning "{endpoint['name']} failed: {e}" ;;
                  sdxl_http_loop rest prompt negative_prompt
              end
            else
              (* every failure below is swallowed by [except: pass] *)
              match json response with
              | Some image_data =>
                  match image_data !! "image" with
                  | Some b64 =>
                      match b64decode E b64 with
                      | Some decoded =>
                          match Image_open E decoded with
                          | Some result_image => ret (Some result_image)
                          | None => sdxl_http_loop rest prompt negative_prompt
                          end
                      | None => sdxl_http_loop rest prompt negative_prompt
                      end
                  | None => sdxl_http_loop rest prompt negative_prompt
                  end
              | None => sdxl_http_loop rest prompt negative_prompt
              end
          else if (status_code response =? 401)%Z then
            st st_warning "{endpoint['name']}: Unauthorized - check your token" ;;
            sdxl_http_loop rest prompt negative_prompt
          else if (status_code response =? 503)%Z then
            st st_warning "{endpoint['name']}: Service unavailable - model is loading" ;;
            sdxl_http_loop rest prompt negative_prompt
          else
            st st_warning "{endpoint['name']}: HTTP {response.status_code}" ;;
            sdxl_http_loop rest prompt negative_prompt
      | Raises _ =>
          st st_warning "{endpoint['name']} failed: {e}" ;;
          sdxl_http_loop rest prompt negative_prompt
      end
  end.

Definition call_sdxl_http_api
    (image_bytes prompt negative_prompt hf_token : string) : M (option image) :=
  sdxl_http_loop sdxl_endpoints prompt negative_prompt.

(** *** call_sdxl_gradio_api

    The temporary file that carries the sketch is written before and
    removed after the call; the file system is not part of the model. *)

Definition call_sdxl_gradio_api
    (image_bytes prompt negative_prompt hf_token : string) : M (option image) :=
  if negb (gradio_client_installed E) then
    st st_error "gradio_client not installed" ;;
    st st_info "Install with: pip install gradio_client" ;;
    ret None
  else
    r <- predict E "linoyts/sketch-to-3d" "/preprocess_image"
           [("prompt", JStr (sketch_guided_prompt prompt));
            ("negative_prompt",
             JStr (if truthy negative_prompt then negative_prompt else balanced_negative));
            ("style_name", JStr "Photographic");
            ("num_steps", JInt 30);
            ("guidance_scale", JNum 7.5);
            ("controlnet_conditioning_scale", JNum 1.0)] ;;
    match r with
    | PredictReturns result =>
        match result with
        | processed_image_path :: _ =>
            if path_exists E processed_image_path then
              match Image_open_path E processed_image_path with
              | Some result_image => ret (Some result_image)
              | None => st st_warning "Gradio client error: {e}" ;; ret None
              end
            else ret None
        | [] => ret None
        end
    | PredictRaises => st st_warning "Gradio client error: {e}" ;; ret None
    end.

(** *** call_hf_sdxl_api *)

Definition call_hf_sdxl_api (image_bytes prompt negative_prompt : string)
    : M (option image) :=
  let hf_token := getenv_HF_TOKEN E in
  if negb (truthy hf_token) || String.eqb hf_token "your_token_here" then
    st st_error "No Hugging Face token found" ;;
    st st_info "Set your token with: export HF_TOKEN=your_token_here" ;;
    st st_info "Get your token from: https://huggingface.co/settings/tokens" ;;
    st st_info "Switching to local ControlNet..." ;;
    call_local_controlnet_fallback image_bytes prompt negative_prompt
  else
    result <- call_sdxl_http_api image_bytes prompt negative_prompt hf_token ;;
    match result with
    | Some result_image =>
        st st_success "SDXL HTTP API generation successful!" ;;
        ret (Some result_image)
    | None =>
        result <- call_sdxl_gradio_api image_bytes prompt negative_prompt hf_token ;;
        match result with
        | Some result_image =>
            st st_success "SDXL Gradio API generation successful!" ;;
            ret (Some result_image)
        | None =>
            st st_warning "All SDXL APIs failed" ;;
            st st_info "Switching to local ControlNet for similar quality..." ;;
            call_local_controlnet_fallback image_bytes prompt negative_prompt
        end
    end.

(** *** call_kaggle_sdxl_api *)

(** The [except Exception] that wraps the whole function body. *)
Definition kaggle_unavailable (image_bytes prompt negative_prompt : string)
    : M (option image) :=
  st st_warning "Kaggle SDXL is currently unavailable" ;;
  st st_error "Error details: {str(e)}" ;;
  st st_info "Switching to local ControlNet for similar quality..." ;;
  call_local_controlnet_fallback image_bytes prompt negative_prompt.

(** The [for attempt in range(max_retries)] loop, over the attempts that
    are left. *)
Fixpoint kaggle_retry_loop (kaggle_url : string) (json_data : payload)
    (image_bytes prompt negative_prompt : string) (max_retries : nat)
    (attempts : list nat) : M (option image) :=
  match attempts with
  | [] => ret None
  | attempt :: rest =>
      st st_spinner "Generating image with Kaggle SDXL... This may take 3-5 minutes for high-quality results." ;;
      r <- post E JsonBody kaggle_url json_data ;;
      match r with
      | Responds response =>
          if (status_code response =? 200)%Z then
            match json response with
            | None => kaggle_unavailable image_bytes prompt negative_prompt
            | Some result_json =>
                match result_json !! "image" with
                | Some b64 =>
                    match b64decode E b64 with
                    | None => kaggle_unavailable image_bytes prompt negative_prompt
                    | Some result_image_bytes =>
                        match Image_open E result_image_bytes with
                        | None => kaggle_unavailable image_bytes prompt negative_prompt
                        | Some result_image =>
                            st st_success "Kaggle SDXL generation successful!" ;;
                            ret (Some result_image)
                        end
                    end
                | None =>
                    st st_error "Invalid response format from backend" ;;
                    st st_info "Switching to local ControlNet..." ;;
                    call_local_controlnet_fallback image_bytes prompt negative_prompt
                end
            end
          else if (status_code response =? 404)%Z && (attempt <? max_retries - 1)%nat then
            sleep 2 ;;
            kaggle_retry_loop kaggle_url json_data image_bytes prompt negative_prompt
              max_retries rest
          else
            st st_error "Kaggle backend error: {response.status_code}" ;;
            when (status_code response =? 500)%Z
              (st st_error "Backend error details: {response.text}") ;;
            st st_info "Switching to local ControlNet..." ;;
            call_local_controlnet_fallback image_bytes prompt negative_prompt
      | Raises ETimeout =>
          if (attempt <? max_retries - 1)%nat then
            sleep 2 ;;
            kaggle_retry_loop kaggle_url json_data image_bytes prompt negative_prompt
              max_retries rest
          else
            st st_error "All attempts timed out" ;;
            st st_info "Switching to local ControlNet..." ;;
            call_local_controlnet_fallback image_bytes prompt negative_prompt
      | Raises _ =>
          (* not a [Timeout]: the exception leaves the loop *)
          kaggle_unavailable image_bytes prompt negative_prompt
      end
  end.

Definition kaggle_final_negative (negative_prompt : string) : string :=
  if truthy negative_prompt then negative_prompt else balanced_negative.

Definition kaggle_json_data (image_bytes prompt negative_prompt : string) : payload :=
  let enhanced_prompt :=
    "professional photography, " +:+ prompt +:+ ", high quality, detailed, natural lighting, sharp focus, beautiful, masterpiece, 8k, ultra detailed" in
  [("prompt", JStr enhanced_prompt);
   ("negative_prompt", JStr (kaggle_final_negative negative_prompt));
   ("image_data", JStr (b64encode E image_bytes));
   ("control_type", JStr "scribble");
   ("num_inference_steps", JInt 30)].

Definition call_kaggle_sdxl_api (image_bytes prompt negative_prompt : string)
    : M (option image) :=
  let kaggle_url := get_backend_url E in
  if contains "your-ngrok-url-here" kaggle_url then
    st st_warning "Kaggle backend URL not configured" ;;
    st st_info "Update ngrok_config.py with your current ngrok URL" ;;
    st st_info "Switching to local ControlNet..." ;;
    call_local_controlnet_fallback image_bytes prompt negative_prompt
  else
    let json_data := kaggle_json_data image_bytes prompt negative_prompt in
    let max_retries := 3%nat in
    kaggle_retry_loop kaggle_url json_data image_bytes prompt negative_prompt
      max_retries (range max_retries).

(** *** call_enhanced_controlnet_api *)

Definition realistic_face_negative : string :=
  "cartoon, anime, illustration, drawing, painting, 3d render, cgi, doll-like, plastic skin, overprocessed, smooth flat shading, line overlay, heavy outlines, deformed, extra limbs, bad anatomy, multiple faces, blurry, low quality".

Definition realistic_full_body_negative : string :=
  "cartoon, anime, illustration, drawing, painting, 3d render, cgi, doll-like, plastic skin, overprocessed, smooth flat shading, line overlay, heavy outlines, deformed, extra limbs, bad anatomy, multiple people, blurry, low quality".

Definition ultra_realistic_negative : string :=
  "deformed, extra limbs, multiple faces, multiple people, mutated hands, fused fingers, extra fingers, missing fingers, distorted hands, bad anatomy, blurry, out of focus, low quality, glitch, split face, extra heads, extra bodies, anatomical error, inappropriate clothing, revealing, nude, naked, cartoon, anime, illustration, painting, drawing, sketch, unrealistic, artificial, digital art, 3d render, CGI, stylized, animated, cell shaded, flat colors, simple shading, exaggerated features, doll-like, toy-like, plastic, artificial skin, smooth skin, perfect skin, airbrushed, retouched, filtered".

Definition cartoon_face_negative : string :=
  "deformed, extra limbs, multiple faces, mutated hands, blurry, out of focus, low quality, glitch, split face, extra heads, extra bodies, anatomical error, realistic, photograph".

Definition cartoon_full_body_negative : string :=
  "deformed, extra limbs, multiple faces, mutated hands, blurry, out of focus, low quality, glitch, split face, extra heads, extra bodies, anatomical error, multiple people, realistic, photograph".

(** [default if not negative_prompt else f"{default}, {negative_prompt}"]. *)
Definition with_custom_negative (default negative_prompt : string) : string :=
  if negb (truthy negative_prompt) then default
  else default +:+ ", " +:+ negative_prompt.


(** The prompt engineering block: [(enhanced_prompt, enhanced_negative)]. *)
Definition enhanced_prompts (art_style sketch_type prompt negative_prompt : string)
    : string * string :=
  if String.eqb art_style "realistic" then
    if String.eqb sketch_type "face" then
      ("realistic photographic portrait, natural skin texture, professional studio lighting, shallow depth of field, sharp focus, single person, detailed eyes, natural hair, smooth facial geometry, no outline overlay, " +:+ prompt,
       with_custom_negative realistic_face_negative negative_prompt)
    else
      (prompt +:+ ", realistic full body photo, professional photography, studio or clean backdrop, correct human anatomy, natural pose, single person, detailed clothing folds, smooth body geometry, no outline overlay",
       with_custom_negative realistic_full_body_negative negative_prompt)
  else if String.eqb art_style "ultra_realistic" then
    if String.eqb sketch_type "face" then
      ("photorealistic portrait, DSLR photography, natural skin texture with pores, detailed facial features, professional studio lighting, sharp focus, beautiful, proper anatomy, ultra high resolution, 8k quality, HDR, bokeh, natural expression, realistic hair strands, detailed eyes and eyebrows, natural skin tone, single person, single face, no group, no crowd, " +:+ prompt,
       with_custom_negative ultra_realistic_negative negative_prompt)
    else
      (prompt +:+ ", photorealistic full body portrait, DSLR photography, natural skin texture with pores, detailed facial features, wearing casual clothing, decent attire, appropriate dress, proper anatomy, single figure, natural pose, ultra high resolution, 8k quality, HDR, bokeh, natural expression, realistic hair strands, detailed eyes and eyebrows, natural skin tone, single person, no group, no crowd",
       with_custom_negative ultra_realistic_negative negative_prompt)
  else
    if String.eqb sketch_type "face" then
      ("anime style portrait, vibrant colors, stylized features, clean lines, detailed illustration, single face, " +:+ prompt,
       with_custom_negative cartoon_face_negative negative_prompt)
    else
      ("anime style full body portrait, vibrant colors, stylized features, clean lines, detailed illustration, single figure, dynamic pose, " +:+ prompt,
       with_custom_negative cartoon_full_body_negative negative_prompt).

(** The [for attempt in range(max_retries)] loop around the request. *)
Fixpoint enhanced_retry_loop (url : string) (json_data : payload)
    (max_retries : nat) (attempts : list nat) : M loop_exit :=
  match attempts with
  | [] => ret Exhausted
  | attempt :: rest =>
      st st_spinner "Generating {sketch_type.replace('_', ' ')} {art_style} painting... (Attempt {attempt + 1}/{max_retries})" ;;
      r <- post E JsonBody url json_data ;;
      match r with
      | Responds response => ret (Break response)
      | Raises ETimeout =>
          if (attempt <? max_retries - 1)%nat then
            st st_warning "Attempt {attempt + 1} timed out. Retrying..." ;;
            sleep 2 ;;
            enhanced_retry_loop url json_data max_retries rest
          else
            st st_error "All attempts timed out. The backend is processing a complex image." ;;
            st st_info "Try reducing image complexity or using a simpler preset." ;;
            ret StStop
      | Raises EConnectionError =>
          if (attempt <? max_retries - 1)%nat then
            st st_warning "Attempt {attempt + 1} failed due to connection error. Retrying..." ;;
            sleep 3 ;;
            enhanced_retry_loop url json_data max_retries rest
          else
            st st_error "Connection error after all retries. Please check if the backend is running." ;;
            st st_info "Ensure your ngrok URL is up to date and backend is accessible." ;;
            ret StStop
      | Raises EOther =>
          if (attempt <? max_retries - 1)%nat then
            st st_warning "Attempt {attempt + 1} failed: {str(e)}. Retrying..." ;;
            sleep 2 ;;
            enhanced_retry_loop url json_data max_retries rest
          else
            st st_error "All attempts failed with error: {str(e)}" ;;
            ret StStop
      end
  end.

Definition unexpected_error : M outcome :=
  st st_error "Unexpected error: {str(e)}" ;;
  ret (Returns None).

(** The [try] block after the loop. Showing and offering the picture for
    download ([st.image], [st.download_button]) are not recorded. *)
Definition enhanced_handle_response (response : response)
    (art_style preset_choice : string) : M outcome :=
  if (status_code response =? 200)%Z then
    match json response with
    | None => unexpected_error
    | Some result =>
        if bool_decide (result !! "status" = Some "success") then
          match result !! "image" with
          | None => unexpected_error
          | Some b64 =>
              match b64decode E b64 with
              | None => unexpected_error
              | Some image_data =>
                  match Image_open E image_data with
                  | None => unexpected_error
                  | Some result_image =>
                      (if String.eqb art_style "realistic" && contains "Creative" preset_choice
                       then
                         st st_success "{sketch_type.title()} realistic generation successful!" ;;
                         st st_info "Using Scribble ControlNet for enhanced creativity"
                       else
                         st st_success "{sketch_type.title()} {art_style} generation successful!") ;;
                      st st_info "Used optimal parameters: ControlNet={optimal_params['controlnet_conditioning_scale']}, Guidance={optimal_params['guidance_scale']}" ;;
                      st st_info "Generation time: {generation_time:.1f} seconds" ;;
                      ret (Returns (Some result_image))
                  end
              end
          end
        else
          st st_error "Backend error: {result.get('detail', 'Unknown error')}" ;;
          ret (Returns None)
    end
  else
    st st_error "Backend error: {response.status_code}" ;;
    st st_error "Response: {response.text}" ;;
    ret (Returns None).

(** The preset chosen inline for [ultra_realistic]:
    [(optimal_params, control_guidance_end)]. *)
Definition ultra_realistic_preset (preset_choice : string) : optimal_params * Q :=
  if String.prefix "Default" preset_choice || String.eqb preset_choice "Detailed (Current)" then
    ({| op_controlnet_conditioning_scale := 0.7; op_guidance_scale := 3.5;
        op_num_inference_steps := 30 |}, 0.8%Q)
  else if contains "Balanced" preset_choice then
    ({| op_controlnet_conditioning_scale := 0.65; op_guidance_scale := 3.2;
        op_num_inference_steps := 32 |}, 0.65%Q)
  else
    ({| op_controlnet_conditioning_scale := 0.58; op_guidance_scale := 3.0;
        op_num_inference_steps := 36 |}, 0.5%Q).

Definition enhanced_json_data (image_bytes enhanced_prompt enhanced_negative
    control_type sketch_type art_style : string) (optimal_params : optimal_params)
    (control_guidance_start control_guidance_end : Q) (use_refiner : bool) : payload :=
  [("prompt", JStr enhanced_prompt);
   ("negative_prompt", JStr enhanced_negative);
   ("image_data", JStr (b64encode E image_bytes));
   ("control_type", JStr control_type);
   ("sketch_type", JStr sketch_type);
   ("art_style", JStr art_style);
   ("num_inference_steps", JInt (op_num_inference_steps optimal_params));
   ("controlnet_conditioning_scale", JNum (op_controlnet_conditioning_scale optimal_params));
   ("guidance_scale", JNum (op_guidance_scale optimal_params));
   ("control_guidance_start", JNum control_guidance_start);
   ("control_guidance_end", JNum control_guidance_end);
   ("use_refiner", JBool use_refiner)].

(** Everything after the parameters are known. *)
Definition enhanced_generate (backend_url image_bytes prompt negative_prompt
    sketch_type control_type art_style preset_choice : string)
    (optimal_params : optimal_params) (control_guidance_end : Q) (use_refiner : bool)
    : M outcome :=
  let '(enhanced_prompt, enhanced_negative) :=
    enhanced_prompts art_style sketch_type prompt negative_prompt in
  let json_data :=
    enhanced_json_data image_bytes enhanced_prompt enhanced_negative control_type
      sketch_type art_style optimal_params 0.0 control_guidance_end use_refiner in
  let max_retries := 3%nat in
  exit <- enhanced_retry_loop (backend_url +:+ "/generate") json_data
            max_retries (range max_retries) ;;
  match exit with
  | Break response => enhanced_handle_response response art_style preset_choice
  | StStop => ret Stopped
  | Exhausted => unexpected_error
  end.

Definition call_enhanced_controlnet_api (image_bytes prompt negative_prompt
    sketch_type control_type art_style preset_choice : string) : M outcome :=
  let backend_url := get_backend_url E in
  if contains "your-ngrok-url-here" backend_url then
    st st_warning "Backend URL not configured" ;;
    st st_info "Update ngrok_config.py with your current ngrok URL" ;;
    ret (Returns None)
  else if String.eqb art_style "ultra_realistic" then
    let '(optimal_params, control_guidance_end) := ultra_realistic_preset preset_choice in
    enhanced_generate backend_url image_bytes prompt negative_prompt sketch_type
      control_type art_style preset_choice optimal_params control_guidance_end true
  else
    looked_up <- get_parameters_from_preset art_style sketch_type preset_choice ;;
    match looked_up with
    | inr (optimal_params, control_type) =>
        enhanced_generate backend_url image_bytes prompt negative_prompt sketch_type
          control_type art_style preset_choice optimal_params 0.8 false
    | inl _ =>
        st st_error "Function error: {str(e)}" ;;
        ret (Returns None)
    end.

End WithEnv.

(** *** The context-exclusion scan of the guided generation block *)

Definition base_negative : string := balanced_negative.

Definition context_negative (prompt theme : string) : string :=
  if truthy prompt && any_in ["boy"; "child"; "kid"; "young"] (lower prompt) then
    "adult, woman, female, girl, old person, elderly, mature"
  else if truthy prompt && any_in ["girl"; "woman"; "female"; "lady"] (lower prompt) then
    "man, boy, male, child, kid, young"
  else if truthy prompt && any_in ["man"; "male"; "guy"; "dude"] (lower prompt) then
    "woman, girl, female, lady"
  else if contains "animal" (lower theme)
          || any_in ["pet"; "wildlife"; "creature"] (lower theme) then
    "human, person, man, woman, child, boy, girl"
  else if contains "architecture" (lower theme)
          || contains "object" (lower theme)
          || any_in ["building"; "furniture"; "vehicle"; "product"] (lower theme) then
    "human, person, man, woman, child, boy, girl"
  else EmptyString.

(** [negative_prompt] after "Combine base and context negative prompts". *)
Definition combined_negative (prompt theme : string) : string :=
  let context_negative := context_negative prompt theme in
  if truthy context_negative then base_negative +:+ ", " +:+ context_negative
  else base_negative.

End Backends.
Export Backends.

(** ** The specification's wording, for comparison with the code *)

Module Spec.

(** [needle] occurs somewhere inside [hay]. *)
Definition occurs_in (needle hay : string) : Prop :=
  exists before after, hay = before +:+ needle +:+ after.

(** [s] starts with [p]. *)
Definition starts_with (p s : string) : Prop :=
  exists rest, s = p +:+ rest.

(** Tier-name matching: Creative if the string contains "Creative", else
    Balanced if it contains "Balanced", else Default. *)
Inductive selects_tier (tier_string : string) : string -> Prop :=
| tier_creative :
    occurs_in "Creative" tier_string -> selects_tier tier_string "Creative"
| tier_balanced :
    ~ occurs_in "Creative" tier_string -> occurs_in "Balanced" tier_string ->
    selects_tier tier_string "Balanced"
| tier_default :
    ~ occurs_in "Creative" tier_string -> ~ occurs_in "Balanced" tier_string ->
    selects_tier tier_string "Default".

(** The table's entry for a style, a sketch type and a tier, if any. *)
Definition table_entry (art_style sketch_type tier : string) : option preset :=
  (PRESET_PARAMETERS !! art_style ≫= (.!! sketch_type)) ≫= (.!! tier).

(** The pair [(style, sketch_type)] has an entry in the parameter table. *)
Definition in_table (art_style sketch_type : string) : Prop :=
  is_Some (PRESET_PARAMETERS !! art_style ≫= (.!! sketch_type)).

(** A context-exclusion rule: when it matches and what it excludes. *)
Record rule := {
  matches : string -> string -> bool;     (* on the prompt and the theme *)
  excludes : string
}.

Definition mentions (words : list string) (text : string) : bool :=
  existsb (fun word => contains word (lower text)) words.

Definition boy_child_rule : rule :=
  {| matches := fun prompt _ => mentions ["boy"; "child"; "kid"; "young"] prompt;
     excludes := "adult, woman, female, girl, old person, elderly, mature" |}.

Definition girl_woman_rule : rule :=
  {| matches := fun prompt _ => mentions ["girl"; "woman"; "female"; "lady"] prompt;
     excludes := "man, boy, male, child, kid, young" |}.

Definition man_rule : rule :=
  {| matches := fun prompt _ => mentions ["man"; "male"; "guy"; "dude"] prompt;
     excludes := "woman, girl, female, lady" |}.

Definition animal_rule : rule :=
  {| matches := fun _ theme => mentions ["animal"; "pet"; "wildlife"; "creature"] theme;
     excludes := "human, person, man, woman, child, boy, girl" |}.

Definition architecture_object_rule : rule :=
  {| matches := fun _ theme =>
       mentions ["architecture"; "object"; "building"; "furniture"; "vehicle"; "product"] theme;
     excludes := "human, person, man, woman, child, boy, girl" |}.

(** The rules in their fixed priority, highest first. *)
Definition exclusion_rules : list rule :=
  [boy_child_rule; girl_woman_rule; man_rule; animal_rule; architecture_object_rule].

(** The rules that fire: the first one that matches, and no other. *)
Fixpoint fired (rules : list rule) (prompt theme : string) : list rule :=
  match rules with
  | [] => []
  | r :: lower_priority =>
      if matches r prompt theme then [r] else fired lower_priority prompt theme
  end.

(** The fragments joined with the fixed separator after the base. *)
Fixpoint joined (base : string) (fragments : list string) : string :=
  match fragments with
  | [] => base
  | f :: more => joined (base +:+ ", " +:+ f) more
  end.

End Spec.
Export Spec.

(** ** Reading a trace, and scripted worlds for the examples *)

Module Scenario.

(** The effect of a run: what it appended to the trace. *)
Definition emits {A} (P : event -> Prop) (c : M A) : Prop :=
  forall w, exists evs, trace (c w).2 = (trace w ++ evs)%list /\ Forall P evs.

Definition is_message (e : event) : Prop :=
  match e with St _ _ => True | _ => False end.

(** A request that carries [expected] as its negative prompt (nothing is
    asked of the other events). *)
Definition carries_negative (expected : string) (e : event) : Prop :=
  match e with
  | Post _ _ data => field "negative_prompt" data = Some (JStr expected)
  | _ => True
  end.

(** A JSON request to one of the Hugging Face inference endpoints, or a
    message: no Gradio call, no request to the local backend. *)
Definition hf_http_only (e : event) : Prop :=
  match e with
  | Post JsonBody url _ => In url (map snd sdxl_endpoints)
  | Post MultipartForm _ _ => False
  | Predict _ _ _ => False
  | Sleep _ => False
  | St _ _ => True
  end.

(** Anything but a request to the local backend. *)
Definition not_local (e : event) : Prop :=
  match e with
  | Post MultipartForm _ _ => False
  | _ => True
  end.

Definition is_post_as (enc : encoding) (e : event) : bool :=
  match e, enc with
  | Post JsonBody _ _, JsonBody | Post MultipartForm _ _, MultipartForm => true
  | _, _ => false
  end.

(** How many requests of one encoding a piece of trace holds. *)
Definition count_posts (enc : encoding) (evs : list event) : nat :=
  length (List.filter (is_post_as enc) evs).

(** A run sends at most [n] JSON requests. *)
Definition sends_at_most (n : nat) {A} (c : M A) : Prop :=
  forall w, exists evs,
    trace (c w).2 = (trace w ++ evs)%list /\ (count_posts JsonBody evs <= n)%nat.

(** The decoding rule of the Kaggle adapter: status 200 and a JSON body
    whose [image] field is base64 of a picture. [None] is a protocol error. *)
Definition kaggle_decoded (E : env) (r : response) : option image :=
  if (status_code r =? 200)%Z then
    ((json r ≫= (.!! "image")) ≫= b64decode E) ≫= Image_open E
  else None.

(** A world whose [n]-th outside call gets the [n]-th reply of a script
    (nothing answers after the script ends), with transparent codecs. *)
Definition scripted (base_url : string) (replies : list reply) : env :=
  {| CURRENT_NGROK_URL := base_url;
     getenv_HF_TOKEN := "hf_example";
     requests_post := fun n _ _ _ => nth n replies (Raises EConnectionError);
     gradio_client_installed := true;
     client_predict := fun _ _ _ _ => PredictRaises;
     b64encode := fun s => s;
     b64decode := Some;
     Image_open := Some;
     path_exists := fun _ => false;
     Image_open_path := fun _ => None |}.

Definition fresh : world := {| calls := 0; trace := [] |}.

(** A world with more events in its trace and no further outside call. *)
Definition extended (w : world) (evs : list event) : world :=
  {| calls := calls w; trace := trace w ++ evs |}.

(** The world after one attempt of the Kaggle loop has shown its spinner
    and sent its request. *)
Definition after_kaggle_request (kaggle_url : string) (json_data : payload)
    (w : world) : world :=
  {| calls := S (calls w);
     trace := trace w ++ [St st_spinner "Generating image with Kaggle SDXL... This may take 3-5 minutes for high-quality results.";
                          Post JsonBody kaggle_url json_data] |}.

Definition http_status (code : Z) : reply :=
  Responds {| status_code := code; content_type := "text/html"; content := EmptyString;
              json := None |}.

(** A 200 reply whose JSON body is [{"status": "success", "image": picture}]. *)
Definition json_image (picture : string) : reply :=
  Responds {| status_code := 200; content_type := "application/json"; content := EmptyString;
              json := Some (<["status" := "success"]> {["image" := picture]}) |}.

(** A 200 reply whose body is the picture itself. *)
Definition raw_image (picture : string) : reply :=
  Responds {| status_code := 200; content_type := "image/png"; content := picture;
              json := None |}.

(** The same for one attempt of the loop of [call_enhanced_controlnet_api]. *)
Definition after_enhanced_request (url : string) (json_data : payload)
    (w : world) : world :=
  {| calls := S (calls w);
     trace := trace w ++ [St st_spinner "Generating {sketch_type.replace('_', ' ')} {art_style} painting... (Attempt {attempt + 1}/{max_retries})";
                          Post JsonBody url json_data] |}.

End Scenario.
Export Scenario.

(** ** enhanced_theme_system.py: style detection and theme categories *)

Module ThemeDetection.

Definition cartoon_keywords : list string :=
  ["cartoon"; "anime"; "animation"; "disney"; "pixar"; "ghibli"; "manga"; "comic"; "pop art";
   "watercolor"; "impressionist"; "van gogh"; "cyborg"; "robot"; "steampunk"; "cyberpunk";
   "fantasy"; "sci-fi"; "digital art"].

Definition realistic_keywords : list string :=
  ["realistic"; "photograph"; "professional"; "studio"; "natural"; "cinematic"; "vintage";
   "modern"; "headshot"; "portrait"; "fashion"; "celebrity"; "magazine"; "artistic";
   "oil painting"; "humanoid"; "horror"; "romantic"].

Definition THEME_CATEGORIES : gmap string (list string) := list_to_map [
   ("Human",
    ["Realistic portrait, professional photography, natural skin, detailed features, studio background, sharp focus, beautiful";
     "Professional headshot, natural lighting, studio background, sharp focus, high resolution, detailed facial features";
     "Studio photography, natural lighting, detailed face, professional camera, sharp focus, beautiful features, high quality";
     "High fashion portrait, professional photography, natural skin texture, detailed eyes, natural hair, studio lighting, 4k quality";
     "Celebrity style portrait, professional photography, natural skin, detailed features, studio background, sharp focus, beautiful";
     "Magazine cover portrait, natural lighting, detailed face, professional camera, sharp focus, beautiful features, high quality";
     "Artistic portrait, professional photography, natural skin texture, detailed eyes, natural hair, studio lighting, 4k quality";
     "Cinematic portrait, natural lighting, detailed face, professional camera, sharp focus, beautiful features, high quality";
     "Vintage portrait, professional photography, natural skin, detailed features, studio background, sharp focus, beautiful";
     "Modern portrait, natural lighting, detailed face, professional camera, sharp focus, beautiful features, high quality";
     "Van Gogh style";
     "Cartoon version";
     "Turn into a cyborg";
     "Watercolor painting";
     "Anime style";
     "Futuristic robot";
     "Old photo";
     "Pop art";
     "Impressionist painting";
     "Disney animation style";
     "Studio Ghibli style";
     "Pixar 3D animation";
     "Realistic humanoid";
     "Cartoon Network style";
     "Marvel comic style";
     "DC Comics style";
     "Japanese manga";
     "European oil painting";
     "Digital art";
     "Steampunk style";
     "Cyberpunk aesthetic";
     "Fantasy art";
     "Sci-fi concept art";
     "Horror movie style";
     "Romantic painting"]);
   ("Architecture",
    ["Modern skyscraper";
     "Classic European landmark";
     "Futuristic cityscape";
     "Ancient temple";
     "Famous bridge";
     "Interior design";
     "Street scene";
     "Nature landscape"]);
   ("Object",
    ["Furniture design";
     "Product rendering";
     "Vehicle concept art";
     "Gadget prototype";
     "Fashion design sketch";
     "Jewelry design";
     "Sports equipment";
     "Musical instrument";
     "Book cover art";
     "Poster design";
     "Still life painting";
     "Food photography";
     "Animal illustration"]);
   ("Animal",
    ["Animal illustration";
     "Nature landscape";
     "Cartoon version";
     "Anime style";
     "Pixar 3D animation";
     "Studio Ghibli style";
     "Disney animation style";
     "Realistic humanoid"]);
   ("Other",
    ["DALL-E surrealism";
     "Midjourney photorealism";
     "Stable Diffusion fantasy";
     "DreamBooth custom style";
     "Deep Dream psychedelic";
     "RunwayML cinematic";
     "NightCafe creative";
     "Artbreeder blend"])
].

(** The two [for keyword in ...: if keyword in theme_lower: return ...]
    loops, then the default. *)
Definition detect_theme_style (theme_name : string) : string :=
  let theme_lower := lower theme_name in
  if any_in cartoon_keywords theme_lower then "cartoon"
  else if any_in realistic_keywords theme_lower then "realistic"
  else "realistic".

(** [THEME_CATEGORIES[category]], or nothing for a [KeyError]. *)
Definition themes_of (category : string) : list string :=
  default [] (THEME_CATEGORIES !! category).

End ThemeDetection.
Export ThemeDetection.

(** ** frontend/app.py: the fallback theme system (used when the import of
       enhanced_theme_system fails) *)

Module FallbackThemes.

Import ThemeSystem.

Definition theme_descriptions : gmap string theme_info := list_to_map [
  ("Realistic portrait, professional photography, natural skin, detailed features, studio background, sharp focus, beautiful",
   {| description := "Professional photography with natural skin texture and detailed facial features";
      style := "realistic";
      positive_prompt := "realistic portrait, professional photography, natural skin, detailed features, studio background, sharp focus, beautiful";
      negative_prompt := "cartoon, anime, illustration, painting, drawing, sketch, unrealistic, deformed" |});
  ("Modern portrait, natural lighting, detailed face, professional camera, sharp focus, beautiful features, high quality",
   {| description := "Modern photography style with natural lighting and professional camera";
      style := "realistic";
      positive_prompt := "modern portrait, natural lighting, detailed face, professional camera, sharp focus, beautiful features, high quality";
      negative_prompt := "cartoon, anime, illustration, painting, drawing, sketch, unrealistic, deformed" |});
  ("Studio photography, natural lighting, detailed face, professional camera, sharp focus, beautiful features, high quality",
   {| description := "Studio photography with natural lighting and professional camera quality";
      style := "realistic";
      positive_prompt := "studio photography, natural lighting, detailed face, professional camera, sharp focus, beautiful features, high quality";
      negative_prompt := "cartoon, anime, illustration, painting, drawing, sketch, unrealistic, deformed" |});
  ("Professional headshot, natural lighting, studio background, sharp focus, high resolution, detailed facial features",
   {| description := "Corporate headshot style with natural lighting and high resolution";
      style := "realistic";
      positive_prompt := "professional headshot, natural lighting, studio background, sharp focus, high resolution, detailed facial features";
      negative_prompt := "cartoon, anime, illustration, painting, drawing, sketch, unrealistic, deformed" |});
  ("High fashion portrait, professional photography, natural skin texture, detailed eyes, natural hair, studio lighting, 4k quality",
   {| description := "High fashion magazine style with 4K quality and detailed features";
      style := "realistic";
      positive_prompt := "high fashion portrait, professional photography, natural skin texture, detailed eyes, natural hair, studio lighting, 4k quality";
      negative_prompt := "cartoon, anime, illustration, painting, drawing, sketch, unrealistic, deformed" |});
  ("Celebrity style portrait, professional photography, natural skin, detailed features, studio background, sharp focus, beautiful",
   {| description := "Celebrity magazine style with professional photography";
      style := "realistic";
      positive_prompt := "celebrity style portrait, professional photography, natural skin, detailed features, studio background, sharp focus, beautiful";
      negative_prompt := "cartoon, anime, illustration, painting, drawing, sketch, unrealistic, deformed" |});
  ("Magazine cover portrait, natural lighting, detailed face, professional camera, sharp focus, beautiful features, high quality",
   {| description := "Magazine cover style with professional camera and sharp focus";
      style := "realistic";
      positive_prompt := "magazine cover portrait, natural lighting, detailed face, professional camera, sharp focus, beautiful features, high quality";
      negative_prompt := "cartoon, anime, illustration, painting, drawing, sketch, unrealistic, deformed" |});
  ("Artistic portrait, professional photography, natural skin texture, detailed eyes, natural hair, studio lighting, 4k quality",
   {| description := "Artistic photography with natural skin texture and detailed features";
      style := "realistic";
      positive_prompt := "artistic portrait, professional photography, natural skin texture, detailed eyes, natural hair, studio lighting, 4k quality";
      negative_prompt := "cartoon, anime, illustration, painting, drawing, sketch, unrealistic, deformed" |});
  ("Cinematic portrait, natural lighting, detailed face, professional camera, sharp focus, beautiful features, high quality",
   {| description := "Cinematic movie style with dramatic lighting and professional quality";
      style := "realistic";
      positive_prompt := "cinematic portrait, natural lighting, detailed face, professional camera, sharp focus, beautiful features, high quality";
      negative_prompt := "cartoon, anime, illustration, painting, drawing, sketch, unrealistic, deformed" |});
  ("Vintage portrait, professional photography, natural skin, detailed features, studio background, sharp focus, beautiful",
   {| description := "Vintage photography style with classic studio lighting";
      style := "realistic";
      positive_prompt := "vintage portrait, professional photography, natural skin, detailed features, studio background, sharp focus, beautiful";
      negative_prompt := "cartoon, anime, illustration, painting, drawing, sketch, unrealistic, deformed" |});
  ("Van Gogh style",
   {| description := "Post-impressionist painting style with bold colors and expressive brushstrokes";
      style := "cartoon";
      positive_prompt := "Van Gogh style painting, post-impressionist, bold colors, expressive brushstrokes, artistic";
      negative_prompt := "realistic, photograph, modern, clean, smooth" |});
  ("Cartoon version",
   {| description := "Classic cartoon style with bold outlines and vibrant colors";
      style := "cartoon";
      positive_prompt := "cartoon style, bold outlines, vibrant colors, animated, stylized";
      negative_prompt := "realistic, photograph, detailed, natural" |});
  ("Anime style",
   {| description := "Japanese anime style with large eyes and stylized features";
      style := "cartoon";
      positive_prompt := "anime style, Japanese animation, large eyes, stylized features, vibrant colors";
      negative_prompt := "realistic, photograph, natural, detailed" |})].

(** [theme_descriptions.get(theme_name, {...})]. *)
Definition get_theme_info (theme_name : string) : theme_info :=
  match theme_descriptions !! theme_name with
  | Some info => info
  | None =>
      {| description := "Default theme";
         style := "realistic";
         positive_prompt := theme_name;
         negative_prompt := EmptyString |}
  end.

Definition get_enhanced_prompts_for_theme
    (theme_name sketch_type user_prompt : string) : string * string * string :=
  let theme_info := get_theme_info theme_name in
  let '(enhanced_prompt, enhanced_negative) :=
    if truthy user_prompt then
      if String.eqb sketch_type "face" then
        if String.eqb (style theme_info) "realistic" then
          (user_prompt +:+ ", realistic portrait of one person, " +:+ positive_prompt theme_info +:+ ", detailed facial features, proper anatomy, single face",
           negative_prompt theme_info +:+ ", deformed, extra limbs, multiple faces, mutated hands, blurry, out of focus, low quality, glitch, split face, extra heads, extra bodies, anatomical error")
        else
          (user_prompt +:+ ", anime style portrait, " +:+ positive_prompt theme_info +:+ ", stylized features, clean lines, detailed illustration, single face",
           negative_prompt theme_info +:+ ", deformed, extra limbs, multiple faces, mutated hands, blurry, out of focus, low quality, glitch, split face, extra heads, extra bodies, anatomical error, realistic, photograph")
      else
        if String.eqb (style theme_info) "realistic" then
          (user_prompt +:+ ", realistic full body portrait of one person, " +:+ positive_prompt theme_info +:+ ", proper anatomy, single figure, natural pose",
           negative_prompt theme_info +:+ ", deformed, extra limbs, multiple faces, mutated hands, blurry, out of focus, low quality, glitch, split face, extra heads, extra bodies, anatomical error, multiple people")
        else
          (user_prompt +:+ ", anime style full body portrait, " +:+ positive_prompt theme_info +:+ ", stylized features, clean lines, detailed illustration, single figure, dynamic pose",
           negative_prompt theme_info +:+ ", deformed, extra limbs, multiple faces, mutated hands, blurry, out of focus, low quality, glitch, split face, extra heads, extra bodies, anatomical error, multiple people, realistic, photograph")
    else
      if String.eqb sketch_type "face" then
        if String.eqb (style theme_info) "realistic" then
          ("realistic portrait of one person, " +:+ positive_prompt theme_info +:+ ", detailed facial features, proper anatomy, single face",
           negative_prompt theme_info +:+ ", deformed, extra limbs, multiple faces, mutated hands, blurry, out of focus, low quality, glitch, split face, extra heads, extra bodies, anatomical error")
        else
          ("anime style portrait, " +:+ positive_prompt theme_info +:+ ", stylized features, clean lines, detailed illustration, single face",
           negative_prompt theme_info +:+ ", deformed, extra limbs, multiple faces, mutated hands, blurry, out of focus, low quality, glitch, split face, extra heads, extra bodies, anatomical error, realistic, photograph")
      else
        if String.eqb (style theme_info) "realistic" then
          ("realistic full body portrait of one person, " +:+ positive_prompt theme_info +:+ ", proper anatomy, single figure, natural pose",
           negative_prompt theme_info +:+ ", deformed, extra limbs, multiple faces, mutated hands, blurry, out of focus, low quality, glitch, split face, extra heads, extra bodies, anatomical error, multiple people")
        else
          ("anime style full body portrait, " +:+ positive_prompt theme_info +:+ ", stylized features, clean lines, detailed illustration, single figure, dynamic pose",
           negative_prompt theme_info +:+ ", deformed, extra limbs, multiple faces, mutated hands, blurry, out of focus, low quality, glitch, split face, extra heads, extra bodies, anatomical error, multiple people, realistic, photograph")
  in
  (enhanced_prompt, enhanced_negative, style theme_info).

End FallbackThemes.

(** ** frontend/app.py: the token estimate *)

Module Tokens.

(** The ASCII characters on which [str.split()] separates words. *)
Definition is_space (c : ascii) : bool :=
  let n := nat_of_ascii c in
  ((9 <=? n) && (n <=? 13) || (28 <=? n) && (n <=? 32))%nat.

(** [text.split()], with [word] the word being read. *)
Fixpoint split_from (word text : string) : list string :=
  match text with
  | EmptyString => if truthy word then [word] else []
  | String c rest =>
      if is_space c then
        if truthy word then word :: split_from EmptyString rest
        else split_from EmptyString rest
      else split_from (word +:+ String c EmptyString) rest
  end.

Definition split (text : string) : list string := split_from EmptyString text.

Definition count_tokens_approximate (text : string) : Z :=
  Z.of_nat (length (split text)) + Z.of_nat (String.length text) / 4.

(** [max_tokens * 0.8] is taken as the rational number: for an integer
    [max_tokens] the comparison with an integer comes out the same. *)
Definition check_prompt_length (prompt : string) (max_tokens : Z) : M bool :=
  let token_count := count_tokens_approximate prompt in
  if (max_tokens <? token_count)%Z then
    st st_warning "Your prompt is {token_count} tokens (limit: {max_tokens}). Some details may be cut off!" ;;
    st st_info "Consider shortening your prompt to prioritize key details like hair color, clothing, etc." ;;
    ret false
  else if negb (Qle_bool (inject_Z token_count) (inject_Z max_tokens * 0.8)) then
    st st_info "Your prompt is {token_count}/{max_tokens} tokens. Consider shortening to avoid truncation." ;;
    ret true
  else ret true.

End Tokens.
Export Tokens.

(** ** frontend/app.py: prompts of the generation block *)

Module GenerationBlock.

(** The prompt for the model "ControlNet". *)
Definition controlnet_model_prompt (theme prompt : string) : string :=
  if contains "portrait" (lower theme) || contains "headshot" (lower theme) then
    "young boy portrait, " +:+ prompt +:+ ", male child, boy face, child portrait, high quality, detailed face, natural lighting, sharp focus, perfect anatomy, symmetrical face, natural proportions"
  else if contains "realistic" (lower theme) then
    "young boy, " +:+ prompt +:+ ", male child, boy face, realistic human portrait, professional photography, detailed features, natural skin texture, high resolution, beautiful, perfect anatomy, symmetrical face, natural proportions"
  else if truthy prompt then "young boy, " +:+ prompt +:+ ", male child"
  else "young boy, male child".

(** "REGENERATE PROMPT to match the selected style" in the branch of the model
    "SDXL + ControlNet (Kaggle)": [(enhanced_prompt, enhanced_negative)]. *)
Definition regenerate_prompt (manual_style sketch_type prompt negative_prompt : string)
    : string * string :=
  if String.eqb manual_style "realistic" then
    if String.eqb sketch_type "face" then
      ((if truthy prompt then prompt else "portrait") +:+ ", realistic photographic portrait, natural skin texture, professional studio lighting, shallow depth of field, sharp focus, single person, detailed eyes, natural hair, smooth facial geometry, no outline overlay",
       realistic_face_negative)
    else
      ((if truthy prompt then prompt else "full body portrait") +:+ ", realistic full body photo, professional photography, studio or clean backdrop, correct human anatomy, natural pose, single person, detailed clothing folds, smooth body geometry, no outline overlay",
       realistic_full_body_negative)
  else if String.eqb manual_style "cartoon" then
    if String.eqb sketch_type "face" then
      ((if truthy prompt then prompt else "portrait") +:+ ", anime style portrait, vibrant colors, stylized features, clean lines, detailed illustration, single face",
       cartoon_face_negative)
    else
      ((if truthy prompt then prompt else "full body portrait") +:+ ", anime style full body portrait, vibrant colors, stylized features, clean lines, detailed illustration, single figure, dynamic pose",
       cartoon_full_body_negative)
  else
    if String.eqb sketch_type "face" then
      ((if truthy prompt then prompt else "portrait") +:+ ", photorealistic portrait, DSLR photography, natural skin texture with pores, detailed facial features, professional studio lighting, sharp focus, beautiful, proper anatomy, ultra high resolution, 8k quality, HDR, bokeh, natural expression, realistic hair strands, detailed eyes and eyebrows, natural skin tone, single person, single face, no group, no crowd",
       with_custom_negative ultra_realistic_negative negative_prompt)
    else
      ((if truthy prompt then prompt else "full body portrait") +:+ ", photorealistic full body portrait, DSLR photography, natural skin texture with pores, detailed facial features, wearing casual clothing, decent attire, appropriate dress, proper anatomy, single figure, natural pose, ultra high resolution, 8k quality, HDR, bokeh, natural expression, realistic hair strands, detailed eyes and eyebrows, natural skin tone, single person, no group, no crowd",
       with_custom_negative ultra_realistic_negative negative_prompt).

(** The same block in the branch of the model "SDXL + ControlNet Official
    (Kaggle)". *)
Definition regenerate_prompt_official (manual_style sketch_type prompt negative_prompt : string)
    : string * string :=
  if String.eqb manual_style "realistic" then
    if String.eqb sketch_type "face" then
      ((if truthy prompt then prompt else "portrait") +:+ ", realistic photographic portrait, natural skin texture, professional studio lighting, shallow depth of field, sharp focus, single person, detailed eyes, natural hair, smooth facial geometry, no outline overlay",
       realistic_face_negative)
    else
      ((if truthy prompt then prompt else "full body portrait") +:+ ", realistic full body photo, professional photography, studio or clean backdrop, correct human anatomy, natural pose, single person, detailed clothing folds, smooth body geometry, no outline overlay",
       realistic_full_body_negative)
  else if String.eqb manual_style "cartoon" then
    if String.eqb sketch_type "face" then
      ("anime style portrait, vibrant colors, stylized features, clean lines, detailed illustration, single face, " +:+ (if truthy prompt then prompt else "portrait"),
       cartoon_face_negative)
    else
      ("anime style full body portrait, vibrant colors, stylized features, clean lines, detailed illustration, single figure, dynamic pose, " +:+ (if truthy prompt then prompt else "full body portrait"),
       cartoon_full_body_negative)
  else
    if String.eqb sketch_type "face" then
      ("photorealistic portrait, DSLR photography, natural skin texture with pores, detailed facial features, professional studio lighting, sharp focus, beautiful, proper anatomy, ultra high resolution, 8k quality, HDR, bokeh, natural expression, realistic hair strands, detailed eyes and eyebrows, natural skin tone, single person, single face, no group, no crowd, " +:+ (if truthy prompt then prompt else "portrait"),
       with_custom_negative ultra_realistic_negative negative_prompt)
    else
      ((if truthy prompt then prompt else "full body portrait") +:+ ", photorealistic full body portrait, DSLR photography, natural skin texture with pores, detailed facial features, wearing casual clothing, decent attire, appropriate dress, proper anatomy, single figure, natural pose, ultra high resolution, 8k quality, HDR, bokeh, natural expression, realistic hair strands, detailed eyes and eyebrows, natural skin tone, single person, no group, no crowd, " +:+ (if truthy prompt then prompt else "full body portrait"),
       with_custom_negative ultra_realistic_negative negative_prompt).

(** The "Simple token count warning" that follows ([st] has no attribute
    [check_prompt_length], so this branch is the one that runs). *)
Definition token_estimate_warning (enhanced_prompt : string) : M unit :=
  let token_estimate := count_tokens_approximate enhanced_prompt in
  if (77 <? token_estimate)%Z then
    st st_warning "Your prompt is approximately {token_estimate} tokens (limit: 77). Some details may be cut off!" ;;
    st st_info "Consider shortening your prompt to prioritize key details like hair color, clothing, etc."
  else ret tt.

(** From "Get enhanced prompts from theme system" to the token warning, with
    the regeneration block as a parameter:
    [(enhanced_prompt, enhanced_negative, detected_style)]. [negative_prompt]
    is the combined negative prompt of the context scan, [manual_style] is
    [st.session_state.get("art_style", "realistic")]. *)
Definition prompts_with (regenerate : string -> string -> string -> string -> string * string)
    (theme sketch_type prompt negative_prompt manual_style : string)
    : M (string * string * string) :=
  let '(enhanced_prompt, enhanced_negative, detected_style) :=
    ThemeSystem.get_enhanced_prompts_for_theme theme sketch_type
      (if truthy prompt then prompt else EmptyString) in
  composed <-
    (if negb (String.eqb manual_style detected_style) then
       st st_info "Overriding theme detection: Using {manual_style.title()} style (you selected) instead of {detected_style.title()} (theme detected)" ;;
       let '(enhanced_prompt, enhanced_negative) :=
         regenerate manual_style sketch_type prompt negative_prompt in
       ret (enhanced_prompt, enhanced_negative, manual_style)
     else ret (enhanced_prompt, enhanced_negative, detected_style)) ;;
  st st_info "Theme Style: {detected_style.title()}" ;;
  st st_info "Enhanced Prompt: {enhanced_prompt}" ;;
  token_estimate_warning composed.1.1 ;;
  ret composed.

(** Model "SDXL + ControlNet (Kaggle)". *)
Definition sdxl_controlnet_prompts := prompts_with regenerate_prompt.

(** Model "SDXL + ControlNet Official (Kaggle)". *)
Definition sdxl_controlnet_official_prompts := prompts_with regenerate_prompt_official.

End GenerationBlock.
Export GenerationBlock.

(** ** frontend/app.py: the other backend-calling functions *)

Module MoreBackends.

Section WithEnv.

Variable E : env.

(** *** call_controlnet_union_official_api *)

(** The [except Exception] that wraps the whole function body. *)
Definition union_unavailable (image_bytes prompt negative_prompt : string)
    : M (option image) :=
  st st_warning "Official ControlNet++ Union is currently unavailable" ;;
  st st_error "Error details: {str(e)}" ;;
  st st_info "Switching to local ControlNet for similar quality..." ;;
  call_local_controlnet_fallback E image_bytes prompt negative_prompt.

Fixpoint union_retry_loop (union_url : string) (json_data : payload)
    (image_bytes prompt negative_prompt : string) (max_retries : nat)
    (attempts : list nat) : M (option image) :=
  match attempts with
  | [] => ret None
  | attempt :: rest =>
      st st_spinner "Generating image with Official ControlNet++ Union... This may take 3-5 minutes for high-quality results." ;;
      r <- post E JsonBody union_url json_data ;;
      match r with
      | Responds response =>
          if (status_code response =? 200)%Z then
            match json response with
            | None => union_unavailable image_bytes prompt negative_prompt
            | Some result_json =>
                match result_json !! "image" with
                | Some b64 =>
                    match b64decode E b64 with
                    | None => union_unavailable image_bytes prompt negative_prompt
                    | Some result_image_bytes =>
                        match Image_open E result_image_bytes with
                        | None => union_unavailable image_bytes prompt negative_prompt
                        | Some result_image =>
                            st st_success "Official ControlNet++ Union generation successful!" ;;
                            ret (Some result_image)
                        end
                    end
                | None =>
                    st st_error "Invalid response format from backend" ;;
                    st st_info "Switching to local ControlNet..." ;;
                    call_local_controlnet_fallback E image_bytes prompt negative_prompt
                end
            end
          else if (status_code response =? 404)%Z && (attempt <? max_retries - 1)%nat then
            sleep 2 ;;
            union_retry_loop union_url json_data image_bytes prompt negative_prompt
              max_retries rest
          else
            st st_error "Official ControlNet++ Union backend error: {response.status_code}" ;;
            when (status_code response =? 500)%Z
              (st st_error "Backend error details: {response.text}") ;;
            st st_info "Switching to local ControlNet..." ;;
            call_local_controlnet_fallback E image_bytes prompt negative_prompt
      | Raises ETimeout =>
          if (attempt <? max_retries - 1)%nat then
            sleep 2 ;;
            union_retry_loop union_url json_data image_bytes prompt negative_prompt
              max_retries rest
          else
            st st_error "All attempts timed out" ;;
            st st_info "Switching to local ControlNet..." ;;
            call_local_controlnet_fallback E image_bytes prompt negative_prompt
      | Raises _ => union_unavailable image_bytes prompt negative_prompt
      end
  end.

Definition union_json_data (image_bytes prompt negative_prompt : string) : payload :=
  let control_type := "scribble" in
  [("prompt", JStr prompt);
   ("negative_prompt", JStr negative_prompt);
   ("image_data", JStr (b64encode E image_bytes));
   ("control_type", JStr control_type);
   ("num_inference_steps", JInt 30)].

Definition call_controlnet_union_official_api (image_bytes prompt negative_prompt : string)
    : M (option image) :=
  let union_url := get_backend_url E in
  if contains "your-ngrok-url-here" union_url then
    st st_warning "Official ControlNet++ Union backend URL not configured" ;;
    st st_info "Update ngrok_config.py with your current ngrok URL" ;;
    st st_info "Switching to local ControlNet..." ;;
    call_local_controlnet_fallback E image_bytes prompt negative_prompt
  else
    let json_data := union_json_data image_bytes prompt negative_prompt in
    let max_retries := 3%nat in
    union_retry_loop union_url json_data image_bytes prompt negative_prompt
      max_retries (range max_retries).

(** *** call_linoyts_approach_api *)

Definition linoyts_negative : string :=
  "longbody, lowres, bad anatomy, bad hands, missing fingers, extra digit, fewer digits, cropped, worst quality, low quality, blurry, distorted, disfigured, multiple faces, multiple heads".

(** The loop; what follows it ("If we get here, all attempts failed") is the
    case of no attempt left. [except Exception as inner_e] catches whatever
    the attempt raises that is not a [Timeout]. *)
Fixpoint linoyts_retry_loop (linoyts_url : string) (json_data : payload)
    (image_bytes prompt negative_prompt : string) (max_retries : nat)
    (attempts : list nat) : M (option image) :=
  match attempts with
  | [] =>
      st st_warning "Linoyts Approach is currently unavailable" ;;
      st st_info "Switching to local ControlNet for similar quality..." ;;
      call_local_controlnet_fallback E image_bytes prompt negative_prompt
  | attempt :: rest =>
      let except_inner_e :=
        if (attempt <? max_retries - 1)%nat then
          st st_warning "Attempt {attempt + 1} failed: {str(inner_e)}. Retrying..." ;;
          sleep 2 ;;
          linoyts_retry_loop linoyts_url json_data image_bytes prompt negative_prompt
            max_retries rest
        else
          st st_error "All attempts failed with error: {str(inner_e)}" ;;
          st st_info "Switching to local ControlNet..." ;;
          call_local_controlnet_fallback E image_bytes prompt negative_prompt in
      st st_spinner "Generating image with Linoyts Approach... This may take 3-5 minutes for high-quality results." ;;
      r <- post E JsonBody linoyts_url json_data ;;
      match r with
      | Responds response =>
          if (status_code response =? 200)%Z then
            match json response with
            | None => except_inner_e
            | Some result_json =>
                match result_json !! "image" with
                | Some b64 =>
                    match b64decode E b64 with
                    | None => except_inner_e
                    | Some result_image_bytes =>
                        match Image_open E result_image_bytes with
                        | None => except_inner_e
                        | Some result_image =>
                            st st_success "Linoyts Approach generation successful!" ;;
                            ret (Some result_image)
                        end
                    end
                | None =>
                    st st_error "Invalid response format from backend" ;;
                    st st_info "Switching to local ControlNet..." ;;
                    call_local_controlnet_fallback E image_bytes prompt negative_prompt
                end
            end
          else if (status_code response =? 404)%Z && (attempt <? max_retries - 1)%nat then
            sleep 2 ;;
            linoyts_retry_loop linoyts_url json_data image_bytes prompt negative_prompt
              max_retries rest
          else
            st st_error "Linoyts Approach backend error: {response.status_code}" ;;
            when (status_code response =? 500)%Z
              (st st_error "Backend error details: {response.text}") ;;
            st st_info "Switching to local ControlNet..." ;;
            call_local_controlnet_fallback E image_bytes prompt negative_prompt
      | Raises ETimeout =>
          if (attempt <? max_retries - 1)%nat then
            sleep 2 ;;
            linoyts_retry_loop linoyts_url json_data image_bytes prompt negative_prompt
              max_retries rest
          else
            st st_error "All attempts timed out" ;;
            st st_info "Switching to local ControlNet..." ;;
            call_local_controlnet_fallback E image_bytes prompt negative_prompt
      | Raises _ => except_inner_e
      end
  end.

Definition linoyts_json_data (image_bytes prompt negative_prompt : string) : payload :=
  let enhanced_prompt :=
    "realistic human portrait, " +:+ prompt +:+ ", detailed face, natural proportions, studio lighting, high quality, professional photography" in
  let final_negative :=
    if truthy negative_prompt then negative_prompt else linoyts_negative in
  [("prompt", JStr enhanced_prompt);
   ("negative_prompt", JStr final_negative);
   ("image_data", JStr (b64encode E image_bytes));
   ("control_type", JStr "scribble");
   ("num_inference_steps", JInt 25)].

Definition call_linoyts_approach_api (image_bytes prompt negative_prompt : string)
    : M (option image) :=
  let linoyts_url := get_backend_url E in
  if contains "your-ngrok-url-here" linoyts_url then
    st st_warning "Linoyts Approach backend URL not configured" ;;
    st st_info "Update ngrok_config.py with your current ngrok URL" ;;
    st st_info "Switching to local ControlNet..." ;;
    call_local_controlnet_fallback E image_bytes prompt negative_prompt
  else
    let json_data := linoyts_json_data image_bytes prompt negative_prompt in
    let max_retries := 3%nat in
    linoyts_retry_loop linoyts_url json_data image_bytes prompt negative_prompt
      max_retries (range max_retries).

End WithEnv.

(** *** call_3d_model_api *)

(** What the second Gradio call ([/image_to_3d]) gives back: a dict (with its
    string fields), a falsy value, or an exception. (Its empty [multiimages]
    argument is not recorded.) *)
Inductive predict_3d_reply :=
| Predict3dReturns (result_3d : option (gmap string string))
| Predict3dRaises.

(** The outside world together with the answers of [/image_to_3d]. *)
Record env_3d := {
  outside : env;
  client_predict_3d : nat -> string -> predict_3d_reply
}.

(** The dict that [call_3d_model_api] returns. *)
Inductive result_3d :=
| Model3d (video_path processed_image_path : string)    (* "type": "3d" *)
| Picture (picture : image).                            (* "type": "image" *)

(** It returns, or the [ImportError] of [gradio_client] leaves it (the outer
    [try] has only a [finally]). *)
Inductive outcome_3d :=
| Returns3d (result : option result_3d)
| RaisesImportError.

Section WithEnv3d.

Variable E3 : env_3d.

Definition predict_3d (processed_image_path : string) : M predict_3d_reply :=
  fun w => (client_predict_3d E3 (calls w) processed_image_path,
            {| calls := S (calls w);
               trace := trace w ++ [Predict "linoyts/sketch-to-3d" "/image_to_3d"
                                      [("image", JStr processed_image_path);
                                       ("seed", JInt 0);
                                       ("ss_guidance_strength", JNum 7.5);
                                       ("ss_sampling_steps", JInt 12);
                                       ("slat_guidance_strength", JInt 3);
                                       ("slat_sampling_steps", JInt 12);
                                       ("multiimage_algo", JStr "stochastic")]] |}).

(** The [except Exception] of the Gradio stages: the local backend, asked
    without looking at the configured URL first. *)
Definition fallback_3d (image_bytes prompt negative_prompt : string) : M outcome_3d :=
  let E := outside E3 in
  st st_warning "3D generation is currently unavailable" ;;
  st st_info "Switching to local ControlNet for image generation..." ;;
  let backend_url := get_backend_url E in
  let data := [("image", JStr image_bytes);
               ("prompt", JStr prompt);
               ("negative_prompt", JStr negative_prompt)] in
  r <- post E MultipartForm backend_url data ;;
  match r with
  | Responds response =>
      if (status_code response =? 200)%Z then
        match Image_open E (content response) with
        | Some result_image =>
            st st_success "Local ControlNet generation successful!" ;;
            ret (Returns3d (Some (Picture result_image)))
        | None =>
            st st_error "Local backend also failed: {local_error}" ;;
            st st_info "Please check your Colab backend is running" ;;
            ret (Returns3d None)
        end
      else
        st st_error "Local backend error: {response.status_code}" ;;
        ret (Returns3d None)
  | Raises _ =>
      st st_error "Local backend also failed: {local_error}" ;;
      st st_info "Please check your Colab backend is running" ;;
      ret (Returns3d None)
  end.

Definition call_3d_model_api (image_bytes prompt negative_prompt : string) : M outcome_3d :=
  let E := outside E3 in
  if negb (gradio_client_installed E) then ret RaisesImportError
  else
    r <- predict E "linoyts/sketch-to-3d" "/preprocess_image"
           [("prompt", JStr prompt);
            ("negative_prompt",
             JStr (if truthy negative_prompt then negative_prompt else balanced_negative));
            ("style_name", JStr "3D Model");
            ("num_steps", JInt 8);
            ("guidance_scale", JInt 5);
            ("controlnet_conditioning_scale", JNum 0.85)] ;;
    match r with
    | PredictReturns result =>
        match result with
        | processed_image_path :: _ =>
            r3 <- predict_3d processed_image_path ;;
            match r3 with
            | Predict3dReturns (Some result_3d) =>
                match result_3d !! "video" with
                | Some video =>
                    st st_success "3D model generation successful!" ;;
                    ret (Returns3d (Some (Model3d video processed_image_path)))
                | None =>
                    st st_error "No 3D data in response" ;;
                    ret (Returns3d None)
                end
            | Predict3dReturns None =>
                st st_error "No 3D data in response" ;;
                ret (Returns3d None)
            | Predict3dRaises => fallback_3d image_bytes prompt negative_prompt
            end
        | [] =>
            st st_error "No processed image data in response" ;;
            ret (Returns3d None)
        end
    | PredictRaises => fallback_3d image_bytes prompt negative_prompt
    end.

End WithEnv3d.

End MoreBackends.
Export MoreBackends.

(** ** update_ngrok_url.py *)

Module UrlUpdater.

Definition validate_url (url : string) : bool :=
  if negb (truthy url) then false
  else if contains "ngrok" url && (contains "http://" url || contains "https://" url) then true
  else if contains "localhost" url || contains "127.0.0.1" url then true
  else false.

(** [s.replace(old, new)] for a non-empty [old], reading [s] from the left;
    [skip] counts the characters of a replaced occurrence still to pass. *)
Fixpoint replace_from (old new : string) (skip : nat) (s : string) : string :=
  match s with
  | EmptyString => EmptyString
  | String c rest =>
      match skip with
      | S more => replace_from old new more rest
      | O =>
          if String.prefix old s
          then new +:+ replace_from old new (String.length old - 1) rest
          else String c (replace_from old new 0 rest)
      end
  end.

Definition replace (old new s : string) : string := replace_from old new 0 s.

(** The address that [get_ngrok_url_from_backend] asks. *)
Definition ngrok_endpoint (backend_url : string) : string :=
  let base_url := replace "/generate" EmptyString backend_url in
  base_url +:+ "/ngrok-url".

End UrlUpdater.
Export UrlUpdater.

(** ** Further ways of reading a trace *)

Module Observations.

(** A request addressed to [url] (nothing is asked of the other events). *)
Definition posts_to (url : string) (e : event) : Prop :=
  match e with
  | Post _ u _ => u = url
  | _ => True
  end.

(** A request that carries the two prompts as they are. *)
Definition carries_prompts (prompt negative_prompt : string) (e : event) : Prop :=
  match e with
  | Post _ _ data =>
      field "prompt" data = Some (JStr prompt)
      /\ field "negative_prompt" data = Some (JStr negative_prompt)
  | _ => True
  end.

(** A run makes at most [n] outside calls (requests and Gradio calls). *)
Definition calls_at_most (n : nat) {A} (c : M A) : Prop :=
  forall w, (calls w <= calls (c w).2 <= calls w + n)%nat.

(** The world after one attempt of the Linoyts loop has shown its spinner and
    sent its request. *)
Definition after_linoyts_request (linoyts_url : string) (json_data : payload)
    (w : world) : world :=
  {| calls := S (calls w);
     trace := trace w ++ [St st_spinner "Generating image with Linoyts Approach... This may take 3-5 minutes for high-quality results.";
                          Post JsonBody linoyts_url json_data] |}.

(** Whether a character occurs in a string. *)
Fixpoint has_char (c : ascii) (s : string) : bool :=
  match s with
  | EmptyString => false
  | String d rest => Ascii.eqb c d || has_char c rest
  end.

(** The conditions that [get_parameters_from_preset] keeps: the ranges of
    the values in [PRESET_PARAMETERS]. *)
Definition within_ranges (p : optimal_params) (control_type : string) : Prop :=
  (0.4 <= op_controlnet_conditioning_scale p <= 0.95)%Q
  /\ (3 <= op_guidance_scale p <= 8)%Q
  /\ (30 <= op_num_inference_steps p <= 36)%Z
  /\ (control_type = "scribble" \/ control_type = "canny").

Definition preset_ok (p : preset) : bool :=
  Qle_bool 0.4 (controlnet_conditioning_scale p)
  && Qle_bool (controlnet_conditioning_scale p) 0.95
  && Qle_bool 3 (guidance_scale p) && Qle_bool (guidance_scale p) 8
  && (30 <=? num_inference_steps p)%Z && (num_inference_steps p <=? 36)%Z
  && (String.eqb (control_type p) "scribble" || String.eqb (control_type p) "canny").

(** An innermost dict of the table has its three keys, with values in range. *)
Definition tiers_ok (by_preset : gmap string preset) : bool :=
  forallb (fun tier => match by_preset !! tier with
                       | Some p => preset_ok p
                       | None => false
                       end) ["Default"; "Balanced"; "Creative"].

(** No string occurs twice. *)
Fixpoint no_repeat (l : list string) : bool :=
  match l with
  | [] => true
  | x :: rest => negb (existsb (String.eqb x) rest) && no_repeat rest
  end.

Definition theme_info_eqb (a b : ThemeSystem.theme_info) : bool :=
  String.eqb (ThemeSystem.description a) (ThemeSystem.description b)
  && String.eqb (ThemeSystem.style a) (ThemeSystem.style b)
  && String.eqb (ThemeSystem.positive_prompt a) (ThemeSystem.positive_prompt b)
  && String.eqb (ThemeSystem.negative_prompt a) (ThemeSystem.negative_prompt b).

(** The replies after which the Linoyts loop asks again (on an attempt that
    is not the last): an exception of any class, an HTTP 404, and a 200 whose
    body is not JSON or whose [image] field cannot be decoded to a picture. *)
Definition linoyts_retried (E : env) (r : reply) : bool :=
  match r with
  | Raises _ => true
  | Responds response =>
      if (status_code response =? 200)%Z then
        match json response with
        | None => true
        | Some result_json =>
            match result_json !! "image" with
            | None => false
            | Some b64 =>
                match b64decode E b64 ≫= Image_open E with
                | None => true
                | Some _ => false
                end
            end
        end
      else (status_code response =? 404)%Z
  end.

End Observations.
Export Observations.

(** ** Facts about Python strings *)

Section StringFacts.

Lemma prefix_starts_with (p s : string) :
  String.prefix p s = true <-> starts_with p s.
Proof.
  unfold starts_with. revert s. induction p as [|c p IH]; intros s.
  - simpl. split; [intros _; exists s; reflexivity | destruct s; reflexivity].
  - destruct s as [|d s]; simpl.
    + split; [discriminate | intros [rest Hrest]; discriminate].
    + destruct (Ascii.ascii_dec c d) as [->|Hne].
      * rewrite IH. split; intros [rest Hrest]; exists rest.
        -- now rewrite Hrest.
        -- now inversion Hrest.
      * split; [discriminate | intros [rest Hrest]; inversion Hrest; congruence].
Qed.

Lemma contains_nil (needle : string) :
  contains needle EmptyString = String.prefix needle EmptyString || false.
Proof. reflexivity. Qed.

Lemma contains_cons (needle : string) (c : ascii) (hay : string) :
  contains needle (String c hay)
  = String.prefix needle (String c hay) || contains needle hay.
Proof. reflexivity. Qed.

Lemma contains_occurs_in (needle hay : string) :
  contains needle hay = true <-> occurs_in needle hay.
Proof.
  unfold occurs_in. induction hay as [|c hay IH].
  - rewrite contains_nil, orb_false_r, prefix_starts_with. split.
    + intros [rest ->]. exists EmptyString, rest. reflexivity.
    + intros [[|b before] [after Heq]].
      * exists after. exact Heq.
      * discriminate.
  - rewrite contains_cons, orb_true_iff, prefix_starts_with, IH. split.
    + intros [[rest ->] | [before [after ->]]].
      * exists EmptyString, rest. reflexivity.
      * exists (String c before), after. reflexivity.
    + intros [[|b before] [after Heq]].
      * left. exists after. exact Heq.
      * right. inversion Heq; subst. exists before, after. reflexivity.
Qed.

Lemma contains_false_iff (needle hay : string) :
  contains needle hay = false <-> ~ occurs_in needle hay.
Proof.
  rewrite <- contains_occurs_in. destruct (contains needle hay); intuition congruence.
Qed.

(** Nothing non-empty occurs in the empty string. *)
Lemma contains_empty_hay (needle : string) :
  truthy needle = true -> contains needle EmptyString = false.
Proof. destruct needle; [discriminate | reflexivity]. Qed.

End StringFacts.

(** ** Theme catalogue and prompt composition *)

Section ThemePrompts.

Import ThemeSystem.

(** With a user prompt, [get_enhanced_prompts_for_theme] puts it first. *)
Lemma theme_prompt_starts_with_user_text (theme_name sketch_type user_prompt : string) :
  truthy user_prompt = true ->
  starts_with user_prompt
    (get_enhanced_prompts_for_theme theme_name sketch_type user_prompt).1.1.
Proof.
  intros Hup. unfold get_enhanced_prompts_for_theme, starts_with. rewrite Hup.
  destruct (String.eqb sketch_type "face"),
           (String.eqb (style (get_theme_info theme_name)) "realistic");
    eexists; reflexivity.
Qed.

(** C1 (evaluation at the failing input): for a realistic face sketch the
    prompt built inside [call_enhanced_controlnet_api] puts the user's text
    "red hair" after the template fragments, so the positive prompt does not
    start with it; the full-body branch of the same function does put it
    first. *)
Theorem enhanced_api_face_prompt_trails_template :
  (enhanced_prompts "realistic" "face" "red hair" EmptyString).1
    = "realistic photographic portrait, natural skin texture, professional studio lighting, shallow depth of field, sharp focus, single person, detailed eyes, natural hair, smooth facial geometry, no outline overlay, red hair"
  /\ ~ starts_with "red hair" (enhanced_prompts "realistic" "face" "red hair" EmptyString).1
  /\ starts_with "red hair" (enhanced_prompts "realistic" "full_body" "red hair" EmptyString).1.
Proof.
  split; [reflexivity|]. split.
  - rewrite <- prefix_starts_with. vm_compute. discriminate.
  - rewrite <- prefix_starts_with. vm_compute. reflexivity.
Qed.

(** C10: a theme name that is not a key of [THEME_DESCRIPTIONS] gets the
    default record: style "realistic", the theme name itself as positive
    prompt and the generic defect-avoidance negative prompt; composition then
    uses the theme name as the theme's positive fragment and the realistic
    templates. *)
Theorem unknown_theme_default_info (theme_name : string) :
  THEME_DESCRIPTIONS !! theme_name = None ->
  get_theme_info theme_name
    = {| description := "Custom theme with unique artistic style";
         style := "realistic";
         positive_prompt := theme_name;
         negative_prompt := "deformed, extra limbs, multiple faces, mutated hands, blurry, out of focus, low quality" |}
  /\ get_enhanced_prompts_for_theme theme_name "face" EmptyString
     = ("realistic portrait of one person, " +:+ theme_name +:+ ", detailed facial features, proper anatomy, single face",
        "deformed, extra limbs, multiple faces, mutated hands, blurry, out of focus, low quality, deformed, extra limbs, multiple faces, mutated hands, blurry, out of focus, low quality, glitch, split face, extra heads, extra bodies, anatomical error",
        "realistic")
  /\ get_enhanced_prompts_for_theme theme_name "full_body" EmptyString
     = ("realistic full body portrait of one person, " +:+ theme_name +:+ ", proper anatomy, single figure, natural pose",
        "deformed, extra limbs, multiple faces, mutated hands, blurry, out of focus, low quality, deformed, extra limbs, multiple faces, mutated hands, blurry, out of focus, low quality, glitch, split face, extra heads, extra bodies, anatomical error, multiple people",
        "realistic").
Proof.
  intros Hnone.
  assert (Hinfo : get_theme_info theme_name = default_theme_info theme_name)
    by (unfold get_theme_info; now rewrite Hnone).
  split; [exact Hinfo|].
  unfold get_enhanced_prompts_for_theme. rewrite Hinfo. split; reflexivity.
Qed.

Lemma unknown_theme_default_info_witness :
  THEME_DESCRIPTIONS !! "Modern skyscraper" = None
  /\ positive_prompt (get_theme_info "Modern skyscraper") = "Modern skyscraper".
Proof.
  assert (H : THEME_DESCRIPTIONS !! "Modern skyscraper" = None) by (vm_compute; reflexivity).
  split; [exact H|].
  destruct (unknown_theme_default_info "Modern skyscraper" H) as [Hinfo _].
  rewrite Hinfo. reflexivity.
Defined.

(** A theme with an entry keeps the entry. *)
Example known_theme_van_gogh :
  (get_enhanced_prompts_for_theme "Van Gogh style" "face" EmptyString).1.1
    = "anime style portrait, Van Gogh style painting, post-impressionist, bold colors, expressive brushstrokes, artistic, stylized features, clean lines, detailed illustration, single face".
Proof. vm_compute. reflexivity. Qed.

End ThemePrompts.

(** ** Parameter resolution *)

Section ParameterResolution.

Lemma preset_key_selects_tier (preset_choice : string) :
  selects_tier preset_choice (preset_key_of preset_choice).
Proof.
  unfold preset_key_of.
  destruct (contains "Creative" preset_choice) eqn:Hc.
  - apply tier_creative. now apply contains_occurs_in.
  - apply contains_false_iff in Hc.
    destruct (contains "Balanced" preset_choice) eqn:Hb.
    + apply tier_balanced; [exact Hc | now apply contains_occurs_in].
    + apply tier_default; [exact Hc | now apply contains_false_iff].
Qed.

Lemma selects_tier_functional (preset_choice tier : string) :
  selects_tier preset_choice tier -> tier = preset_key_of preset_choice.
Proof.
  unfold preset_key_of. intros [Hc | Hc Hb | Hc Hb].
  - apply contains_occurs_in in Hc. now rewrite Hc.
  - apply contains_false_iff in Hc. apply contains_occurs_in in Hb. now rewrite Hc, Hb.
  - apply contains_false_iff in Hc, Hb. now rewrite Hc, Hb.
Qed.

Lemma subscript3_lookup (a b c : string) (p : preset) :
  table_entry a b c = Some p ->
  subscript3 a b c = inr p.
Proof.
  unfold subscript3, table_entry.
  destruct (PRESET_PARAMETERS !! a) as [m|]; simpl; [|discriminate].
  destruct (m !! b) as [m'|]; simpl; [|discriminate].
  intros ->. reflexivity.
Qed.

Lemma subscript3_absent (a b c : string) :
  PRESET_PARAMETERS !! a ≫= (.!! b) = None ->
  exists key, subscript3 a b c = inl key.
Proof.
  unfold subscript3. destruct (PRESET_PARAMETERS !! a) as [m|]; simpl; [|eauto].
  intros ->. eauto.
Qed.

(** C2: the tier is Creative if the preset string contains "Creative",
    otherwise Balanced if it contains "Balanced", otherwise Default; the
    parameters returned are the table's entry at that tier; and the
    decorated label "Default (Recommended)" resolves to Default. *)
Theorem tier_selection_by_substring
    (art_style sketch_type preset_choice tier : string) (p : preset) (w : world) :
  selects_tier preset_choice tier ->
  table_entry art_style sketch_type tier = Some p ->
  get_parameters_from_preset art_style sketch_type preset_choice w
    = (inr (without_control_type p, control_type p), w)
  /\ (exists tier', selects_tier preset_choice tier')
  /\ selects_tier "Default (Recommended)" "Default".
Proof.
  intros Hsel Hp. split; [|split].
  - apply selects_tier_functional in Hsel. subst tier.
    unfold get_parameters_from_preset. now rewrite (subscript3_lookup _ _ _ _ Hp).
  - eexists. apply preset_key_selects_tier.
  - exact (preset_key_selects_tier "Default (Recommended)").
Qed.

Lemma tier_selection_by_substring_witness :
  selects_tier "Creative (Loose)" "Creative"
  /\ (get_parameters_from_preset "realistic" "face" "Creative (Loose)"
        {| calls := 0; trace := [] |}).1
     = inr ({| op_controlnet_conditioning_scale := 0.8; op_guidance_scale := 7.0;
               op_num_inference_steps := 30 |}, "scribble").
Proof.
  assert (Hsel : selects_tier "Creative (Loose)" "Creative")
    by exact (preset_key_selects_tier "Creative (Loose)").
  split; [exact Hsel|].
  assert (Hp : table_entry "realistic" "face" "Creative"
               = Some {| controlnet_conditioning_scale := 0.8; guidance_scale := 7.0;
                         num_inference_steps := 30; control_type := "scribble" |})
    by (vm_compute; reflexivity).
  destruct (tier_selection_by_substring "realistic" "face" "Creative (Loose)" "Creative"
              _ {| calls := 0; trace := [] |} Hsel Hp) as [Heq _].
  rewrite Heq. reflexivity.
Defined.

(** C3: for a pair (art_style, sketch_type) without an entry in the table,
    and any preset string, [get_parameters_from_preset] returns normally
    with the (realistic, face, Default) parameters and their control type,
    after emitting one [st.error] diagnostic; it makes no outside call. *)
Theorem absent_pair_falls_back
    (art_style sketch_type preset_choice : string) (w : world) :
  ~ in_table art_style sketch_type ->
  get_parameters_from_preset art_style sketch_type preset_choice w
    = (inr ({| op_controlnet_conditioning_scale := 0.95; op_guidance_scale := 6.5;
               op_num_inference_steps := 30 |}, "scribble"),
       {| calls := calls w;
          trace := trace w ++ [St st_error "Parameter lookup error: {e}. Using default realistic face parameters."] |})
  /\ table_entry "realistic" "face" "Default"
     = Some {| controlnet_conditioning_scale := 0.95; guidance_scale := 6.5;
               num_inference_steps := 30; control_type := "scribble" |}.
Proof.
  intros Habsent. split; [|vm_compute; reflexivity].
  assert (Hnone : PRESET_PARAMETERS !! art_style ≫= (.!! sketch_type) = None).
  { unfold in_table in Habsent.
    destruct (PRESET_PARAMETERS !! art_style ≫= (.!! sketch_type)); [|reflexivity].
    exfalso. apply Habsent. eauto. }
  destruct (subscript3_absent _ _ (preset_key_of preset_choice) Hnone) as [key Hkey].
  unfold get_parameters_from_preset. rewrite Hkey. reflexivity.
Qed.

Lemma absent_pair_falls_back_witness :
  ~ in_table "watercolor" "face"
  /\ (get_parameters_from_preset "watercolor" "face" "Creative"
        {| calls := 0; trace := [] |}).1
     = inr ({| op_controlnet_conditioning_scale := 0.95; op_guidance_scale := 6.5;
               op_num_inference_steps := 30 |}, "scribble").
Proof.
  assert (Habsent : ~ in_table "watercolor" "face").
  { unfold in_table. intros [x Hx]. vm_compute in Hx. discriminate. }
  split; [exact Habsent|].
  destruct (absent_pair_falls_back "watercolor" "face" "Creative"
              {| calls := 0; trace := [] |} Habsent) as [Heq _].
  rewrite Heq. reflexivity.
Defined.

(** The entry of the specification's example. *)
Example resolve_realistic_face_creative :
  (get_parameters_from_preset "realistic" "face" "Creative" {| calls := 0; trace := [] |}).1
    = inr ({| op_controlnet_conditioning_scale := 0.8; op_guidance_scale := 7.0;
              op_num_inference_steps := 30 |}, "scribble").
Proof. vm_compute. reflexivity. Qed.

End ParameterResolution.

(** ** The context-exclusion scan *)

Section ContextExclusion.

(** What [fired] computes, for any priority list: nothing when no rule
    matches; otherwise exactly the first matching rule. *)
Lemma fired_first_match (rules : list rule) (prompt theme : string) :
  (fired rules prompt theme = []
   /\ Forall (fun r => matches r prompt theme = false) rules)
  \/ (exists higher r lower,
        rules = (higher ++ r :: lower)%list
        /\ Forall (fun r' => matches r' prompt theme = false) higher
        /\ matches r prompt theme = true
        /\ fired rules prompt theme = [r]).
Proof.
  induction rules as [|r rules IH]; simpl.
  - left. split; [reflexivity | constructor].
  - destruct (matches r prompt theme) eqn:Hr.
    + right. exists [], r, rules. repeat split; [constructor | exact Hr].
    + destruct IH as [[Hnil Hall] | (higher & r' & lower & -> & Hhigher & Hr' & Hfired)].
      * left. split; [exact Hnil | now constructor].
      * right. exists (r :: higher), r', lower.
        repeat split; [now constructor | exact Hr' | exact Hfired].
Qed.

Lemma fired_at_most_one (rules : list rule) (prompt theme : string) :
  (length (fired rules prompt theme) <= 1)%nat.
Proof.
  induction rules as [|r rules IH]; simpl; [lia|].
  destruct (matches r prompt theme); simpl; lia.
Qed.

Lemma any_in_empty (words : list string) :
  forallb truthy words = true -> any_in words EmptyString = false.
Proof.
  unfold any_in. induction words as [|word words IH]; intros Hwords; [reflexivity|].
  cbn [forallb] in Hwords. apply andb_true_iff in Hwords as [Hword Hwords].
  cbn [existsb]. rewrite (contains_empty_hay word Hword). exact (IH Hwords).
Qed.

(** The guard [prompt and ...] changes nothing: no keyword occurs in the
    empty prompt. *)
Lemma guarded_mentions (words : list string) (prompt : string) :
  forallb truthy words = true ->
  truthy prompt && any_in words (lower prompt) = mentions words prompt.
Proof.
  intros Hwords. destruct prompt as [|c prompt]; [|reflexivity].
  change (mentions words EmptyString) with (any_in words EmptyString).
  now rewrite (any_in_empty words Hwords).
Qed.

Lemma context_negative_fired (prompt theme : string) :
  context_negative prompt theme
  = match fired exclusion_rules prompt theme with
    | [] => EmptyString
    | r :: _ => excludes r
    end.
Proof.
  unfold context_negative.
  rewrite !guarded_mentions by reflexivity.
  unfold exclusion_rules, fired, boy_child_rule, girl_woman_rule, man_rule,
    animal_rule, architecture_object_rule, matches, excludes.
  destruct (mentions ["boy"; "child"; "kid"; "young"] prompt); [reflexivity|].
  destruct (mentions ["girl"; "woman"; "female"; "lady"] prompt); [reflexivity|].
  destruct (mentions ["man"; "male"; "guy"; "dude"] prompt); [reflexivity|].
  change (contains "animal" (lower theme)
          || any_in ["pet"; "wildlife"; "creature"] (lower theme))
    with (mentions ["animal"; "pet"; "wildlife"; "creature"] theme).
  destruct (mentions ["animal"; "pet"; "wildlife"; "creature"] theme); [reflexivity|].
  rewrite <- orb_assoc.
  change (contains "architecture" (lower theme)
          || (contains "object" (lower theme)
              || any_in ["building"; "furniture"; "vehicle"; "product"] (lower theme)))
    with (mentions ["architecture"; "object"; "building"; "furniture"; "vehicle"; "product"] theme).
  destruct (mentions _ theme); reflexivity.
Qed.

(** C5: for every prompt and theme the scan adds at most one
    context-exclusion fragment to the base negative prompt, and it is the
    fragment of the first rule that matches in the priority order boy/child
    keywords, girl/woman keywords, man/male keywords, animal theme,
    architecture/object theme; no rule below a matching one fires. *)
Theorem context_exclusion_priority (prompt theme : string) :
  let added := fired exclusion_rules prompt theme in
  (length added <= 1)%nat
  /\ context_negative prompt theme
     = match added with [] => EmptyString | r :: _ => excludes r end
  /\ combined_negative prompt theme = joined base_negative (map excludes added)
  /\ ((added = []
       /\ Forall (fun r => matches r prompt theme = false) exclusion_rules)
      \/ (exists higher r lower,
            exclusion_rules = (higher ++ r :: lower)%list
            /\ Forall (fun r' => matches r' prompt theme = false) higher
            /\ matches r prompt theme = true
            /\ added = [r])).
Proof.
  intros added. split; [apply fired_at_most_one|].
  split; [apply context_negative_fired|].
  split; [|apply fired_first_match].
  unfold combined_negative. rewrite context_negative_fired. fold added.
  destruct (fired_first_match exclusion_rules prompt theme)
    as [[Hnil _] | (higher & r & lower & Hrules & _ & _ & Hfired)];
    fold added in Hnil || fold added in Hfired.
  - rewrite Hnil. reflexivity.
  - rewrite Hfired. simpl.
    assert (Hin : In r exclusion_rules) by (rewrite Hrules; apply in_elt).
    simpl in Hin.
    destruct Hin as [<- | [<- | [<- | [<- | [<- | []]]]]]; reflexivity.
Qed.

(** "woman" contains "man": the higher girl/woman rule decides. *)
Example woman_prompt_excludes_men :
  combined_negative "an old Woman reading" "Animal illustration"
  = base_negative +:+ ", man, boy, male, child, kid, young".
Proof. vm_compute. reflexivity. Qed.

Example animal_theme_without_keywords :
  context_negative EmptyString "Animal illustration"
  = "human, person, man, woman, child, boy, girl".
Proof. vm_compute. reflexivity. Qed.

End ContextExclusion.

(** ** Running computations *)

Section Running.

Lemma emits_ret {A} (P : event -> Prop) (a : A) : emits P (ret a).
Proof. intros w. exists []. split; [symmetry; apply app_nil_r | constructor]. Qed.

Lemma emits_bind {A B} (P : event -> Prop) (c : M A) (k : A -> M B) :
  emits P c -> (forall a, emits P (k a)) -> emits P (bind c k).
Proof.
  intros Hc Hk w. unfold bind. destruct (Hc w) as (evs1 & Heq1 & HP1).
  destruct (c w) as [a w1]. destruct (Hk a w1) as (evs2 & Heq2 & HP2).
  exists (evs1 ++ evs2)%list. split.
  - rewrite Heq2. simpl in Heq1. rewrite Heq1. symmetry. apply app_assoc.
  - apply Forall_app. split; assumption.
Qed.

Lemma emits_emit (P : event -> Prop) (e : event) : P e -> emits P (emit e).
Proof. intros He w. exists [e]. split; [reflexivity | now constructor]. Qed.

Lemma emits_st (P : event -> Prop) (level : st_level) (text : string) :
  P (St level text) -> emits P (st level text).
Proof. apply emits_emit. Qed.

Lemma emits_sleep (P : event -> Prop) (seconds : Z) :
  P (Sleep seconds) -> emits P (sleep seconds).
Proof. apply emits_emit. Qed.

Lemma emits_post (P : event -> Prop) (E : env) (enc : encoding) (url : string)
    (data : payload) :
  P (Post enc url data) -> emits P (post E enc url data).
Proof. intros He w. exists [Post enc url data]. split; [reflexivity | now constructor]. Qed.

Lemma emits_predict (P : event -> Prop) (E : env) (space api_name : string)
    (args : payload) :
  P (Predict space api_name args) -> emits P (predict E space api_name args).
Proof.
  intros He w. exists [Predict space api_name args].
  split; [reflexivity | now constructor].
Qed.

Lemma emits_when (P : event -> Prop) (b : bool) (c : M unit) :
  emits P c -> emits P (when b c).
Proof. destruct b; [trivial | intros _; apply emits_ret]. Qed.

End Running.

(** Decomposes a goal [emits P c] along the shape of [c]. *)
Ltac emits_step :=
  first
    [ apply emits_ret
    | apply emits_st; try exact I
    | apply emits_sleep; try exact I
    | apply emits_when
    | apply emits_bind; [| intros ? ] ].

Ltac emits_auto := repeat emits_step.

(** ** Unconfigured endpoints *)

Section Placeholder.

Variable E : env.
Hypothesis unconfigured : occurs_in "your-ngrok-url-here" (get_backend_url E).

Lemma placeholder_detected : contains "your-ngrok-url-here" (get_backend_url E) = true.
Proof. now apply contains_occurs_in. Qed.

Lemma local_fallback_unconfigured (image_bytes prompt negative_prompt : string) (w : world) :
  call_local_controlnet_fallback E image_bytes prompt negative_prompt w
  = (None,
     {| calls := calls w;
        trace := trace w ++ [St st_warning "Backend URL not configured";
                             St st_info "Update ngrok_config.py with your current ngrok URL";
                             St st_info "   Edit CURRENT_NGROK_URL in ngrok_config.py"] |}).
Proof.
  unfold call_local_controlnet_fallback. rewrite placeholder_detected.
  unfold bind, st, emit, ret. simpl. now rewrite <- !app_assoc.
Qed.

(** The guarded functions: when the configured endpoint still holds the
    placeholder, each of [call_local_controlnet_fallback],
    [call_enhanced_controlnet_api] and [call_kaggle_sdxl_api] notices it
    first and returns no picture; the outside-call counter is unchanged and
    only Streamlit messages were added to the trace, so no request was
    sent. *)
Theorem placeholder_endpoint_sends_nothing
    (image_bytes prompt negative_prompt sketch_type control_type art_style
     preset_choice : string) (w : world) :
  call_local_controlnet_fallback E image_bytes prompt negative_prompt w
  = (None,
     {| calls := calls w;
        trace := trace w ++ [St st_warning "Backend URL not configured";
                             St st_info "Update ngrok_config.py with your current ngrok URL";
                             St st_info "   Edit CURRENT_NGROK_URL in ngrok_config.py"] |})
  /\ call_enhanced_controlnet_api E image_bytes prompt negative_prompt sketch_type
       control_type art_style preset_choice w
     = (Returns None,
        {| calls := calls w;
           trace := trace w ++ [St st_warning "Backend URL not configured";
                                St st_info "Update ngrok_config.py with your current ngrok URL"] |})
  /\ call_kaggle_sdxl_api E image_bytes prompt negative_prompt w
     = (None,
        {| calls := calls w;
           trace := trace w ++ [St st_warning "Kaggle backend URL not configured";
                                St st_info "Update ngrok_config.py with your current ngrok URL";
                                St st_info "Switching to local ControlNet...";
                                St st_warning "Backend URL not configured";
                                St st_info "Update ngrok_config.py with your current ngrok URL";
                                St st_info "   Edit CURRENT_NGROK_URL in ngrok_config.py"] |}).
Proof.
  split; [apply local_fallback_unconfigured|]. split.
  - unfold call_enhanced_controlnet_api. rewrite placeholder_detected.
    unfold bind, st, emit, ret. simpl. now rewrite <- !app_assoc.
  - unfold call_kaggle_sdxl_api. rewrite placeholder_detected.
    unfold bind at 1 2 3. unfold st, emit. simpl.
    rewrite local_fallback_unconfigured. simpl. now rewrite <- !app_assoc.
Qed.

End Placeholder.

Lemma placeholder_endpoint_sends_nothing_witness :
  occurs_in "your-ngrok-url-here"
    (get_backend_url (scripted "https://your-ngrok-url-here.ngrok-free.app" []))
  /\ call_kaggle_sdxl_api (scripted "https://your-ngrok-url-here.ngrok-free.app" [])
       "sketch" "a cat" EmptyString fresh
     = (None,
        {| calls := 0;
           trace := [St st_warning "Kaggle backend URL not configured";
                     St st_info "Update ngrok_config.py with your current ngrok URL";
                     St st_info "Switching to local ControlNet...";
                     St st_warning "Backend URL not configured";
                     St st_info "Update ngrok_config.py with your current ngrok URL";
                     St st_info "   Edit CURRENT_NGROK_URL in ngrok_config.py"] |}).
Proof.
  assert (H : occurs_in "your-ngrok-url-here"
                (get_backend_url (scripted "https://your-ngrok-url-here.ngrok-free.app" []))).
  { exists "https://", ".ngrok-free.app/generate". reflexivity. }
  split; [exact H|].
  exact (proj2 (proj2 (placeholder_endpoint_sends_nothing _ H
                         "sketch" "a cat" EmptyString "face" "scribble" "realistic" "Default" fresh))).
Defined.

(** C9 fails in [call_3d_model_api]: a request is sent to an unconfigured
    backend. With the placeholder still in [CURRENT_NGROK_URL] and the Gradio
    space out of reach, the inline fallback of the function does not look at
    the URL: it posts the sketch and both prompts to the placeholder endpoint
    (the second outside call of the run) and only then reports the failure.
    [call_local_controlnet_fallback], the sibling that makes the same request
    for the other functions, notices the placeholder on the same
    configuration and sends nothing. *)
Theorem unconfigured_3d_fallback_sends_request :
  let E3 := {| outside := scripted "https://your-ngrok-url-here.ngrok-free.app" [];
               client_predict_3d := fun _ _ => Predict3dRaises |} in
  contains "your-ngrok-url-here" (get_backend_url (outside E3)) = true
  /\ call_3d_model_api E3 "sketch" "a cat" EmptyString fresh
     = (Returns3d None,
        {| calls := 2;
           trace := [Predict "linoyts/sketch-to-3d" "/preprocess_image"
                       [("prompt", JStr "a cat");
                        ("negative_prompt", JStr balanced_negative);
                        ("style_name", JStr "3D Model");
                        ("num_steps", JInt 8);
                        ("guidance_scale", JInt 5);
                        ("controlnet_conditioning_scale", JNum 0.85)];
                     St st_warning "3D generation is currently unavailable";
                     St st_info "Switching to local ControlNet for image generation...";
                     Post MultipartForm "https://your-ngrok-url-here.ngrok-free.app/generate"
                       [("image", JStr "sketch"); ("prompt", JStr "a cat");
                        ("negative_prompt", JStr EmptyString)];
                     St st_error "Local backend also failed: {local_error}";
                     St st_info "Please check your Colab backend is running"] |})
  /\ call_local_controlnet_fallback (outside E3) "sketch" "a cat" EmptyString fresh
     = (None,
        {| calls := 0;
           trace := [St st_warning "Backend URL not configured";
                     St st_info "Update ngrok_config.py with your current ngrok URL";
                     St st_info "   Edit CURRENT_NGROK_URL in ngrok_config.py"] |}).
Proof.
  intros E3. split; [vm_compute; reflexivity|].
  split; vm_compute; reflexivity.
Qed.

(** Case analysis on whatever a computation branches on. *)
Ltac emits_cases :=
  repeat
    (emits_step ||
     match goal with
     | |- emits _ (match ?x with _ => _ end) => destruct x eqn:?
     | |- emits _ (let '(_, _) := ?x in _) => destruct x eqn:?
     end).

(** ** First success wins: the Hugging Face dispatch *)

Section HuggingFaceDispatch.

Variable E : env.

Lemma sdxl_http_loop_emits (endpoints : list (string * string))
    (prompt negative_prompt : string) :
  Forall (fun endpoint => In endpoint.2 (map snd sdxl_endpoints)) endpoints ->
  emits hf_http_only (sdxl_http_loop E endpoints prompt negative_prompt).
Proof.
  induction 1 as [|[name url] rest Hurl Hrest IH]; simpl.
  - apply emits_ret.
  - apply emits_bind; [apply emits_post; exact Hurl|]. intros r.
    emits_cases; exact IH.
Qed.

(** [call_sdxl_http_api] only talks to the Hugging Face endpoints. *)
Lemma call_sdxl_http_api_emits (image_bytes prompt negative_prompt hf_token : string) :
  emits hf_http_only (call_sdxl_http_api E image_bytes prompt negative_prompt hf_token).
Proof.
  apply sdxl_http_loop_emits. unfold sdxl_endpoints.
  constructor; [left; reflexivity|].
  constructor; [right; left; reflexivity|]. constructor.
Qed.

(** [call_sdxl_gradio_api] never talks to the local backend. *)
Lemma call_sdxl_gradio_api_emits (image_bytes prompt negative_prompt hf_token : string) :
  emits not_local (call_sdxl_gradio_api E image_bytes prompt negative_prompt hf_token).
Proof.
  unfold call_sdxl_gradio_api.
  destruct (gradio_client_installed E); simpl; [|emits_auto].
  apply emits_bind; [apply emits_predict; exact I|]. intros r. emits_cases.
Qed.

Lemma hf_http_only_not_local (e : event) : hf_http_only e -> not_local e.
Proof. destruct e as [[] ? ?| | |]; simpl; tauto. Qed.

Hypothesis token_set : truthy (getenv_HF_TOKEN E) = true.
Hypothesis token_real : getenv_HF_TOKEN E <> "your_token_here".

Lemma token_accepted :
  negb (truthy (getenv_HF_TOKEN E)) || String.eqb (getenv_HF_TOKEN E) "your_token_here"
  = false.
Proof.
  rewrite token_set. simpl. apply String.eqb_neq. exact token_real.
Qed.

(** C8: in [call_hf_sdxl_api] the backends are tried in the order HTTP
    API, Gradio API, local backend, and the first one that returns a picture
    ends the dispatch with that picture: after a success of the HTTP API
    only the success message follows, and what was sent went to the Hugging
    Face endpoints (no Gradio call, no request to the local backend); after a
    success of the Gradio API no request to the local backend is made. *)
Theorem first_success_ends_dispatch
    (image_bytes prompt negative_prompt : string) (w : world) :
  (forall result_image w1,
      call_sdxl_http_api E image_bytes prompt negative_prompt (getenv_HF_TOKEN E) w
        = (Some result_image, w1) ->
      call_hf_sdxl_api E image_bytes prompt negative_prompt w
        = (Some result_image,
           {| calls := calls w1;
              trace := trace w1 ++ [St st_success "SDXL HTTP API generation successful!"] |})
      /\ exists evs, trace w1 = (trace w ++ evs)%list /\ Forall hf_http_only evs)
  /\ (forall w1 result_image w2,
      call_sdxl_http_api E image_bytes prompt negative_prompt (getenv_HF_TOKEN E) w
        = (None, w1) ->
      call_sdxl_gradio_api E image_bytes prompt negative_prompt (getenv_HF_TOKEN E) w1
        = (Some result_image, w2) ->
      call_hf_sdxl_api E image_bytes prompt negative_prompt w
        = (Some result_image,
           {| calls := calls w2;
              trace := trace w2 ++ [St st_success "SDXL Gradio API generation successful!"] |})
      /\ exists evs, trace w2 = (trace w ++ evs)%list /\ Forall not_local evs).
Proof.
  split.
  - intros result_image w1 Hhttp. split.
    + unfold call_hf_sdxl_api. rewrite token_accepted.
      unfold bind at 1. rewrite Hhttp. reflexivity.
    + destruct (call_sdxl_http_api_emits image_bytes prompt negative_prompt
                  (getenv_HF_TOKEN E) w) as (evs & Heq & Hall).
      rewrite Hhttp in Heq. eauto.
  - intros w1 result_image w2 Hhttp Hgradio. split.
    + unfold call_hf_sdxl_api. rewrite token_accepted.
      unfold bind at 1. rewrite Hhttp.
      unfold bind at 1. rewrite Hgradio. reflexivity.
    + destruct (call_sdxl_http_api_emits image_bytes prompt negative_prompt
                  (getenv_HF_TOKEN E) w) as (evs1 & Heq1 & Hall1).
      destruct (call_sdxl_gradio_api_emits image_bytes prompt negative_prompt
                  (getenv_HF_TOKEN E) w1) as (evs2 & Heq2 & Hall2).
      rewrite Hhttp in Heq1. rewrite Hgradio in Heq2. simpl in Heq1, Heq2.
      exists (evs1 ++ evs2)%list. split.
      * rewrite Heq2, Heq1. symmetry. apply app_assoc.
      * apply Forall_app. split; [|exact Hall2].
        eapply Forall_impl; [exact Hall1|]. apply hf_http_only_not_local.
Qed.

(** Inside the HTTP API the same rule holds between its two endpoints: a
    picture from the first one ends the loop after that single request. *)
Lemma first_endpoint_success_skips_second
    (image_bytes prompt negative_prompt hf_token : string) (w : world)
    (r : response) (result_image : image) :
  let url := "https://api-inference.huggingface.co/models/stabilityai/stable-diffusion-xl-base-1.0" in
  let payload :=
    [("inputs", JStr (sketch_guided_prompt prompt));
     ("parameters",
      JObj [("negative_prompt",
             JStr (if truthy negative_prompt then negative_prompt else balanced_negative));
            ("num_inference_steps", JInt 30);
            ("guidance_scale", JNum 7.5)])] in
  requests_post E (calls w) JsonBody url payload = Responds r ->
  status_code r = 200%Z ->
  String.prefix "image/" (content_type r) = true ->
  Image_open E (content r) = Some result_image ->
  call_sdxl_http_api E image_bytes prompt negative_prompt hf_token w
  = (Some result_image,
     {| calls := S (calls w); trace := trace w ++ [Post JsonBody url payload] |}).
Proof.
  intros url payload Hreply Hstatus Hctype Himage.
  unfold call_sdxl_http_api, sdxl_endpoints, sdxl_http_loop.
  fold url. fold payload. unfold bind at 1. unfold post at 1.
  rewrite Hreply, Hstatus, Hctype, Himage. reflexivity.
Qed.

End HuggingFaceDispatch.

Lemma first_success_ends_dispatch_witness :
  truthy (getenv_HF_TOKEN (scripted "https://abc.ngrok-free.app" [raw_image "picture"])) = true
  /\ call_hf_sdxl_api (scripted "https://abc.ngrok-free.app" [raw_image "picture"])
       "sketch" "a cat" EmptyString fresh
     = (Some "picture",
        {| calls := 1;
           trace := [Post JsonBody
                       "https://api-inference.huggingface.co/models/stabilityai/stable-diffusion-xl-base-1.0"
                       [("inputs", JStr (sketch_guided_prompt "a cat"));
                        ("parameters",
                         JObj [("negative_prompt", JStr balanced_negative);
                               ("num_inference_steps", JInt 30);
                               ("guidance_scale", JNum 7.5)])];
                     St st_success "SDXL HTTP API generation successful!"] |}).
Proof.
  split; [reflexivity|].
  refine (proj1 (proj1 (first_success_ends_dispatch
                          (scripted "https://abc.ngrok-free.app" [raw_image "picture"])
                          _ _ "sketch" "a cat" EmptyString fresh) "picture"
                   {| calls := 1;
                      trace := [Post JsonBody
                                  "https://api-inference.huggingface.co/models/stabilityai/stable-diffusion-xl-base-1.0"
                                  [("inputs", JStr (sketch_guided_prompt "a cat"));
                                   ("parameters",
                                    JObj [("negative_prompt", JStr balanced_negative);
                                          ("num_inference_steps", JInt 30);
                                          ("guidance_scale", JNum 7.5)])]] |} _)).
  - reflexivity.
  - discriminate.
  - reflexivity.
Defined.

(** ** What the retry loops send *)

Section RetryLoops.

Variable E : env.
Variable P : event -> Prop.
Hypothesis P_message : forall level text, P (St level text).
Hypothesis P_sleep : forall seconds, P (Sleep seconds).

Ltac loop_cases :=
  repeat
    (first
       [ apply emits_ret
       | apply emits_st; apply P_message
       | apply emits_sleep; apply P_sleep
       | apply emits_when
       | assumption
       | apply emits_bind; [| intros ? ]
       | match goal with
         | |- emits _ (match ?x with _ => _ end) => destruct x eqn:?
         end ]).

Lemma kaggle_retry_loop_emits (kaggle_url : string) (json_data : payload)
    (image_bytes prompt negative_prompt : string) (max_retries : nat)
    (attempts : list nat) :
  P (Post JsonBody kaggle_url json_data) ->
  emits P (call_local_controlnet_fallback E image_bytes prompt negative_prompt) ->
  emits P (kaggle_retry_loop E kaggle_url json_data image_bytes prompt negative_prompt
             max_retries attempts).
Proof.
  intros Hpost Hlocal.
  assert (Hunavailable :
            emits P (kaggle_unavailable E image_bytes prompt negative_prompt))
    by (unfold kaggle_unavailable; loop_cases).
  induction attempts as [|attempt rest IH]; simpl; [apply emits_ret|].
  apply emits_bind; [apply emits_st, P_message | intros _].
  apply emits_bind; [apply emits_post, Hpost | intros r].
  loop_cases.
Qed.

Lemma enhanced_retry_loop_emits (url : string) (json_data : payload)
    (max_retries : nat) (attempts : list nat) :
  P (Post JsonBody url json_data) ->
  emits P (enhanced_retry_loop E url json_data max_retries attempts).
Proof.
  intros Hpost.
  induction attempts as [|attempt rest IH]; simpl; [apply emits_ret|].
  apply emits_bind; [apply emits_st, P_message | intros _].
  apply emits_bind; [apply emits_post, Hpost | intros r].
  loop_cases.
Qed.

Lemma enhanced_handle_response_emits (r : response) (art_style preset_choice : string) :
  emits P (enhanced_handle_response E r art_style preset_choice).
Proof. unfold enhanced_handle_response, unexpected_error. loop_cases. Qed.

Lemma get_parameters_from_preset_emits (art_style sketch_type preset_choice : string) :
  emits P (get_parameters_from_preset art_style sketch_type preset_choice).
Proof. unfold get_parameters_from_preset. loop_cases. Qed.

Lemma local_fallback_emits (image_bytes prompt negative_prompt : string) :
  P (Post MultipartForm (get_backend_url E)
       [("image", JStr image_bytes); ("prompt", JStr prompt);
        ("negative_prompt", JStr negative_prompt)]) ->
  emits P (call_local_controlnet_fallback E image_bytes prompt negative_prompt).
Proof.
  intros Hpost. unfold call_local_controlnet_fallback, local_also_failed.
  destruct (contains "your-ngrok-url-here" (get_backend_url E)); [loop_cases|].
  apply emits_bind; [apply emits_post, Hpost | intros r]. loop_cases.
Qed.

(** Every request of [call_enhanced_controlnet_api] is the same JSON body,
    built from the composed prompts. *)
Lemma call_enhanced_controlnet_api_emits (image_bytes prompt negative_prompt
    sketch_type control_type art_style preset_choice : string) :
  (forall url enhanced_prompt control_type' optimal_params control_guidance_end use_refiner,
      P (Post JsonBody url
           (enhanced_json_data E image_bytes enhanced_prompt
              (enhanced_prompts art_style sketch_type prompt negative_prompt).2
              control_type' sketch_type art_style optimal_params 0.0
              control_guidance_end use_refiner))) ->
  emits P (call_enhanced_controlnet_api E image_bytes prompt negative_prompt
             sketch_type control_type art_style preset_choice).
Proof.
  intros Hpost.
  assert (Hgenerate : forall control_type' optimal_params control_guidance_end use_refiner,
             emits P (enhanced_generate E (get_backend_url E) image_bytes prompt
                        negative_prompt sketch_type control_type' art_style
                        preset_choice optimal_params control_guidance_end use_refiner)).
  { intros. unfold enhanced_generate.
    specialize (Hpost (get_backend_url E +:+ "/generate")).
    destruct (enhanced_prompts art_style sketch_type prompt negative_prompt)
      as [enhanced_prompt enhanced_negative]; simpl in Hpost.
    apply emits_bind; [apply enhanced_retry_loop_emits, Hpost | intros exit].
    destruct exit; [apply enhanced_handle_response_emits | apply emits_ret |].
    unfold unexpected_error. loop_cases. }
  unfold call_enhanced_controlnet_api.
  destruct (contains "your-ngrok-url-here" (get_backend_url E)); [loop_cases|].
  destruct (String.eqb art_style "ultra_realistic").
  - destruct (ultra_realistic_preset preset_choice). apply Hgenerate.
  - apply emits_bind; [apply get_parameters_from_preset_emits | intros looked_up].
    destruct looked_up as [key | [optimal_params control_type']];
      [loop_cases | apply Hgenerate].
Qed.

Lemma call_kaggle_sdxl_api_emits (image_bytes prompt negative_prompt : string) :
  P (Post JsonBody (get_backend_url E)
       (kaggle_json_data E image_bytes prompt negative_prompt)) ->
  P (Post MultipartForm (get_backend_url E)
       [("image", JStr image_bytes); ("prompt", JStr prompt);
        ("negative_prompt", JStr negative_prompt)]) ->
  emits P (call_kaggle_sdxl_api E image_bytes prompt negative_prompt).
Proof.
  intros Hjson Hform. pose proof (local_fallback_emits _ _ _ Hform) as Hlocal.
  unfold call_kaggle_sdxl_api.
  destruct (contains "your-ngrok-url-here" (get_backend_url E)); [loop_cases|].
  apply kaggle_retry_loop_emits; assumption.
Qed.

End RetryLoops.

(** ** Custom negative prompts *)

Section CustomNegative.

Lemma with_custom_negative_appends (default negative_prompt : string) :
  truthy negative_prompt = true ->
  with_custom_negative default negative_prompt = default +:+ ", " +:+ negative_prompt.
Proof. intros H. unfold with_custom_negative. now rewrite H. Qed.

Lemma enhanced_negative_appends (art_style sketch_type prompt negative_prompt : string) :
  truthy negative_prompt = true ->
  (enhanced_prompts art_style sketch_type prompt negative_prompt).2
  = (enhanced_prompts art_style sketch_type prompt EmptyString).2 +:+ ", " +:+ negative_prompt.
Proof.
  intros H. unfold enhanced_prompts.
  destruct (String.eqb art_style "realistic"), (String.eqb art_style "ultra_realistic"),
           (String.eqb sketch_type "face"); simpl;
    now rewrite with_custom_negative_appends.
Qed.

(** C4 as amended: with a non-empty custom negative prompt, every request
    of [call_enhanced_controlnet_api] carries the style's default negative
    fragments followed by ", " and the custom negative prompt, while every
    request of [call_kaggle_sdxl_api] (to the Kaggle endpoint and to the
    local fallback) carries the custom negative prompt alone, in place of the
    balanced default. *)
Theorem custom_negative_appended_or_replacing (E : env)
    (image_bytes prompt negative_prompt sketch_type control_type art_style
     preset_choice : string) :
  truthy negative_prompt = true ->
  (enhanced_prompts art_style sketch_type prompt negative_prompt).2
    = (enhanced_prompts art_style sketch_type prompt EmptyString).2 +:+ ", " +:+ negative_prompt
  /\ emits (carries_negative
              ((enhanced_prompts art_style sketch_type prompt EmptyString).2
               +:+ ", " +:+ negative_prompt))
       (call_enhanced_controlnet_api E image_bytes prompt negative_prompt
          sketch_type control_type art_style preset_choice)
  /\ kaggle_final_negative negative_prompt = negative_prompt
  /\ emits (carries_negative negative_prompt)
       (call_kaggle_sdxl_api E image_bytes prompt negative_prompt).
Proof.
  intros Hcustom. split; [now apply enhanced_negative_appends|]. split; [|split].
  - rewrite <- (enhanced_negative_appends _ _ _ _ Hcustom).
    apply call_enhanced_controlnet_api_emits; try (intros; exact I).
    intros. reflexivity.
  - unfold kaggle_final_negative. now rewrite Hcustom.
  - apply call_kaggle_sdxl_api_emits; try (intros; exact I).
    + simpl. unfold kaggle_final_negative. now rewrite Hcustom.
    + reflexivity.
Qed.

Lemma custom_negative_appended_or_replacing_witness :
  truthy "hat" = true
  /\ (enhanced_prompts "cartoon" "face" "a cat" "hat").2
     = "deformed, extra limbs, multiple faces, mutated hands, blurry, out of focus, low quality, glitch, split face, extra heads, extra bodies, anatomical error, realistic, photograph, hat".
Proof.
  split; [reflexivity|].
  exact (proj1 (custom_negative_appended_or_replacing
                  (scripted "https://abc.ngrok-free.app" [])
                  "sketch" "a cat" "hat" "face" "scribble" "cartoon" "Default"
                  eq_refl)).
Defined.

(** C4 as stated fails on [call_kaggle_sdxl_api]: called with the custom
    negative prompt "hat", the request it sends carries "hat" alone; the
    balanced default fragments are not part of it. *)
Lemma kaggle_custom_negative_replaces_default :
  let E := scripted "https://abc.ngrok-free.app" [json_image "picture"] in
  call_kaggle_sdxl_api E "sketch" "a cat" "hat" fresh
  = (Some "picture",
     {| calls := 1;
        trace := [St st_spinner "Generating image with Kaggle SDXL... This may take 3-5 minutes for high-quality results.";
                  Post JsonBody "https://abc.ngrok-free.app/generate"
                    [("prompt", JStr "professional photography, a cat, high quality, detailed, natural lighting, sharp focus, beautiful, masterpiece, 8k, ultra detailed");
                     ("negative_prompt", JStr "hat");
                     ("image_data", JStr "sketch");
                     ("control_type", JStr "scribble");
                     ("num_inference_steps", JInt 30)];
                  St st_success "Kaggle SDXL generation successful!"] |})
  /\ "hat" <> balanced_negative +:+ ", " +:+ "hat"
  /\ ~ occurs_in balanced_negative "hat".
Proof.
  split; [vm_compute; reflexivity|]. split; [discriminate|].
  apply contains_false_iff. vm_compute. reflexivity.
Qed.

End CustomNegative.

(** ** Protocol errors and retries of the Kaggle backend *)

Section KaggleRetries.

Variable E : env.
Variables (kaggle_url : string) (json_data : payload).
Variables (image_bytes prompt negative_prompt : string).
Variable max_retries : nat.

Local Abbreviation loop :=
  (kaggle_retry_loop E kaggle_url json_data image_bytes prompt negative_prompt
     max_retries).
Local Abbreviation after_request := (after_kaggle_request kaggle_url json_data).

Lemma loop_step (attempt : nat) (rest : list nat) (w : world) :
  loop (attempt :: rest) w
  = (let r := requests_post E (calls w) JsonBody kaggle_url json_data in
     match r with
     | Responds response =>
         if (status_code response =? 200)%Z then
           match json response with
           | None => kaggle_unavailable E image_bytes prompt negative_prompt
           | Some result_json =>
               match result_json !! "image" with
               | Some b64 =>
                   match b64decode E b64 with
                   | None => kaggle_unavailable E image_bytes prompt negative_prompt
                   | Some result_image_bytes =>
                       match Image_open E result_image_bytes with
                       | None => kaggle_unavailable E image_bytes prompt negative_prompt
                       | Some result_image =>
                           st st_success "Kaggle SDXL generation successful!" ;;
                           ret (Some result_image)
                       end
                   end
               | None =>
                   st st_error "Invalid response format from backend" ;;
                   st st_info "Switching to local ControlNet..." ;;
                   call_local_controlnet_fallback E image_bytes prompt negative_prompt
               end
           end
         else if (status_code response =? 404)%Z && (attempt <? max_retries - 1)%nat then
           sleep 2 ;; loop rest
         else
           st st_error "Kaggle backend error: {response.status_code}" ;;
           when (status_code response =? 500)%Z
             (st st_error "Backend error details: {response.text}") ;;
           st st_info "Switching to local ControlNet..." ;;
           call_local_controlnet_fallback E image_bytes prompt negative_prompt
     | Raises ETimeout =>
         if (attempt <? max_retries - 1)%nat then sleep 2 ;; loop rest
         else
           st st_error "All attempts timed out" ;;
           st st_info "Switching to local ControlNet..." ;;
           call_local_controlnet_fallback E image_bytes prompt negative_prompt
     | Raises _ => kaggle_unavailable E image_bytes prompt negative_prompt
     end) (after_request w).
Proof.
  unfold after_kaggle_request. simpl. unfold bind at 1 2. unfold st at 1, emit, post. simpl.
  rewrite <- app_assoc. reflexivity.
Qed.

Lemma messages_then {A} (c : M A) (w : world) (level : st_level) (text : string) :
  (st level text ;; c) w = c (extended w [St level text]).
Proof. reflexivity. Qed.

Lemma sleep_then {A} (c : M A) (w : world) (seconds : Z) :
  (sleep seconds ;; c) w = c (extended w [Sleep seconds]).
Proof. reflexivity. Qed.

Lemma ret_then {A B} (a : A) (c : M B) (w : world) : (ret a ;; c) w = c w.
Proof. reflexivity. Qed.

Lemma extended_twice (w : world) (evs1 evs2 : list event) :
  extended (extended w evs1) evs2 = extended w (evs1 ++ evs2).
Proof. unfold extended. simpl. now rewrite <- app_assoc. Qed.

Lemma kaggle_unavailable_hands_over (w : world) :
  kaggle_unavailable E image_bytes prompt negative_prompt w
  = call_local_controlnet_fallback E image_bytes prompt negative_prompt
      (extended w [St st_warning "Kaggle SDXL is currently unavailable";
                   St st_error "Error details: {str(e)}";
                   St st_info "Switching to local ControlNet for similar quality..."]).
Proof.
  unfold kaggle_unavailable. rewrite !messages_then, ?extended_twice. reflexivity.
Qed.

(** C7 as amended: when the reply of an attempt is a protocol error (not
    status 200, or a body from which no picture can be decoded), the Kaggle
    loop retries only an HTTP 404 on an attempt that is not the last, after a
    2 second delay; in every other case it shows messages and hands over to
    [call_local_controlnet_fallback] at once, leaving the remaining attempts
    unused. *)
Theorem kaggle_protocol_error_handling
    (attempt : nat) (rest : list nat) (w : world) (r : response) :
  requests_post E (calls w) JsonBody kaggle_url json_data = Responds r ->
  kaggle_decoded E r = None ->
  (status_code r = 404%Z /\ (attempt < max_retries - 1)%nat ->
     loop (attempt :: rest) w = loop rest (extended (after_request w) [Sleep 2]))
  /\ (~ (status_code r = 404%Z /\ (attempt < max_retries - 1)%nat) ->
      exists messages,
        Forall is_message messages
        /\ loop (attempt :: rest) w
           = call_local_controlnet_fallback E image_bytes prompt negative_prompt
               (extended (after_request w) messages)).
Proof.
  intros Hreply Hdecoded. rewrite loop_step, Hreply. cbv zeta.
  unfold kaggle_decoded in Hdecoded. split.
  - intros [H404 Hattempt]. rewrite H404 in *. simpl.
    apply Nat.ltb_lt in Hattempt. rewrite Hattempt. reflexivity.
  - intros Hnot. destruct (status_code r =? 200)%Z eqn:H200.
    + destruct (json r) as [result_json|]; simpl in Hdecoded.
      * destruct (result_json !! "image") as [b64|]; simpl in Hdecoded.
        -- destruct (b64decode E b64) as [decoded|]; simpl in Hdecoded.
           ++ rewrite Hdecoded, kaggle_unavailable_hands_over.
              eexists. split; [|reflexivity]. repeat constructor.
           ++ rewrite kaggle_unavailable_hands_over.
              eexists. split; [|reflexivity]. repeat constructor.
        -- rewrite !messages_then, ?extended_twice.
           eexists. split; [|reflexivity]. repeat constructor.
      * rewrite kaggle_unavailable_hands_over.
        eexists. split; [|reflexivity]. repeat constructor.
    + assert (Hnoretry : (status_code r =? 404)%Z && (attempt <? max_retries - 1)%nat = false).
      { apply andb_false_iff.
        destruct (status_code r =? 404)%Z eqn:H404; [right | now left].
        apply Z.eqb_eq in H404. apply Nat.ltb_ge.
        destruct (Nat.lt_ge_cases attempt (max_retries - 1)); [|assumption].
        exfalso. apply Hnot. split; assumption. }
      rewrite Hnoretry. rewrite messages_then.
      destruct (status_code r =? 500)%Z; unfold when.
      * rewrite !messages_then, ?extended_twice.
        eexists. split; [|reflexivity]. repeat constructor.
      * rewrite ret_then, !messages_then, ?extended_twice.
        eexists. split; [|reflexivity]. repeat constructor.
Qed.

(** A timeout on an attempt that is not the last: 2 seconds, then the
    next attempt on the same endpoint. *)
Lemma kaggle_timeout_backoff (attempt : nat) (rest : list nat) (w : world) :
  requests_post E (calls w) JsonBody kaggle_url json_data = Raises ETimeout ->
  (attempt < max_retries - 1)%nat ->
  loop (attempt :: rest) w = loop rest (extended (after_request w) [Sleep 2]).
Proof.
  intros Hreply Hattempt. rewrite loop_step, Hreply. cbv zeta.
  apply Nat.ltb_lt in Hattempt. rewrite Hattempt. reflexivity.
Qed.

(** A connection error leaves the loop at once, whatever the attempt. *)
Lemma kaggle_connection_error_leaves_loop (attempt : nat) (rest : list nat) (w : world) :
  requests_post E (calls w) JsonBody kaggle_url json_data = Raises EConnectionError ->
  loop (attempt :: rest) w
  = call_local_controlnet_fallback E image_bytes prompt negative_prompt
      (extended (after_request w)
         [St st_warning "Kaggle SDXL is currently unavailable";
          St st_error "Error details: {str(e)}";
          St st_info "Switching to local ControlNet for similar quality..."]).
Proof.
  intros Hreply. rewrite loop_step, Hreply. cbv zeta.
  now rewrite kaggle_unavailable_hands_over.
Qed.

End KaggleRetries.

Lemma kaggle_protocol_error_handling_witness :
  let E := scripted "https://abc.ngrok-free.app" [http_status 500] in
  let data := kaggle_json_data E "sketch" "a cat" EmptyString in
  exists messages,
    Forall is_message messages
    /\ kaggle_retry_loop E "https://abc.ngrok-free.app/generate" data "sketch" "a cat" EmptyString
         3 [0; 1; 2]%nat fresh
       = call_local_controlnet_fallback E "sketch" "a cat" EmptyString
           (extended (after_kaggle_request "https://abc.ngrok-free.app/generate" data fresh)
              messages).
Proof.
  intros E data.
  refine (proj2 (kaggle_protocol_error_handling E "https://abc.ngrok-free.app/generate"
                   data "sketch" "a cat" EmptyString 3 0 [1; 2]%nat fresh
                   {| status_code := 500; content_type := "text/html"; content := EmptyString;
                      json := None |} eq_refl eq_refl) _).
  intros [H500 _]. discriminate H500.
Defined.

(** C7 as stated fails on an HTTP 404: the first reply is a protocol error
    (status 404, nothing to decode), yet [call_kaggle_sdxl_api] waits 2 seconds
    and sends the same request to the same endpoint again; the second reply
    carries the picture, and the local fallback is never called. *)
Lemma kaggle_404_is_retried :
  let E := scripted "https://abc.ngrok-free.app" [http_status 404; json_image "picture"] in
  let data := kaggle_json_data E "sketch" "a cat" EmptyString in
  kaggle_decoded E {| status_code := 404; content_type := "text/html"; content := EmptyString;
                      json := None |} = None
  /\ call_kaggle_sdxl_api E "sketch" "a cat" EmptyString fresh
     = (Some "picture",
        {| calls := 2;
           trace := [St st_spinner "Generating image with Kaggle SDXL... This may take 3-5 minutes for high-quality results.";
                     Post JsonBody "https://abc.ngrok-free.app/generate" data;
                     Sleep 2;
                     St st_spinner "Generating image with Kaggle SDXL... This may take 3-5 minutes for high-quality results.";
                     Post JsonBody "https://abc.ngrok-free.app/generate" data;
                     St st_success "Kaggle SDXL generation successful!"] |}).
Proof. split; [reflexivity | vm_compute; reflexivity]. Qed.

(** ** Retries of call_enhanced_controlnet_api *)

Section EnhancedRetries.

Variable E : env.
Variables (url : string) (json_data : payload).
Variable max_retries : nat.

Local Abbreviation loop := (enhanced_retry_loop E url json_data max_retries).
Local Abbreviation after_request := (after_enhanced_request url json_data).

Lemma enhanced_loop_step (attempt : nat) (rest : list nat) (w : world) :
  loop (attempt :: rest) w
  = (match requests_post E (calls w) JsonBody url json_data with
     | Responds response => ret (Break response)
     | Raises ETimeout =>
         if (attempt <? max_retries - 1)%nat then
           st st_warning "Attempt {attempt + 1} timed out. Retrying..." ;;
           sleep 2 ;; loop rest
         else
           st st_error "All attempts timed out. The backend is processing a complex image." ;;
           st st_info "Try reducing image complexity or using a simpler preset." ;;
           ret StStop
     | Raises EConnectionError =>
         if (attempt <? max_retries - 1)%nat then
           st st_warning "Attempt {attempt + 1} failed due to connection error. Retrying..." ;;
           sleep 3 ;; loop rest
         else
           st st_error "Connection error after all retries. Please check if the backend is running." ;;
           st st_info "Ensure your ngrok URL is up to date and backend is accessible." ;;
           ret StStop
     | Raises EOther =>
         if (attempt <? max_retries - 1)%nat then
           st st_warning "Attempt {attempt + 1} failed: {str(e)}. Retrying..." ;;
           sleep 2 ;; loop rest
         else
           st st_error "All attempts failed with error: {str(e)}" ;;
           ret StStop
     end) (after_request w).
Proof.
  unfold after_enhanced_request. simpl. unfold bind at 1 2. unfold st at 1, emit, post.
  simpl. rewrite <- app_assoc. reflexivity.
Qed.

(** In [call_enhanced_controlnet_api] a timeout or a connection error
    (or any other exception) on an attempt that is not the last is followed
    by a warning, a fixed delay of 2 or 3 seconds and the next attempt on the
    same endpoint. *)
Lemma enhanced_backoff (attempt : nat) (rest : list nat) (w : world) (cls : exn_class) :
  requests_post E (calls w) JsonBody url json_data = Raises cls ->
  (attempt < max_retries - 1)%nat ->
  exists warning delay,
    delay = (match cls with EConnectionError => 3 | _ => 2 end)%Z
    /\ loop (attempt :: rest) w
       = loop rest (extended (after_request w) [St st_warning warning; Sleep delay]).
Proof.
  intros Hreply Hattempt. rewrite enhanced_loop_step, Hreply.
  apply Nat.ltb_lt in Hattempt. rewrite Hattempt.
  destruct cls; rewrite messages_then, sleep_then, extended_twice;
    do 2 eexists; (split; [reflexivity|]); reflexivity.
Qed.

End EnhancedRetries.

(** ** At most three attempts *)

Section AttemptBound.

Variable E : env.

Lemma count_posts_app (enc : encoding) (evs1 evs2 : list event) :
  count_posts enc (evs1 ++ evs2) = (count_posts enc evs1 + count_posts enc evs2)%nat.
Proof. unfold count_posts. now rewrite List.filter_app, length_app. Qed.

Lemma sends_at_most_ret {A} (n : nat) (a : A) : sends_at_most n (ret a).
Proof.
  intros w. exists []. split; [symmetry; apply app_nil_r | unfold count_posts; simpl; lia].
Qed.

Lemma sends_at_most_bind {A B} (n m : nat) (c : M A) (k : A -> M B) :
  sends_at_most n c -> (forall a, sends_at_most m (k a)) ->
  sends_at_most (n + m) (bind c k).
Proof.
  intros Hc Hk w. unfold bind. destruct (Hc w) as (evs1 & Heq1 & Hn).
  destruct (c w) as [a w1]. destruct (Hk a w1) as (evs2 & Heq2 & Hm).
  exists (evs1 ++ evs2)%list. split.
  - rewrite Heq2. simpl in Heq1. rewrite Heq1. symmetry. apply app_assoc.
  - rewrite count_posts_app. lia.
Qed.

Lemma sends_at_most_emit (n : nat) (e : event) :
  is_post_as JsonBody e = false -> sends_at_most n (emit e).
Proof.
  intros He w. exists [e]. split; [reflexivity|].
  unfold count_posts. simpl. rewrite He. simpl. lia.
Qed.

Lemma sends_at_most_then {A} (n : nat) (e : event) (c : M A) :
  is_post_as JsonBody e = false -> sends_at_most n c -> sends_at_most n (emit e ;; c).
Proof.
  intros He Hc. apply (sends_at_most_bind 0 n); [now apply sends_at_most_emit | intros _; exact Hc].
Qed.

Lemma sends_at_most_post (enc : encoding) (url : string) (data : payload) :
  sends_at_most 1 (post E enc url data).
Proof.
  intros w. exists [Post enc url data]. split; [reflexivity|].
  unfold count_posts. destruct enc; simpl; lia.
Qed.

Lemma sends_at_most_form_post (n : nat) (url : string) (data : payload) :
  sends_at_most n (post E MultipartForm url data).
Proof.
  intros w. exists [Post MultipartForm url data]. split; [reflexivity|].
  unfold count_posts. simpl. lia.
Qed.

Ltac bound_cases :=
  repeat
    (first
       [ apply sends_at_most_ret
       | assumption
       | apply sends_at_most_then; [reflexivity|]
       | apply sends_at_most_emit; reflexivity
       | match goal with
         | |- sends_at_most _ (match ?x with _ => _ end) => destruct x eqn:?
         | |- sends_at_most _ (when ?b _ ;; _) =>
             destruct b; [| apply (sends_at_most_bind 0); [apply sends_at_most_ret | intros _]]
         | |- sends_at_most _ ((if ?b then _ else _) ;; _) =>
             apply (sends_at_most_bind 0); [destruct b | intros _]
         end ]).

Lemma local_fallback_sends_no_json (n : nat) (image_bytes prompt negative_prompt : string) :
  sends_at_most n (call_local_controlnet_fallback E image_bytes prompt negative_prompt).
Proof.
  unfold call_local_controlnet_fallback, local_also_failed, st.
  destruct (contains "your-ngrok-url-here" (get_backend_url E)); [bound_cases|].
  apply (sends_at_most_bind 0 n); [apply sends_at_most_form_post | intros r].
  bound_cases.
Qed.

Lemma enhanced_retry_loop_bounded (url : string) (json_data : payload)
    (max_retries : nat) (attempts : list nat) :
  sends_at_most (length attempts) (enhanced_retry_loop E url json_data max_retries attempts).
Proof.
  induction attempts as [|attempt rest IH]; simpl; [apply sends_at_most_ret|].
  unfold st, sleep in *. apply sends_at_most_then; [reflexivity|].
  apply (sends_at_most_bind 1 (length rest)); [apply sends_at_most_post | intros r].
  bound_cases.
Qed.

Lemma kaggle_retry_loop_bounded (kaggle_url : string) (json_data : payload)
    (image_bytes prompt negative_prompt : string) (max_retries : nat)
    (attempts : list nat) :
  sends_at_most (length attempts)
    (kaggle_retry_loop E kaggle_url json_data image_bytes prompt negative_prompt
       max_retries attempts).
Proof.
  induction attempts as [|attempt rest IH]; simpl; [apply sends_at_most_ret|].
  pose proof (local_fallback_sends_no_json (length rest) image_bytes prompt negative_prompt)
    as Hlocal.
  unfold kaggle_unavailable, st, sleep in *. apply sends_at_most_then; [reflexivity|].
  apply (sends_at_most_bind 1 (length rest)); [apply sends_at_most_post | intros r].
  bound_cases.
Qed.

(** Neither function sends its JSON request more than three times. *)
Lemma at_most_three_attempts (image_bytes prompt negative_prompt sketch_type
    control_type art_style preset_choice : string) :
  sends_at_most 3 (call_enhanced_controlnet_api E image_bytes prompt negative_prompt
                     sketch_type control_type art_style preset_choice)
  /\ sends_at_most 3 (call_kaggle_sdxl_api E image_bytes prompt negative_prompt).
Proof.
  split.
  - assert (Hgenerate : forall control_type' optimal_params control_guidance_end use_refiner,
               sends_at_most 3
                 (enhanced_generate E (get_backend_url E) image_bytes prompt negative_prompt
                    sketch_type control_type' art_style preset_choice optimal_params
                    control_guidance_end use_refiner)).
    { intros. unfold enhanced_generate.
      destruct (enhanced_prompts art_style sketch_type prompt negative_prompt).
      apply (sends_at_most_bind 3 0); [apply enhanced_retry_loop_bounded | intros exit].
      unfold enhanced_handle_response, unexpected_error, st. bound_cases. }
    unfold call_enhanced_controlnet_api, get_parameters_from_preset, st.
    destruct (contains "your-ngrok-url-here" (get_backend_url E)); [bound_cases|].
    destruct (String.eqb art_style "ultra_realistic").
    + destruct (ultra_realistic_preset preset_choice). apply Hgenerate.
    + apply (sends_at_most_bind 0 3); [bound_cases | intros looked_up].
      destruct looked_up as [key | [optimal_params control_type']];
        [bound_cases | apply Hgenerate].
  - pose proof (local_fallback_sends_no_json 3 image_bytes prompt negative_prompt) as Hlocal.
    unfold call_kaggle_sdxl_api, st.
    destruct (contains "your-ngrok-url-here" (get_backend_url E)); [bound_cases|].
    apply kaggle_retry_loop_bounded.
Qed.

End AttemptBound.

(** ** Connection errors *)

(** C6 (evaluation at the failing input): the first request fails with a
    connection error. [call_enhanced_controlnet_api] warns, waits 3 seconds and
    sends the request again to the same endpoint. [call_kaggle_sdxl_api] does
    not: without any delay or second attempt it gives the Kaggle endpoint up
    and goes to the local fallback, whose reply it returns. *)
Theorem kaggle_connection_error_not_retried :
  let url := "https://abc.ngrok-free.app/generate" in
  let E := scripted "https://abc.ngrok-free.app" [Raises EConnectionError; raw_image "local picture"] in
  let E' := scripted "https://abc.ngrok-free.app" [Raises EConnectionError; json_image "picture"] in
  call_kaggle_sdxl_api E "sketch" "a cat" EmptyString fresh
  = (Some "local picture",
     {| calls := 2;
        trace := [St st_spinner "Generating image with Kaggle SDXL... This may take 3-5 minutes for high-quality results.";
                  Post JsonBody url (kaggle_json_data E "sketch" "a cat" EmptyString);
                  St st_warning "Kaggle SDXL is currently unavailable";
                  St st_error "Error details: {str(e)}";
                  St st_info "Switching to local ControlNet for similar quality...";
                  Post MultipartForm url
                    [("image", JStr "sketch"); ("prompt", JStr "a cat");
                     ("negative_prompt", JStr EmptyString)];
                  St st_success "Local ControlNet generation successful!"] |})
  /\ List.filter is_sleep
       (trace (call_kaggle_sdxl_api E "sketch" "a cat" EmptyString fresh).2) = []
  /\ List.filter (fun e => is_post e || is_sleep e)
       (trace (call_enhanced_controlnet_api E' "sketch" "a cat" EmptyString "face" "scribble"
                 "realistic" "Default (Recommended)" fresh).2)
     = (let data :=
          enhanced_json_data E' "sketch"
            (enhanced_prompts "realistic" "face" "a cat" EmptyString).1
            (enhanced_prompts "realistic" "face" "a cat" EmptyString).2
            "scribble" "face" "realistic"
            {| op_controlnet_conditioning_scale := 0.95; op_guidance_scale := 6.5;
               op_num_inference_steps := 30 |} 0.0 0.8 false in
        [Post JsonBody (url +:+ "/generate") data; Sleep 3;
         Post JsonBody (url +:+ "/generate") data]).
Proof. repeat split; vm_compute; reflexivity. Qed.

(** ** More facts about Python strings *)

Section MoreStringFacts.

Lemma string_app_assoc (a b c : string) : (a +:+ b) +:+ c = a +:+ (b +:+ c).
Proof.
  induction a as [|x a IH]; [reflexivity|].
  change (String x ((a +:+ b) +:+ c) = String x (a +:+ (b +:+ c))). now rewrite IH.
Qed.

Lemma string_length_app (a b : string) :
  String.length (a +:+ b) = (String.length a + String.length b)%nat.
Proof.
  induction a as [|x a IH]; [reflexivity|].
  change (S (String.length (a +:+ b)) = S (String.length a + String.length b)).
  now rewrite IH.
Qed.

End MoreStringFacts.

(** * Further properties of the code *)

(** ** Style detection, categories and the fallback theme system *)

Section Themes.

Import ThemeSystem.

Lemma forallb_elem_of {A} (f : A -> bool) (l : list A) (x : A) :
  forallb f l = true -> x ∈ l -> f x = true.
Proof.
  intros Hall Hx. apply list_elem_of_In in Hx.
  rewrite forallb_forall in Hall. now apply Hall.
Qed.

Lemma no_repeat_NoDup (l : list string) : no_repeat l = true -> NoDup l.
Proof.
  induction l as [|x rest IH]; simpl; [constructor|].
  rewrite andb_true_iff, negb_true_iff. intros [Hx Hrest].
  constructor; [|now apply IH].
  intros Hin. apply list_elem_of_In in Hin.
  assert (Htrue : existsb (String.eqb x) rest = true).
  { apply existsb_exists. exists x. split; [exact Hin | apply String.eqb_refl]. }
  congruence.
Qed.

(** X1: for every theme that has an entry in [THEME_DESCRIPTIONS], the style
    that [detect_theme_style] reads off the theme name is the style stored in
    the entry. *)
Theorem detected_style_agrees_with_catalogue (theme_name : string) (info : theme_info) :
  THEME_DESCRIPTIONS !! theme_name = Some info ->
  detect_theme_style theme_name = style info.
Proof.
  intros Hentry. unfold THEME_DESCRIPTIONS in Hentry.
  apply elem_of_list_to_map_2 in Hentry.
  match type of Hentry with
  | _ ∈ ?entries =>
      assert (Hall : forallb (fun entry : string * theme_info =>
                                String.eqb (detect_theme_style entry.1) (style entry.2))
                       entries = true) by (vm_compute; reflexivity)
  end.
  apply String.eqb_eq. exact (forallb_elem_of _ _ _ Hall Hentry).
Qed.

Lemma detected_style_agrees_with_catalogue_witness :
  detect_theme_style "Watercolor painting" = "cartoon".
Proof.
  refine (detected_style_agrees_with_catalogue "Watercolor painting"
            {| description := "Soft watercolor painting style with flowing colors and artistic texture";
               style := "cartoon";
               positive_prompt := "watercolor painting, soft colors, flowing, artistic, painterly";
               negative_prompt := "realistic, photograph, sharp, digital" |} _).
  vm_compute. reflexivity.
Defined.

(** X2: [detect_theme_style] answers "cartoon" exactly when one of the
    cartoon keywords occurs in the lower-cased theme name, and "realistic"
    otherwise; the realistic keywords never change the answer. *)
Theorem cartoon_keywords_decide (theme_name : string) :
  ((exists keyword, In keyword cartoon_keywords /\ occurs_in keyword (lower theme_name))
   -> detect_theme_style theme_name = "cartoon")
  /\ (~ (exists keyword, In keyword cartoon_keywords /\ occurs_in keyword (lower theme_name))
      -> detect_theme_style theme_name = "realistic").
Proof.
  unfold detect_theme_style, any_in.
  destruct (existsb (fun word => contains word (lower theme_name)) cartoon_keywords) eqn:Hany.
  - split; [reflexivity|]. intros Hnone. exfalso. apply Hnone.
    apply existsb_exists in Hany as (keyword & Hin & Hocc).
    exists keyword. split; [exact Hin | now apply contains_occurs_in].
  - split.
    + intros (keyword & Hin & Hocc). apply contains_occurs_in in Hocc.
      assert (Htrue : existsb (fun word => contains word (lower theme_name)) cartoon_keywords
                      = true) by (apply existsb_exists; eauto).
      congruence.
    + intros _. now destruct (existsb _ realistic_keywords).
Qed.

Lemma cartoon_keywords_decide_witness :
  detect_theme_style "Realistic Cartoon portrait" = "cartoon".
Proof.
  apply (proj1 (cartoon_keywords_decide "Realistic Cartoon portrait")).
  exists "cartoon". split; [left; reflexivity|].
  exists "realistic ", " portrait". reflexivity.
Defined.

(** X3: in enhanced_theme_system.py the themes listed under "Human" in
    [THEME_CATEGORIES] are exactly the keys of [THEME_DESCRIPTIONS], each
    listed once; so a theme of any other category has a catalogue entry only
    if it is also listed under "Human". *)
Theorem human_category_is_the_catalogue (theme_name : string) :
  (In theme_name (themes_of "Human") <-> is_Some (THEME_DESCRIPTIONS !! theme_name))
  /\ NoDup (themes_of "Human").
Proof.
  split; [split|].
  - intros Hin.
    assert (Hall : forallb (fun t => match THEME_DESCRIPTIONS !! t with
                                     | Some _ => true
                                     | None => false
                                     end) (themes_of "Human") = true)
      by (vm_compute; reflexivity).
    rewrite forallb_forall in Hall. specialize (Hall _ Hin).
    destruct (THEME_DESCRIPTIONS !! theme_name); [eauto | discriminate].
  - intros [info Hentry]. unfold THEME_DESCRIPTIONS in Hentry.
    apply elem_of_list_to_map_2 in Hentry.
    match type of Hentry with
    | _ ∈ ?entries =>
        assert (Hall : forallb (fun entry : string * theme_info =>
                                  existsb (String.eqb entry.1) (themes_of "Human"))
                         entries = true) by (vm_compute; reflexivity)
    end.
    pose proof (forallb_elem_of _ _ _ Hall Hentry) as Hex.
    apply existsb_exists in Hex as (t & Hin & Heq).
    apply String.eqb_eq in Heq. change (theme_name = t) in Heq. now subst t.
  - apply no_repeat_NoDup. vm_compute. reflexivity.
Qed.

(** X4: in [get_enhanced_prompts_for_theme] a user prompt only adds a
    prefix: the positive prompt is the user prompt, ", " and the positive
    prompt composed without user prompt; the negative prompt and the style are
    those composed without user prompt. *)
Theorem user_prompt_only_prefixes (theme_name sketch_type user_prompt : string) :
  truthy user_prompt = true ->
  get_enhanced_prompts_for_theme theme_name sketch_type user_prompt
  = (user_prompt +:+ ", "
       +:+ (get_enhanced_prompts_for_theme theme_name sketch_type EmptyString).1.1,
     (get_enhanced_prompts_for_theme theme_name sketch_type EmptyString).1.2,
     (get_enhanced_prompts_for_theme theme_name sketch_type EmptyString).2).
Proof.
  intros Hup. unfold get_enhanced_prompts_for_theme. rewrite Hup.
  destruct (String.eqb sketch_type "face"),
           (String.eqb (style (get_theme_info theme_name)) "realistic"); reflexivity.
Qed.

Lemma user_prompt_only_prefixes_witness :
  (get_enhanced_prompts_for_theme "Pop art" "face" "red hair").1.1
  = "red hair, anime style portrait, pop art style, bold colors, graphic design, Andy Warhol inspired, stylized features, clean lines, detailed illustration, single face".
Proof.
  rewrite (user_prompt_only_prefixes "Pop art" "face" "red hair" eq_refl).
  vm_compute. reflexivity.
Defined.

Lemma catalogue_styles (theme_name : string) :
  style (get_theme_info theme_name) = "realistic"
  \/ style (get_theme_info theme_name) = "cartoon".
Proof.
  unfold get_theme_info. destruct (THEME_DESCRIPTIONS !! theme_name) as [info|] eqn:Hentry;
    [|left; reflexivity].
  unfold THEME_DESCRIPTIONS in Hentry. apply elem_of_list_to_map_2 in Hentry.
  match type of Hentry with
  | _ ∈ ?entries =>
      assert (Hall : forallb (fun entry : string * theme_info =>
                                String.eqb (style entry.2) "realistic"
                                || String.eqb (style entry.2) "cartoon")
                       entries = true) by (vm_compute; reflexivity)
  end.
  pose proof (forallb_elem_of _ _ _ Hall Hentry) as Hstyle.
  change (String.eqb (style info) "realistic" || String.eqb (style info) "cartoon" = true)
    in Hstyle.
  apply orb_true_iff in Hstyle as [H | H]; apply String.eqb_eq in H; auto.
Qed.

Lemma detected_style_of_theme (theme_name sketch_type user_prompt : string) :
  (get_enhanced_prompts_for_theme theme_name sketch_type user_prompt).2
  = style (get_theme_info theme_name).
Proof.
  unfold get_enhanced_prompts_for_theme.
  destruct (truthy user_prompt), (String.eqb sketch_type "face"),
           (String.eqb (style (get_theme_info theme_name)) "realistic"); reflexivity.
Qed.

Lemma detected_style_not_ultra (theme_name sketch_type user_prompt : string) :
  (get_enhanced_prompts_for_theme theme_name sketch_type user_prompt).2 <> "ultra_realistic".
Proof.
  rewrite detected_style_of_theme.
  destruct (catalogue_styles theme_name) as [-> | ->]; discriminate.
Qed.

(** X5: the style that [get_enhanced_prompts_for_theme] returns is
    "realistic" or "cartoon" for every theme, sketch type and user prompt;
    it is never "ultra_realistic". *)
Theorem theme_style_is_realistic_or_cartoon (theme_name sketch_type user_prompt : string) :
  let detected_style := (get_enhanced_prompts_for_theme theme_name sketch_type user_prompt).2 in
  (detected_style = "realistic" \/ detected_style = "cartoon")
  /\ detected_style <> "ultra_realistic".
Proof.
  cbv zeta. rewrite detected_style_of_theme.
  destruct (catalogue_styles theme_name) as [-> | ->]; split; auto; discriminate.
Qed.

Lemma theme_info_eqb_eq (a b : theme_info) : theme_info_eqb a b = true -> a = b.
Proof.
  unfold theme_info_eqb. rewrite !andb_true_iff, !String.eqb_eq.
  destruct a, b; simpl. intros [[[-> ->] ->] ->]. reflexivity.
Qed.

Lemma fallback_table_is_submap (theme_name : string) (info : theme_info) :
  FallbackThemes.theme_descriptions !! theme_name = Some info ->
  THEME_DESCRIPTIONS !! theme_name = Some info.
Proof.
  intros Hentry. unfold FallbackThemes.theme_descriptions in Hentry.
  apply elem_of_list_to_map_2 in Hentry.
  match type of Hentry with
  | _ ∈ ?entries =>
      assert (Hall : forallb (fun entry : string * theme_info =>
                                match THEME_DESCRIPTIONS !! entry.1 with
                                | Some info' => theme_info_eqb info' entry.2
                                | None => false
                                end) entries = true) by (vm_compute; reflexivity)
  end.
  pose proof (forallb_elem_of _ _ _ Hall Hentry) as Hsame.
  change (match THEME_DESCRIPTIONS !! theme_name with
          | Some info' => theme_info_eqb info' info
          | None => false
          end = true) in Hsame.
  destruct (THEME_DESCRIPTIONS !! theme_name) as [info'|]; [|discriminate].
  now rewrite (theme_info_eqb_eq _ _ Hsame).
Qed.

(** X6: every entry of the fallback theme table of app.py is an entry of
    [THEME_DESCRIPTIONS]; for those themes the fallback
    [get_enhanced_prompts_for_theme] returns what the one of
    enhanced_theme_system.py returns, for every sketch type and user prompt. *)
Theorem fallback_agrees_on_its_themes
    (theme_name sketch_type user_prompt : string) (info : theme_info) :
  FallbackThemes.theme_descriptions !! theme_name = Some info ->
  THEME_DESCRIPTIONS !! theme_name = Some info
  /\ FallbackThemes.get_enhanced_prompts_for_theme theme_name sketch_type user_prompt
     = get_enhanced_prompts_for_theme theme_name sketch_type user_prompt.
Proof.
  intros Hentry. pose proof (fallback_table_is_submap _ _ Hentry) as Hprimary.
  split; [exact Hprimary|].
  unfold FallbackThemes.get_enhanced_prompts_for_theme, get_enhanced_prompts_for_theme,
    FallbackThemes.get_theme_info, get_theme_info.
  rewrite Hentry, Hprimary.
  destruct (truthy user_prompt), (String.eqb sketch_type "face"),
           (String.eqb (style info) "realistic"); reflexivity.
Qed.

Lemma fallback_agrees_on_its_themes_witness :
  FallbackThemes.get_enhanced_prompts_for_theme "Anime style" "face" "red hair"
  = get_enhanced_prompts_for_theme "Anime style" "face" "red hair".
Proof.
  refine (proj2 (fallback_agrees_on_its_themes "Anime style" "face" "red hair"
                   {| description := "Japanese anime style with large eyes and stylized features";
                      style := "cartoon";
                      positive_prompt := "anime style, Japanese animation, large eyes, stylized features, vibrant colors";
                      negative_prompt := "realistic, photograph, natural, detailed" |} _)).
  vm_compute. reflexivity.
Defined.

(** X7: for a theme that has no entry in [THEME_DESCRIPTIONS] (and so none
    in the fallback table) the fallback composes the same positive prompt and
    style, but its negative prompt has no theme fragment: it is the defect
    list alone, beginning with the separator ", ". *)
Theorem fallback_unknown_theme (theme_name sketch_type user_prompt : string) :
  THEME_DESCRIPTIONS !! theme_name = None ->
  let fallback :=
    FallbackThemes.get_enhanced_prompts_for_theme theme_name sketch_type user_prompt in
  let primary := get_enhanced_prompts_for_theme theme_name sketch_type user_prompt in
  fallback.1.1 = primary.1.1
  /\ fallback.2 = primary.2
  /\ starts_with ", deformed, extra limbs" fallback.1.2
  /\ primary.1.2
     = "deformed, extra limbs, multiple faces, mutated hands, blurry, out of focus, low quality"
       +:+ fallback.1.2.
Proof.
  intros Hnone.
  assert (Hfallback : FallbackThemes.theme_descriptions !! theme_name = None).
  { destruct (FallbackThemes.theme_descriptions !! theme_name) as [info|] eqn:Hentry;
      [|reflexivity].
    apply fallback_table_is_submap in Hentry. congruence. }
  cbv zeta.
  unfold FallbackThemes.get_enhanced_prompts_for_theme, get_enhanced_prompts_for_theme,
    FallbackThemes.get_theme_info, get_theme_info.
  rewrite Hnone, Hfallback. cbn [style positive_prompt negative_prompt].
  change (String.eqb "realistic" "realistic") with true. cbv iota.
  destruct (truthy user_prompt), (String.eqb sketch_type "face"); cbn [fst snd];
    (split; [reflexivity|]; split; [reflexivity|]; split; [eexists; reflexivity | reflexivity]).
Qed.

Lemma fallback_unknown_theme_witness :
  (FallbackThemes.get_enhanced_prompts_for_theme "Modern skyscraper" "face" EmptyString).1.1
  = (get_enhanced_prompts_for_theme "Modern skyscraper" "face" EmptyString).1.1.
Proof.
  refine (proj1 (fallback_unknown_theme "Modern skyscraper" "face" EmptyString _)).
  vm_compute. reflexivity.
Defined.

End Themes.

(** ** The token estimate *)

Section TokenEstimate.

Lemma truthy_app_l (a b : string) : truthy a = true -> truthy (a +:+ b) = true.
Proof. destruct a; [discriminate | reflexivity]. Qed.

Lemma truthy_app_r (a b : string) : truthy b = true -> truthy (a +:+ b) = true.
Proof. destruct a; [trivial | reflexivity]. Qed.

(** A text cannot hold more words than half its length, rounded up. *)
Lemma split_from_bound (text word : string) :
  (2 * length (split_from word text)
   <= String.length text + 1 + (if truthy word then 1 else 0))%nat.
Proof.
  revert word. induction text as [|c rest IH]; intros word.
  - simpl. destruct (truthy word); simpl; lia.
  - cbn [split_from String.length].
    destruct (is_space c).
    + specialize (IH EmptyString). cbn [truthy] in IH.
      destruct (truthy word); cbn [length]; lia.
    + specialize (IH (word +:+ String c EmptyString)).
      rewrite (truthy_app_r word (String c EmptyString) eq_refl) in IH.
      destruct (truthy word); lia.
Qed.

Lemma token_estimate_bounds (text : string) :
  (Z.of_nat (String.length text) / 4 <= count_tokens_approximate text
   <= Z.of_nat (String.length text) / 4 + (Z.of_nat (String.length text) + 1) / 2)%Z.
Proof.
  unfold count_tokens_approximate, split.
  pose proof (split_from_bound text EmptyString) as Hwords. cbn [truthy] in Hwords.
  assert (Z.of_nat (length (split_from EmptyString text))
          <= (Z.of_nat (String.length text) + 1) / 2)%Z.
  { apply Z.div_le_lower_bound; lia. }
  lia.
Qed.

(** X8: the token estimate of a text of [n] characters lies between
    [n // 4] and [n // 4 + (n + 1) // 2]: a text never counts for more words
    than half its length, rounded up. *)
Theorem count_tokens_bounds (text : string) :
  let n := Z.of_nat (String.length text) in
  (n / 4 <= count_tokens_approximate text <= n / 4 + (n + 1) / 2)%Z.
Proof. exact (token_estimate_bounds text). Qed.

(** X9: with the default limit of 77 tokens, [check_prompt_length] accepts
    every prompt of at most 82 characters without any message, and rejects
    every prompt of at least 312 characters with a warning and a hint. *)
Theorem check_prompt_length_by_length (prompt : string) (w : world) :
  ((String.length prompt <= 82)%nat ->
     check_prompt_length prompt 77 w = (true, w))
  /\ ((312 <= String.length prompt)%nat ->
        check_prompt_length prompt 77 w
        = (false,
           extended w
             [St st_warning "Your prompt is {token_count} tokens (limit: {max_tokens}). Some details may be cut off!";
              St st_info "Consider shortening your prompt to prioritize key details like hair color, clothing, etc."])).
Proof.
  pose proof (token_estimate_bounds prompt) as Hbounds.
  unfold check_prompt_length. split; intros Hlen.
  - assert (Hcount : (count_tokens_approximate prompt <= 61)%Z).
    { assert (Z.of_nat (String.length prompt) / 4 < 21)%Z
        by (apply Z.div_lt_upper_bound; lia).
      assert ((Z.of_nat (String.length prompt) + 1) / 2 < 42)%Z
        by (apply Z.div_lt_upper_bound; lia).
      lia. }
    assert (Hno : (77 <? count_tokens_approximate prompt)%Z = false)
      by (apply Z.ltb_ge; lia).
    rewrite Hno.
    assert (Hle : Qle_bool (inject_Z (count_tokens_approximate prompt)) (inject_Z 77 * 0.8)
                  = true).
    { apply Qle_bool_iff. unfold Qle. simpl. lia. }
    rewrite Hle. reflexivity.
  - assert (Hcount : (78 <= count_tokens_approximate prompt)%Z).
    { assert (78 <= Z.of_nat (String.length prompt) / 4)%Z
        by (apply Z.div_le_lower_bound; lia).
      lia. }
    assert (Hyes : (77 <? count_tokens_approximate prompt)%Z = true)
      by (apply Z.ltb_lt; lia).
    rewrite Hyes. unfold extended. rewrite !messages_then. unfold extended. simpl.
    now rewrite <- app_assoc.
Qed.

Lemma check_prompt_length_by_length_witness :
  check_prompt_length "a cat with red hair" 77 fresh = (true, fresh).
Proof.
  apply (proj1 (check_prompt_length_by_length "a cat with red hair" fresh)).
  simpl. lia.
Defined.

End TokenEstimate.

(** ** Prompts of the generation block *)

Section GenerationPrompts.

(** The value that [prompts_with] returns, apart from its messages. *)
Lemma prompts_with_value
    (regenerate : string -> string -> string -> string -> string * string)
    (theme sketch_type prompt negative_prompt manual_style : string) (w : world) :
  (prompts_with regenerate theme sketch_type prompt negative_prompt manual_style w).1
  = (let composed :=
       ThemeSystem.get_enhanced_prompts_for_theme theme sketch_type
         (if truthy prompt then prompt else EmptyString) in
     if negb (String.eqb manual_style composed.2)
     then ((regenerate manual_style sketch_type prompt negative_prompt).1,
           (regenerate manual_style sketch_type prompt negative_prompt).2,
           manual_style)
     else composed).
Proof.
  unfold prompts_with. cbv zeta.
  destruct (ThemeSystem.get_enhanced_prompts_for_theme theme sketch_type
              (if truthy prompt then prompt else EmptyString))
    as [[enhanced_prompt enhanced_negative] detected_style].
  cbn [fst snd].
  destruct (negb (String.eqb manual_style detected_style)).
  - destruct (regenerate manual_style sketch_type prompt negative_prompt) as [p n].
    unfold bind, st, emit, ret, token_estimate_warning. cbn [fst snd].
    destruct (77 <? count_tokens_approximate p)%Z; reflexivity.
  - unfold bind, st, emit, ret, token_estimate_warning. cbn [fst snd].
    destruct (77 <? count_tokens_approximate enhanced_prompt)%Z; reflexivity.
Qed.

Lemma regenerate_prompt_starts_with_user_text
    (manual_style sketch_type prompt negative_prompt : string) :
  truthy prompt = true ->
  starts_with prompt (regenerate_prompt manual_style sketch_type prompt negative_prompt).1.
Proof.
  intros Hprompt. unfold regenerate_prompt, starts_with. rewrite Hprompt.
  destruct (String.eqb manual_style "realistic"), (String.eqb manual_style "cartoon"),
           (String.eqb sketch_type "face"); eexists; reflexivity.
Qed.

(** X10: for the model "SDXL + ControlNet (Kaggle)" the positive prompt
    that reaches the token check (and then the request) starts with the user's
    text whenever that text is not empty, whatever the theme, the sketch type
    and the style chosen by hand, regenerated or not. *)
Theorem sdxl_controlnet_prompt_starts_with_user_text
    (theme sketch_type prompt negative_prompt manual_style : string) (w : world) :
  truthy prompt = true ->
  starts_with prompt
    (sdxl_controlnet_prompts theme sketch_type prompt negative_prompt manual_style w).1.1.1.
Proof.
  intros Hprompt. unfold sdxl_controlnet_prompts. rewrite prompts_with_value. cbv zeta.
  destruct (negb _).
  - now apply regenerate_prompt_starts_with_user_text.
  - rewrite Hprompt. now apply theme_prompt_starts_with_user_text.
Qed.

Lemma sdxl_controlnet_prompt_starts_with_user_text_witness :
  String.prefix "red hair"
    (sdxl_controlnet_prompts "Pop art" "face" "red hair" base_negative "ultra_realistic"
       fresh).1.1.1 = true.
Proof.
  apply prefix_starts_with.
  exact (sdxl_controlnet_prompt_starts_with_user_text "Pop art" "face" "red hair"
           base_negative "ultra_realistic" fresh eq_refl).
Defined.

(** X11: the two copies of the regeneration block return the same negative
    prompt, and for "realistic" the same positive prompt. For "cartoon" the
    copy of the Official model puts the template first and the user's text (or
    its stand-in) last, where the other copy puts it first. *)
Theorem regeneration_copies_compared
    (manual_style sketch_type prompt negative_prompt : string) :
  (regenerate_prompt_official manual_style sketch_type prompt negative_prompt).2
  = (regenerate_prompt manual_style sketch_type prompt negative_prompt).2
  /\ (manual_style = "realistic" ->
      regenerate_prompt_official manual_style sketch_type prompt negative_prompt
      = regenerate_prompt manual_style sketch_type prompt negative_prompt)
  /\ (manual_style = "cartoon" ->
      exists user_text template,
        user_text = (if truthy prompt then prompt
                     else if String.eqb sketch_type "face" then "portrait"
                          else "full body portrait")
        /\ (regenerate_prompt manual_style sketch_type prompt negative_prompt).1
           = user_text +:+ ", " +:+ template
        /\ (regenerate_prompt_official manual_style sketch_type prompt negative_prompt).1
           = template +:+ ", " +:+ user_text).
Proof.
  split; [|split].
  - unfold regenerate_prompt_official, regenerate_prompt.
    destruct (String.eqb manual_style "realistic"), (String.eqb manual_style "cartoon"),
             (String.eqb sketch_type "face"); reflexivity.
  - intros ->. unfold regenerate_prompt_official, regenerate_prompt.
    change (String.eqb "realistic" "realistic") with true. cbv iota.
    destruct (String.eqb sketch_type "face"); reflexivity.
  - intros ->. unfold regenerate_prompt_official, regenerate_prompt.
    change (String.eqb "cartoon" "realistic") with false.
    change (String.eqb "cartoon" "cartoon") with true. cbv iota.
    destruct (String.eqb sketch_type "face"); cbn [fst].
    + exists (if truthy prompt then prompt else "portrait"),
        "anime style portrait, vibrant colors, stylized features, clean lines, detailed illustration, single face".
      split; [now destruct (truthy prompt)|]. split; reflexivity.
    + exists (if truthy prompt then prompt else "full body portrait"),
        "anime style full body portrait, vibrant colors, stylized features, clean lines, detailed illustration, single figure, dynamic pose".
      split; [now destruct (truthy prompt)|]. split; reflexivity.
Qed.

Lemma regeneration_copies_compared_witness :
  (regenerate_prompt_official "cartoon" "face" "red hair" EmptyString).1
  = "anime style portrait, vibrant colors, stylized features, clean lines, detailed illustration, single face, red hair".
Proof.
  destruct (proj2 (proj2 (regeneration_copies_compared "cartoon" "face" "red hair"
                            EmptyString)) eq_refl)
    as (user_text & template & Huser & HA & HB).
  vm_compute. reflexivity.
Defined.

Lemma combined_negative_truthy (prompt theme : string) :
  truthy (combined_negative prompt theme) = true.
Proof.
  unfold combined_negative. destruct (truthy (context_negative prompt theme)); reflexivity.
Qed.

Lemma long_text_exceeds_limit (text : string) :
  (312 <= String.length text)%nat -> (77 <? count_tokens_approximate text)%Z = true.
Proof.
  intros Hlen. apply Z.ltb_lt.
  pose proof (token_estimate_bounds text) as Hbounds.
  assert (78 <= Z.of_nat (String.length text) / 4)%Z
    by (apply Z.div_le_lower_bound; lia).
  lia.
Qed.

(** X12: with the style "ultra_realistic" chosen by hand the prompts are
    always regenerated (no theme has that style), the negative prompt sent is
    the ultra-realistic defect list followed by the combined negative prompt
    of the context scan, and the token warning is always shown: the template
    alone is over the limit. *)
Theorem ultra_realistic_always_regenerates_and_warns
    (theme sketch_type prompt : string) (w : world) :
  let negative_prompt := combined_negative prompt theme in
  sdxl_controlnet_prompts theme sketch_type prompt negative_prompt "ultra_realistic" w
  = (((regenerate_prompt "ultra_realistic" sketch_type prompt negative_prompt).1,
      ultra_realistic_negative +:+ ", " +:+ negative_prompt,
      "ultra_realistic"),
     extended w
       [St st_info "Overriding theme detection: Using {manual_style.title()} style (you selected) instead of {detected_style.title()} (theme detected)";
        St st_info "Theme Style: {detected_style.title()}";
        St st_info "Enhanced Prompt: {enhanced_prompt}";
        St st_warning "Your prompt is approximately {token_estimate} tokens (limit: 77). Some details may be cut off!";
        St st_info "Consider shortening your prompt to prioritize key details like hair color, clothing, etc."]).
Proof.
  intros negative_prompt.
  pose proof (detected_style_not_ultra theme sketch_type
                (if truthy prompt then prompt else EmptyString)) as Hstyle.
  unfold sdxl_controlnet_prompts, prompts_with.
  destruct (ThemeSystem.get_enhanced_prompts_for_theme theme sketch_type
              (if truthy prompt then prompt else EmptyString))
    as [[enhanced_prompt enhanced_negative] detected_style].
  cbn [snd] in Hstyle.
  assert (Hne : String.eqb "ultra_realistic" detected_style = false)
    by (apply String.eqb_neq; congruence).
  rewrite Hne. cbn [negb].
  assert (Hnegative : (regenerate_prompt "ultra_realistic" sketch_type prompt negative_prompt).2
                      = ultra_realistic_negative +:+ ", " +:+ negative_prompt).
  { unfold regenerate_prompt, with_custom_negative, negative_prompt.
    rewrite combined_negative_truthy.
    destruct (String.eqb sketch_type "face"); reflexivity. }
  assert (Hlong : (77 <? count_tokens_approximate
                           (regenerate_prompt "ultra_realistic" sketch_type prompt
                              negative_prompt).1)%Z = true).
  { apply long_text_exceeds_limit. unfold regenerate_prompt.
    change (String.eqb "ultra_realistic" "realistic") with false.
    change (String.eqb "ultra_realistic" "cartoon") with false. cbv iota.
    destruct (String.eqb sketch_type "face"); cbn [fst]; rewrite string_length_app;
      match goal with
      | |- (_ <= _ + String.length ?template)%nat =>
          let n := eval vm_compute in (String.length template) in
          change (String.length template) with n
      end; lia. }
  destruct (regenerate_prompt "ultra_realistic" sketch_type prompt negative_prompt)
    as [p n]. cbn [fst snd] in *. subst n.
  unfold bind, st, emit, ret, token_estimate_warning, extended. cbn [fst snd].
  rewrite Hlong. cbn. now rewrite <- !app_assoc.
Qed.

Lemma regenerate_prompt_ignores_scan
    (manual_style sketch_type prompt negative_prompt negative_prompt' : string) :
  manual_style = "realistic" \/ manual_style = "cartoon" ->
  regenerate_prompt manual_style sketch_type prompt negative_prompt
  = regenerate_prompt manual_style sketch_type prompt negative_prompt'.
Proof.
  intros [-> | ->]; unfold regenerate_prompt;
    destruct (String.eqb sketch_type "face"); reflexivity.
Qed.

(** X13: with the style "realistic" or "cartoon" chosen by hand, what the
    model "SDXL + ControlNet (Kaggle)" composes does not depend on the
    combined negative prompt: the context-exclusion fragment of the scan is
    not part of the negative prompt that is sent. *)
Theorem context_exclusion_dropped_for_realistic_and_cartoon
    (theme sketch_type prompt manual_style negative_prompt negative_prompt' : string)
    (w : world) :
  manual_style = "realistic" \/ manual_style = "cartoon" ->
  sdxl_controlnet_prompts theme sketch_type prompt negative_prompt manual_style w
  = sdxl_controlnet_prompts theme sketch_type prompt negative_prompt' manual_style w.
Proof.
  intros Hstyle. unfold sdxl_controlnet_prompts, prompts_with.
  now rewrite (regenerate_prompt_ignores_scan manual_style sketch_type prompt
                 negative_prompt negative_prompt' Hstyle).
Qed.

Lemma context_exclusion_dropped_for_realistic_and_cartoon_witness :
  (sdxl_controlnet_prompts "Pop art" "face" "a girl" (combined_negative "a girl" "Pop art")
     "realistic" fresh).1.1.2
  = realistic_face_negative.
Proof.
  rewrite (context_exclusion_dropped_for_realistic_and_cartoon "Pop art" "face" "a girl"
             "realistic" (combined_negative "a girl" "Pop art") EmptyString fresh
             (or_introl eq_refl)).
  vm_compute. reflexivity.
Defined.

(** X14: for the model "ControlNet" the positive prompt starts with "young
    boy" and asks for a "male child" whatever the theme and the user's text;
    when the text mentions a girl/woman keyword and no boy/child keyword, the
    negative prompt of the same request excludes "man, boy, male, child, kid,
    young". *)
Theorem controlnet_model_always_asks_for_a_boy (theme prompt : string) :
  starts_with "young boy" (controlnet_model_prompt theme prompt)
  /\ occurs_in "male child" (controlnet_model_prompt theme prompt)
  /\ (mentions ["boy"; "child"; "kid"; "young"] prompt = false ->
      mentions ["girl"; "woman"; "female"; "lady"] prompt = true ->
      combined_negative prompt theme
      = base_negative +:+ ", man, boy, male, child, kid, young").
Proof.
  split; [|split].
  - unfold controlnet_model_prompt, starts_with.
    destruct (_ || _); [eexists; reflexivity|].
    destruct (contains "realistic" (lower theme)); [eexists; reflexivity|].
    destruct (truthy prompt); eexists; reflexivity.
  - unfold controlnet_model_prompt, occurs_in.
    destruct (_ || _).
    { exists ("young boy portrait, " +:+ prompt +:+ ", "),
        ", boy face, child portrait, high quality, detailed face, natural lighting, sharp focus, perfect anatomy, symmetrical face, natural proportions".
      rewrite !string_app_assoc. reflexivity. }
    destruct (contains "realistic" (lower theme)).
    { exists ("young boy, " +:+ prompt +:+ ", "),
        ", boy face, realistic human portrait, professional photography, detailed features, natural skin texture, high resolution, beautiful, perfect anatomy, symmetrical face, natural proportions".
      rewrite !string_app_assoc. reflexivity. }
    destruct (truthy prompt).
    + exists ("young boy, " +:+ prompt +:+ ", "), EmptyString.
      rewrite !string_app_assoc. reflexivity.
    + exists "young boy, ", EmptyString. reflexivity.
  - intros Hboy Hgirl.
    unfold combined_negative. rewrite context_negative_fired.
    unfold exclusion_rules, fired, boy_child_rule, girl_woman_rule, matches.
    rewrite Hboy, Hgirl. reflexivity.
Qed.

Lemma controlnet_model_always_asks_for_a_boy_witness :
  String.prefix "young boy" (controlnet_model_prompt "Pop art" "a girl with a red hat") = true
  /\ combined_negative "a girl with a red hat" "Pop art"
     = base_negative +:+ ", man, boy, male, child, kid, young".
Proof.
  destruct (controlnet_model_always_asks_for_a_boy "Pop art" "a girl with a red hat")
    as (Hstart & _ & Hnegative).
  split; [now apply prefix_starts_with|].
  apply Hnegative; vm_compute; reflexivity.
Defined.

End GenerationPrompts.

(** ** The parameter table *)

Section ParameterTable.

Lemma preset_ok_within_ranges (p : preset) :
  preset_ok p = true -> within_ranges (without_control_type p) (control_type p).
Proof.
  unfold preset_ok, within_ranges. rewrite !andb_true_iff, orb_true_iff, !Qle_bool_iff,
    !Z.leb_le, !String.eqb_eq. simpl. tauto.
Qed.

Lemma table_tiers_ok (art_style sketch_type : string) (by_preset : gmap string preset) :
  PRESET_PARAMETERS !! art_style ≫= (.!! sketch_type) = Some by_preset ->
  tiers_ok by_preset = true.
Proof.
  destruct (PRESET_PARAMETERS !! art_style) as [by_sketch_type|] eqn:Hstyle;
    [|discriminate].
  cbn [mbind option_bind]. intros Hsketch.
  unfold PRESET_PARAMETERS in Hstyle. apply elem_of_list_to_map_2 in Hstyle.
  repeat (apply elem_of_cons in Hstyle as [Hstyle | Hstyle]);
    [..|now apply elem_of_nil in Hstyle];
    apply (f_equal snd) in Hstyle; cbn [snd] in Hstyle; subst by_sketch_type;
    apply elem_of_list_to_map_2 in Hsketch;
    (repeat (apply elem_of_cons in Hsketch as [Hsketch | Hsketch]);
     [..|now apply elem_of_nil in Hsketch]);
    apply (f_equal snd) in Hsketch; cbn [snd] in Hsketch; subst by_preset;
    vm_compute; reflexivity.
Qed.

Lemma preset_key_of_cases (preset_choice : string) :
  In (preset_key_of preset_choice) ["Default"; "Balanced"; "Creative"].
Proof.
  unfold preset_key_of. destruct (contains "Creative" preset_choice); [simpl; auto|].
  destruct (contains "Balanced" preset_choice); simpl; auto.
Qed.

Lemma subscript3_in_table (art_style sketch_type preset_choice : string)
    (by_preset : gmap string preset) :
  PRESET_PARAMETERS !! art_style ≫= (.!! sketch_type) = Some by_preset ->
  exists p, subscript3 art_style sketch_type (preset_key_of preset_choice) = inr p
            /\ preset_ok p = true.
Proof.
  intros Hpair. pose proof (table_tiers_ok _ _ _ Hpair) as Htiers.
  unfold tiers_ok in Htiers. rewrite forallb_forall in Htiers.
  specialize (Htiers _ (preset_key_of_cases preset_choice)).
  unfold subscript3.
  destruct (PRESET_PARAMETERS !! art_style) as [by_sketch_type|]; [|discriminate].
  cbn [mbind option_bind] in Hpair. rewrite Hpair.
  destruct (by_preset !! preset_key_of preset_choice) as [p|]; [eauto | discriminate].
Qed.

(** X15: for every art style, sketch type and preset string, known or not,
    [get_parameters_from_preset] returns parameters (it never fails) with a
    conditioning scale between 0.4 and 0.95, a guidance scale between 3 and
    8, between 30 and 36 steps, and the control type "scribble" or "canny". *)
Theorem resolved_parameters_within_ranges
    (art_style sketch_type preset_choice : string) (w : world) :
  exists optimal_params control_type,
    (get_parameters_from_preset art_style sketch_type preset_choice w).1
      = inr (optimal_params, control_type)
    /\ within_ranges optimal_params control_type.
Proof.
  unfold get_parameters_from_preset.
  destruct (PRESET_PARAMETERS !! art_style ≫= (.!! sketch_type)) as [by_preset|] eqn:Hpair.
  - destruct (subscript3_in_table _ _ preset_choice _ Hpair) as (p & -> & Hok).
    do 2 eexists. split; [reflexivity | now apply preset_ok_within_ranges].
  - destruct (subscript3_absent _ _ (preset_key_of preset_choice) Hpair) as [key ->].
    do 2 eexists. split; [reflexivity|].
    apply (preset_ok_within_ranges
             {| controlnet_conditioning_scale := 0.95; guidance_scale := 6.5;
                num_inference_steps := 30; control_type := "scribble" |}).
    vm_compute. reflexivity.
Qed.

(** X16: every pair (art style, sketch type) of the table has all three
    tiers, so [get_parameters_from_preset] shows its fallback diagnostic
    exactly when the pair is not in the table: for a pair of the table it
    leaves the world as it was, whatever the preset string. *)
Theorem diagnostic_only_for_absent_pairs
    (art_style sketch_type preset_choice : string) (w : world) :
  in_table art_style sketch_type
  <-> (get_parameters_from_preset art_style sketch_type preset_choice w).2 = w.
Proof.
  unfold in_table, get_parameters_from_preset. split.
  - intros [by_preset Hpair].
    destruct (subscript3_in_table _ _ preset_choice _ Hpair) as (p & -> & _). reflexivity.
  - intros Hworld.
    destruct (PRESET_PARAMETERS !! art_style ≫= (.!! sketch_type)) as [by_preset|] eqn:Hpair;
      [eauto|].
    destruct (subscript3_absent _ _ (preset_key_of preset_choice) Hpair) as [key Hkey].
    rewrite Hkey in Hworld. exfalso.
    assert (Hfallback : subscript3 "realistic" "face" "Default"
                        = inr {| controlnet_conditioning_scale := 0.95; guidance_scale := 6.5;
                                 num_inference_steps := 30; control_type := "scribble" |})
      by (vm_compute; reflexivity).
    unfold bind, st, emit, ret in Hworld. rewrite Hfallback in Hworld.
    cbn [fst snd] in Hworld.
    apply (f_equal (fun w' => length (trace w'))) in Hworld.
    cbn [trace] in Hworld. rewrite length_app in Hworld. cbn [length] in Hworld. lia.
Qed.

End ParameterTable.

Lemma diagnostic_only_for_absent_pairs_witness :
  in_table "realistic" "face"
  /\ (get_parameters_from_preset "realistic" "face" "Default (Recommended)" fresh).2 = fresh.
Proof.
  assert (H : in_table "realistic" "face") by (eexists; vm_compute; reflexivity).
  split; [exact H|].
  exact (proj1 (diagnostic_only_for_absent_pairs "realistic" "face" "Default (Recommended)"
                  fresh) H).
Defined.

(** ** How many outside calls a click can make *)

Section OutsideCalls.

Lemma calls_at_most_ret {A} (n : nat) (a : A) : calls_at_most n (ret a).
Proof. intros w. simpl. lia. Qed.

Lemma calls_at_most_bind {A B} (n m : nat) (c : M A) (k : A -> M B) :
  calls_at_most n c -> (forall a, calls_at_most m (k a)) ->
  calls_at_most (n + m) (bind c k).
Proof.
  intros Hc Hk w. unfold bind. specialize (Hc w). destruct (c w) as [a w1].
  specialize (Hk a w1). simpl in Hc. lia.
Qed.

Lemma calls_at_most_le {A} (n m : nat) (c : M A) :
  (n <= m)%nat -> calls_at_most n c -> calls_at_most m c.
Proof. intros Hle Hc w. specialize (Hc w). lia. Qed.

Lemma calls_at_most_emit (n : nat) (e : event) : calls_at_most n (emit e).
Proof. intros w. simpl. lia. Qed.

Lemma calls_at_most_then {A} (n : nat) (e : event) (c : M A) :
  calls_at_most n c -> calls_at_most n (emit e ;; c).
Proof.
  intros Hc. apply (calls_at_most_bind 0 n); [apply calls_at_most_emit | intros _; exact Hc].
Qed.

Lemma calls_at_most_post (E : env) (enc : encoding) (url : string) (data : payload) :
  calls_at_most 1 (post E enc url data).
Proof. intros w. simpl. lia. Qed.

Lemma calls_at_most_predict (E : env) (space api_name : string) (args : payload) :
  calls_at_most 1 (predict E space api_name args).
Proof. intros w. simpl. lia. Qed.

Lemma calls_at_most_predict_3d (E3 : env_3d) (processed_image_path : string) :
  calls_at_most 1 (predict_3d E3 processed_image_path).
Proof. intros w. simpl. lia. Qed.

Ltac calls_cases :=
  repeat
    (first
       [ apply calls_at_most_ret
       | assumption
       | apply calls_at_most_then
       | apply calls_at_most_emit
       | match goal with
         | |- calls_at_most _ (match ?x with _ => _ end) => destruct x eqn:?
         | |- calls_at_most _ (when ?b _ ;; _) =>
             destruct b; [| apply (calls_at_most_bind 0); [apply calls_at_most_ret | intros _]]
         | |- calls_at_most _ ((if ?b then _ else _) ;; _) =>
             apply (calls_at_most_bind 0); [destruct b | intros _]
         end ]).

Variable E : env.

Lemma local_fallback_calls (n : nat) (image_bytes prompt negative_prompt : string) :
  calls_at_most (S n) (call_local_controlnet_fallback E image_bytes prompt negative_prompt).
Proof.
  unfold call_local_controlnet_fallback, local_also_failed, st.
  destruct (contains "your-ngrok-url-here" (get_backend_url E)); [calls_cases|].
  apply (calls_at_most_bind 1 n); [apply calls_at_most_post | intros r].
  calls_cases.
Qed.

Lemma kaggle_retry_loop_calls (kaggle_url : string) (json_data : payload)
    (image_bytes prompt negative_prompt : string) (max_retries : nat)
    (attempts : list nat) :
  calls_at_most (S (length attempts))
    (kaggle_retry_loop E kaggle_url json_data image_bytes prompt negative_prompt
       max_retries attempts).
Proof.
  induction attempts as [|attempt rest IH]; simpl; [apply calls_at_most_ret|].
  pose proof (local_fallback_calls (length rest) image_bytes prompt negative_prompt)
    as Hlocal.
  unfold kaggle_unavailable, st, sleep in *. apply calls_at_most_then.
  apply (calls_at_most_bind 1 (S (length rest))); [apply calls_at_most_post | intros r].
  calls_cases.
Qed.

Lemma union_retry_loop_calls (union_url : string) (json_data : payload)
    (image_bytes prompt negative_prompt : string) (max_retries : nat)
    (attempts : list nat) :
  calls_at_most (S (length attempts))
    (union_retry_loop E union_url json_data image_bytes prompt negative_prompt
       max_retries attempts).
Proof.
  induction attempts as [|attempt rest IH]; simpl; [apply calls_at_most_ret|].
  pose proof (local_fallback_calls (length rest) image_bytes prompt negative_prompt)
    as Hlocal.
  unfold union_unavailable, st, sleep in *. apply calls_at_most_then.
  apply (calls_at_most_bind 1 (S (length rest))); [apply calls_at_most_post | intros r].
  calls_cases.
Qed.

Lemma linoyts_retry_loop_calls (linoyts_url : string) (json_data : payload)
    (image_bytes prompt negative_prompt : string) (max_retries : nat)
    (attempts : list nat) :
  calls_at_most (S (length attempts))
    (linoyts_retry_loop E linoyts_url json_data image_bytes prompt negative_prompt
       max_retries attempts).
Proof.
  induction attempts as [|attempt rest IH]; simpl.
  - unfold st. calls_cases. apply local_fallback_calls.
  - pose proof (local_fallback_calls (length rest) image_bytes prompt negative_prompt)
      as Hlocal.
    unfold st, sleep in *. apply calls_at_most_then.
    apply (calls_at_most_bind 1 (S (length rest))); [apply calls_at_most_post | intros r].
    calls_cases.
Qed.

Lemma enhanced_retry_loop_calls (url : string) (json_data : payload)
    (max_retries : nat) (attempts : list nat) :
  calls_at_most (length attempts) (enhanced_retry_loop E url json_data max_retries attempts).
Proof.
  induction attempts as [|attempt rest IH]; simpl; [apply calls_at_most_ret|].
  unfold st, sleep in *. apply calls_at_most_then.
  apply (calls_at_most_bind 1 (length rest)); [apply calls_at_most_post | intros r].
  calls_cases.
Qed.

Lemma call_enhanced_controlnet_api_calls (image_bytes prompt negative_prompt sketch_type
    control_type art_style preset_choice : string) :
  calls_at_most 3 (call_enhanced_controlnet_api E image_bytes prompt negative_prompt
                     sketch_type control_type art_style preset_choice).
Proof.
  assert (Hgenerate : forall control_type' optimal_params control_guidance_end use_refiner,
             calls_at_most 3
               (enhanced_generate E (get_backend_url E) image_bytes prompt negative_prompt
                  sketch_type control_type' art_style preset_choice optimal_params
                  control_guidance_end use_refiner)).
  { intros. unfold enhanced_generate.
    destruct (enhanced_prompts art_style sketch_type prompt negative_prompt).
    apply (calls_at_most_bind 3 0); [apply enhanced_retry_loop_calls | intros exit].
    unfold enhanced_handle_response, unexpected_error, st. calls_cases. }
  unfold call_enhanced_controlnet_api, get_parameters_from_preset, st.
  destruct (contains "your-ngrok-url-here" (get_backend_url E)); [calls_cases|].
  destruct (String.eqb art_style "ultra_realistic").
  - destruct (ultra_realistic_preset preset_choice). apply Hgenerate.
  - apply (calls_at_most_bind 0 3); [calls_cases | intros looked_up].
    destruct looked_up as [key | [optimal_params control_type']];
      [calls_cases | apply Hgenerate].
Qed.

Lemma sdxl_http_loop_calls (endpoints : list (string * string))
    (prompt negative_prompt : string) :
  calls_at_most (length endpoints) (sdxl_http_loop E endpoints prompt negative_prompt).
Proof.
  induction endpoints as [|[name url] rest IH]; simpl; [apply calls_at_most_ret|].
  unfold st in *.
  apply (calls_at_most_bind 1 (length rest)); [apply calls_at_most_post | intros r].
  calls_cases.
Qed.

Lemma call_sdxl_gradio_api_calls (image_bytes prompt negative_prompt hf_token : string) :
  calls_at_most 1 (call_sdxl_gradio_api E image_bytes prompt negative_prompt hf_token).
Proof.
  unfold call_sdxl_gradio_api, st.
  destruct (negb (gradio_client_installed E)); [calls_cases|].
  apply (calls_at_most_bind 1 0); [apply calls_at_most_predict | intros r].
  calls_cases.
Qed.

Lemma call_hf_sdxl_api_calls (image_bytes prompt negative_prompt : string) :
  calls_at_most 4 (call_hf_sdxl_api E image_bytes prompt negative_prompt).
Proof.
  pose proof (local_fallback_calls 3 image_bytes prompt negative_prompt) as Hlocal4.
  pose proof (local_fallback_calls 0 image_bytes prompt negative_prompt) as Hlocal.
  unfold call_hf_sdxl_api, call_sdxl_http_api, st.
  destruct (negb (truthy (getenv_HF_TOKEN E)) || String.eqb (getenv_HF_TOKEN E) "your_token_here");
    [calls_cases|].
  apply (calls_at_most_bind 2 2); [apply (sdxl_http_loop_calls sdxl_endpoints) | intros result].
  destruct result; [calls_cases|].
  apply (calls_at_most_bind 1 1); [apply call_sdxl_gradio_api_calls | intros result].
  destruct result; calls_cases.
Qed.

Lemma fallback_3d_calls (E3 : env_3d) (n : nat) (image_bytes prompt negative_prompt : string) :
  calls_at_most (S n) (fallback_3d E3 image_bytes prompt negative_prompt).
Proof.
  unfold fallback_3d, st. do 2 apply calls_at_most_then.
  apply (calls_at_most_bind 1 n); [apply calls_at_most_post | intros r].
  calls_cases.
Qed.

Lemma call_3d_model_api_calls (E3 : env_3d) (image_bytes prompt negative_prompt : string) :
  calls_at_most 3 (call_3d_model_api E3 image_bytes prompt negative_prompt).
Proof.
  pose proof (fallback_3d_calls E3 1 image_bytes prompt negative_prompt) as Hfallback2.
  pose proof (fallback_3d_calls E3 0 image_bytes prompt negative_prompt) as Hfallback.
  unfold call_3d_model_api, st.
  destruct (negb (gradio_client_installed (outside E3))); [calls_cases|].
  apply (calls_at_most_bind 1 2); [apply calls_at_most_predict | intros r].
  destruct r as [[|processed_image_path result]|]; [calls_cases | | calls_cases].
  apply (calls_at_most_bind 1 1); [apply calls_at_most_predict_3d | intros r3].
  calls_cases.
Qed.

Lemma call_kaggle_sdxl_api_calls (image_bytes prompt negative_prompt : string) :
  calls_at_most 4 (call_kaggle_sdxl_api E image_bytes prompt negative_prompt).
Proof.
  pose proof (local_fallback_calls 3 image_bytes prompt negative_prompt) as Hlocal.
  unfold call_kaggle_sdxl_api, st.
  destruct (contains "your-ngrok-url-here" (get_backend_url E)); [calls_cases|].
  apply kaggle_retry_loop_calls.
Qed.

Lemma call_controlnet_union_official_api_calls (image_bytes prompt negative_prompt : string) :
  calls_at_most 4 (call_controlnet_union_official_api E image_bytes prompt negative_prompt).
Proof.
  pose proof (local_fallback_calls 3 image_bytes prompt negative_prompt) as Hlocal.
  unfold call_controlnet_union_official_api, st.
  destruct (contains "your-ngrok-url-here" (get_backend_url E)); [calls_cases|].
  apply union_retry_loop_calls.
Qed.

Lemma call_linoyts_approach_api_calls (image_bytes prompt negative_prompt : string) :
  calls_at_most 4 (call_linoyts_approach_api E image_bytes prompt negative_prompt).
Proof.
  pose proof (local_fallback_calls 3 image_bytes prompt negative_prompt) as Hlocal.
  unfold call_linoyts_approach_api, st.
  destruct (contains "your-ngrok-url-here" (get_backend_url E)); [calls_cases|].
  apply linoyts_retry_loop_calls.
Qed.

(** X17: one call of a backend function makes at most four outside calls
    (HTTP requests and Gradio calls together), whatever the outside world
    answers: three attempts and one request to the local backend for the
    Kaggle, Union and Linoyts functions, two endpoints, one Gradio call and
    the local backend for the Hugging Face dispatch, three attempts for
    [call_enhanced_controlnet_api], two Gradio calls and one request for
    [call_3d_model_api], one request for the local fallback. The counter of
    outside calls never goes down. *)
Theorem outside_calls_bounded (E3 : env_3d) (image_bytes prompt negative_prompt : string) :
  calls_at_most 1 (call_local_controlnet_fallback E image_bytes prompt negative_prompt)
  /\ calls_at_most 4 (call_kaggle_sdxl_api E image_bytes prompt negative_prompt)
  /\ calls_at_most 4 (call_controlnet_union_official_api E image_bytes prompt negative_prompt)
  /\ calls_at_most 4 (call_linoyts_approach_api E image_bytes prompt negative_prompt)
  /\ calls_at_most 4 (call_hf_sdxl_api E image_bytes prompt negative_prompt)
  /\ calls_at_most 3 (call_3d_model_api E3 image_bytes prompt negative_prompt)
  /\ forall sketch_type control_type art_style preset_choice,
       calls_at_most 3 (call_enhanced_controlnet_api E image_bytes prompt negative_prompt
                          sketch_type control_type art_style preset_choice).
Proof.
  repeat apply conj.
  - apply (local_fallback_calls 0).
  - apply call_kaggle_sdxl_api_calls.
  - apply call_controlnet_union_official_api_calls.
  - apply call_linoyts_approach_api_calls.
  - apply call_hf_sdxl_api_calls.
  - apply call_3d_model_api_calls.
  - intros. apply call_enhanced_controlnet_api_calls.
Qed.

End OutsideCalls.

(** ** What the other backend functions put in the trace *)

Section MoreRetryLoops.

Variable E : env.
Variable P : event -> Prop.
Hypothesis P_message : forall level text, P (St level text).
Hypothesis P_sleep : forall seconds, P (Sleep seconds).

Ltac step_cases :=
  repeat
    (first
       [ apply emits_ret
       | apply emits_st; apply P_message
       | apply emits_sleep; apply P_sleep
       | apply emits_when
       | assumption
       | apply emits_bind; [| intros ? ]
       | match goal with
         | |- emits _ (match ?x with _ => _ end) => destruct x eqn:?
         end ]).

Lemma union_retry_loop_emits (union_url : string) (json_data : payload)
    (image_bytes prompt negative_prompt : string) (max_retries : nat)
    (attempts : list nat) :
  P (Post JsonBody union_url json_data) ->
  emits P (call_local_controlnet_fallback E image_bytes prompt negative_prompt) ->
  emits P (union_retry_loop E union_url json_data image_bytes prompt negative_prompt
             max_retries attempts).
Proof.
  intros Hpost Hlocal.
  assert (Hunavailable :
            emits P (union_unavailable E image_bytes prompt negative_prompt))
    by (unfold union_unavailable; step_cases).
  induction attempts as [|attempt rest IH]; simpl; [apply emits_ret|].
  apply emits_bind; [apply emits_st, P_message | intros _].
  apply emits_bind; [apply emits_post, Hpost | intros r].
  step_cases.
Qed.

Lemma linoyts_retry_loop_emits (linoyts_url : string) (json_data : payload)
    (image_bytes prompt negative_prompt : string) (max_retries : nat)
    (attempts : list nat) :
  P (Post JsonBody linoyts_url json_data) ->
  emits P (call_local_controlnet_fallback E image_bytes prompt negative_prompt) ->
  emits P (linoyts_retry_loop E linoyts_url json_data image_bytes prompt negative_prompt
             max_retries attempts).
Proof.
  intros Hpost Hlocal.
  induction attempts as [|attempt rest IH]; simpl; [step_cases|].
  apply emits_bind; [apply emits_st, P_message | intros _].
  apply emits_bind; [apply emits_post, Hpost | intros r].
  step_cases.
Qed.

Lemma call_controlnet_union_official_api_emits (image_bytes prompt negative_prompt : string) :
  P (Post JsonBody (get_backend_url E)
       (union_json_data E image_bytes prompt negative_prompt)) ->
  P (Post MultipartForm (get_backend_url E)
       [("image", JStr image_bytes); ("prompt", JStr prompt);
        ("negative_prompt", JStr negative_prompt)]) ->
  emits P (call_controlnet_union_official_api E image_bytes prompt negative_prompt).
Proof.
  intros Hjson Hform.
  assert (Hlocal : emits P (call_local_controlnet_fallback E image_bytes prompt
                              negative_prompt))
    by (apply local_fallback_emits; assumption).
  unfold call_controlnet_union_official_api.
  destruct (contains "your-ngrok-url-here" (get_backend_url E)); [step_cases|].
  apply union_retry_loop_emits; assumption.
Qed.

Lemma call_linoyts_approach_api_emits (image_bytes prompt negative_prompt : string) :
  P (Post JsonBody (get_backend_url E)
       (linoyts_json_data E image_bytes prompt negative_prompt)) ->
  P (Post MultipartForm (get_backend_url E)
       [("image", JStr image_bytes); ("prompt", JStr prompt);
        ("negative_prompt", JStr negative_prompt)]) ->
  emits P (call_linoyts_approach_api E image_bytes prompt negative_prompt).
Proof.
  intros Hjson Hform.
  assert (Hlocal : emits P (call_local_controlnet_fallback E image_bytes prompt
                              negative_prompt))
    by (apply local_fallback_emits; assumption).
  unfold call_linoyts_approach_api.
  destruct (contains "your-ngrok-url-here" (get_backend_url E)); [step_cases|].
  apply linoyts_retry_loop_emits; assumption.
Qed.

(** The requests of [call_enhanced_controlnet_api], by their address. *)
Lemma call_enhanced_controlnet_api_emits_to (image_bytes prompt negative_prompt
    sketch_type control_type art_style preset_choice : string) :
  (forall json_data, P (Post JsonBody (get_backend_url E +:+ "/generate") json_data)) ->
  emits P (call_enhanced_controlnet_api E image_bytes prompt negative_prompt
             sketch_type control_type art_style preset_choice).
Proof.
  intros Hpost.
  assert (Hgenerate : forall control_type' optimal_params control_guidance_end use_refiner,
             emits P (enhanced_generate E (get_backend_url E) image_bytes prompt
                        negative_prompt sketch_type control_type' art_style
                        preset_choice optimal_params control_guidance_end use_refiner)).
  { intros. unfold enhanced_generate.
    destruct (enhanced_prompts art_style sketch_type prompt negative_prompt)
      as [enhanced_prompt enhanced_negative].
    apply emits_bind; [apply enhanced_retry_loop_emits; auto | intros exit].
    destruct exit; [apply enhanced_handle_response_emits; auto | apply emits_ret |].
    unfold unexpected_error. step_cases. }
  unfold call_enhanced_controlnet_api.
  destruct (contains "your-ngrok-url-here" (get_backend_url E)); [step_cases|].
  destruct (String.eqb art_style "ultra_realistic").
  - destruct (ultra_realistic_preset preset_choice). apply Hgenerate.
  - apply emits_bind; [apply get_parameters_from_preset_emits; auto | intros looked_up].
    destruct looked_up as [key | [optimal_params control_type']];
      [step_cases | apply Hgenerate].
Qed.

End MoreRetryLoops.

Section RequestAddresses.

Variable E : env.

Lemma doubled_suffix_differs (url : string) : url +:+ "/generate" <> url.
Proof.
  intros Heq. apply (f_equal String.length) in Heq.
  rewrite string_length_app in Heq. simpl in Heq. lia.
Qed.

(** X18: every request of [call_local_controlnet_fallback],
    [call_kaggle_sdxl_api], [call_controlnet_union_official_api] and
    [call_linoyts_approach_api] is addressed to [get_backend_url()], the
    configured URL followed by "/generate". Every request of
    [call_enhanced_controlnet_api] is addressed to [get_backend_url()]
    followed by a second "/generate", which is a different address. *)
Theorem backend_request_addresses (image_bytes prompt negative_prompt : string) :
  emits (posts_to (get_backend_url E))
    (call_local_controlnet_fallback E image_bytes prompt negative_prompt)
  /\ emits (posts_to (get_backend_url E))
       (call_kaggle_sdxl_api E image_bytes prompt negative_prompt)
  /\ emits (posts_to (get_backend_url E))
       (call_controlnet_union_official_api E image_bytes prompt negative_prompt)
  /\ emits (posts_to (get_backend_url E))
       (call_linoyts_approach_api E image_bytes prompt negative_prompt)
  /\ (forall sketch_type control_type art_style preset_choice,
        emits (posts_to (get_backend_url E +:+ "/generate"))
          (call_enhanced_controlnet_api E image_bytes prompt negative_prompt
             sketch_type control_type art_style preset_choice))
  /\ get_backend_url E +:+ "/generate" <> get_backend_url E.
Proof.
  repeat apply conj.
  - apply local_fallback_emits; intros; exact I || reflexivity.
  - apply call_kaggle_sdxl_api_emits; intros; exact I || reflexivity.
  - apply call_controlnet_union_official_api_emits; intros; exact I || reflexivity.
  - apply call_linoyts_approach_api_emits; intros; exact I || reflexivity.
  - intros. apply call_enhanced_controlnet_api_emits_to; intros; exact I || reflexivity.
  - apply doubled_suffix_differs.
Qed.

(** X19: [call_controlnet_union_official_api] passes the two prompts on as
    they are: whichever of its requests is sent, to the Union endpoint or to
    the local backend, carries the caller's prompt and the caller's negative
    prompt unchanged (an empty negative prompt stays empty). *)
Theorem union_sends_prompts_verbatim (image_bytes prompt negative_prompt : string) :
  emits (carries_prompts prompt negative_prompt)
    (call_controlnet_union_official_api E image_bytes prompt negative_prompt).
Proof.
  apply call_controlnet_union_official_api_emits;
    intros; try exact I; split; reflexivity.
Qed.

End RequestAddresses.

(** ** The retry rule of the Linoyts loop *)

Section LinoytsRetries.

Variable E : env.
Variables (linoyts_url : string) (json_data : payload).
Variables (image_bytes prompt negative_prompt : string).
Variable max_retries : nat.

Local Abbreviation loop :=
  (linoyts_retry_loop E linoyts_url json_data image_bytes prompt negative_prompt
     max_retries).
Local Abbreviation after_request := (after_linoyts_request linoyts_url json_data).
Local Abbreviation local_fallback :=
  (call_local_controlnet_fallback E image_bytes prompt negative_prompt).

Lemma linoyts_loop_step (attempt : nat) (rest : list nat) (w : world) :
  loop (attempt :: rest) w
  = (let except_inner_e :=
       if (attempt <? max_retries - 1)%nat then
         st st_warning "Attempt {attempt + 1} failed: {str(inner_e)}. Retrying..." ;;
         sleep 2 ;; loop rest
       else
         st st_error "All attempts failed with error: {str(inner_e)}" ;;
         st st_info "Switching to local ControlNet..." ;;
         local_fallback in
     match requests_post E (calls w) JsonBody linoyts_url json_data with
     | Responds response =>
         if (status_code response =? 200)%Z then
           match json response with
           | None => except_inner_e
           | Some result_json =>
               match result_json !! "image" with
               | Some b64 =>
                   match b64decode E b64 with
                   | None => except_inner_e
                   | Some result_image_bytes =>
                       match Image_open E result_image_bytes with
                       | None => except_inner_e
                       | Some result_image =>
                           st st_success "Linoyts Approach generation successful!" ;;
                           ret (Some result_image)
                       end
                   end
               | None =>
                   st st_error "Invalid response format from backend" ;;
                   st st_info "Switching to local ControlNet..." ;;
                   local_fallback
               end
           end
         else if (status_code response =? 404)%Z && (attempt <? max_retries - 1)%nat then
           sleep 2 ;; loop rest
         else
           st st_error "Linoyts Approach backend error: {response.status_code}" ;;
           when (status_code response =? 500)%Z
             (st st_error "Backend error details: {response.text}") ;;
           st st_info "Switching to local ControlNet..." ;;
           local_fallback
     | Raises ETimeout =>
         if (attempt <? max_retries - 1)%nat then sleep 2 ;; loop rest
         else
           st st_error "All attempts timed out" ;;
           st st_info "Switching to local ControlNet..." ;;
           local_fallback
     | Raises _ => except_inner_e
     end) (after_request w).
Proof.
  unfold after_linoyts_request. simpl. unfold bind at 1 2. unfold st at 1, emit, post. simpl.
  rewrite <- app_assoc. reflexivity.
Qed.

(** What a run adds to the trace when it sends no JSON request. *)
Lemma no_json_request_after {A} (c : M A) (w : world) :
  sends_at_most 0 c ->
  exists evs, trace (c w).2 = (trace w ++ evs)%list /\ count_posts JsonBody evs = 0%nat.
Proof. intros Hc. destruct (Hc w) as (evs & Heq & Hle). exists evs. split; [exact Heq | lia]. Qed.

(** X20: the retry rule of [call_linoyts_approach_api]. On an attempt that is
    not the last, the loop asks the same endpoint again, after messages and a
    2 second delay, exactly when the reply is an exception of any class (a
    timeout, a connection error or anything else), an HTTP 404, or a 200
    whose decoding raises (a body that is not JSON, or an [image] field that
    is not base64 of a picture); after every other reply, a 200 JSON body
    without [image] field included, no further JSON request is sent. *)
Theorem linoyts_retry_rule (attempt : nat) (rest : list nat) (w : world) :
  (attempt < max_retries - 1)%nat ->
  if linoyts_retried E (requests_post E (calls w) JsonBody linoyts_url json_data) then
    exists messages,
      Forall is_message messages
      /\ loop (attempt :: rest) w
         = loop rest (extended (after_request w) (messages ++ [Sleep 2]))
  else
    exists evs,
      trace (loop (attempt :: rest) w).2 = (trace (after_request w) ++ evs)%list
      /\ count_posts JsonBody evs = 0%nat.
Proof.
  intros Hattempt. apply Nat.ltb_lt in Hattempt.
  pose proof (local_fallback_sends_no_json E 0 image_bytes prompt negative_prompt) as Hlocal.
  assert (Hretry : exists messages,
             Forall is_message messages
             /\ (st st_warning "Attempt {attempt + 1} failed: {str(inner_e)}. Retrying..." ;;
                 sleep 2 ;; loop rest) (after_request w)
                = loop rest (extended (after_request w) (messages ++ [Sleep 2]))).
  { exists [St st_warning "Attempt {attempt + 1} failed: {str(inner_e)}. Retrying..."].
    split; [repeat constructor|].
    rewrite messages_then, sleep_then, extended_twice. reflexivity. }
  assert (Hpause : exists messages,
             Forall is_message messages
             /\ (sleep 2 ;; loop rest) (after_request w)
                = loop rest (extended (after_request w) (messages ++ [Sleep 2]))).
  { exists []. split; [constructor|]. rewrite sleep_then. reflexivity. }
  rewrite linoyts_loop_step. cbv zeta. rewrite Hattempt.
  unfold linoyts_retried.
  destruct (requests_post E (calls w) JsonBody linoyts_url json_data) as [response|cls].
  - destruct (status_code response =? 200)%Z.
    + destruct (json response) as [result_json|]; [|exact Hretry].
      destruct (result_json !! "image") as [b64|].
      * destruct (b64decode E b64) as [result_image_bytes|]; cbn [mbind option_bind];
          [|exact Hretry].
        destruct (Image_open E result_image_bytes) as [result_image|]; [|exact Hretry].
        apply no_json_request_after. unfold st.
        apply sends_at_most_then; [reflexivity | apply sends_at_most_ret].
      * apply no_json_request_after. unfold st.
        do 2 (apply sends_at_most_then; [reflexivity|]). exact Hlocal.
    + destruct (status_code response =? 404)%Z; cbn [andb]; [exact Hpause|].
      apply no_json_request_after. unfold st.
      apply sends_at_most_then; [reflexivity|].
      apply (sends_at_most_bind 0 0);
        [destruct (status_code response =? 500)%Z;
           [apply sends_at_most_emit; reflexivity | apply sends_at_most_ret]
        | intros _].
      apply sends_at_most_then; [reflexivity | exact Hlocal].
  - destruct cls; [exact Hpause | exact Hretry | exact Hretry].
Qed.

End LinoytsRetries.

Lemma linoyts_retry_rule_witness :
  let E := scripted "https://example.ngrok-free.app" [Raises EConnectionError] in
  (0 < 3 - 1)%nat
  /\ exists messages,
       Forall is_message messages
       /\ linoyts_retry_loop E (get_backend_url E)
            (linoyts_json_data E "sketch" "a cat" EmptyString) "sketch" "a cat" EmptyString
            3 [0; 1; 2]%nat fresh
          = linoyts_retry_loop E (get_backend_url E)
              (linoyts_json_data E "sketch" "a cat" EmptyString) "sketch" "a cat" EmptyString
              3 [1; 2]%nat
              (extended (after_linoyts_request (get_backend_url E)
                           (linoyts_json_data E "sketch" "a cat" EmptyString) fresh)
                 (messages ++ [Sleep 2])).
Proof.
  intros E. split; [lia|].
  exact (linoyts_retry_rule E (get_backend_url E)
           (linoyts_json_data E "sketch" "a cat" EmptyString) "sketch" "a cat" EmptyString
           3 0 [1; 2]%nat fresh ltac:(lia)).
Defined.

(** ** The placeholder URL in the other backend functions *)

Section MorePlaceholder.

Variable E : env.
Hypothesis unconfigured : occurs_in "your-ngrok-url-here" (get_backend_url E).

(** X21: while the configured endpoint holds the placeholder,
    [call_controlnet_union_official_api] and [call_linoyts_approach_api]
    return no picture, make no outside call and add only Streamlit messages
    to the trace: their own three and the three of the local fallback, which
    notices the placeholder again. *)
Theorem placeholder_stops_union_and_linoyts
    (image_bytes prompt negative_prompt : string) (w : world) :
  call_controlnet_union_official_api E image_bytes prompt negative_prompt w
  = (None,
     extended w [St st_warning "Official ControlNet++ Union backend URL not configured";
                 St st_info "Update ngrok_config.py with your current ngrok URL";
                 St st_info "Switching to local ControlNet...";
                 St st_warning "Backend URL not configured";
                 St st_info "Update ngrok_config.py with your current ngrok URL";
                 St st_info "   Edit CURRENT_NGROK_URL in ngrok_config.py"])
  /\ call_linoyts_approach_api E image_bytes prompt negative_prompt w
     = (None,
        extended w [St st_warning "Linoyts Approach backend URL not configured";
                    St st_info "Update ngrok_config.py with your current ngrok URL";
                    St st_info "Switching to local ControlNet...";
                    St st_warning "Backend URL not configured";
                    St st_info "Update ngrok_config.py with your current ngrok URL";
                    St st_info "   Edit CURRENT_NGROK_URL in ngrok_config.py"]).
Proof.
  split.
  - unfold call_controlnet_union_official_api. rewrite (placeholder_detected E unconfigured).
    rewrite !messages_then, !extended_twice.
    rewrite (local_fallback_unconfigured E unconfigured). unfold extended. cbn [calls trace].
    now rewrite <- app_assoc.
  - unfold call_linoyts_approach_api. rewrite (placeholder_detected E unconfigured).
    rewrite !messages_then, !extended_twice.
    rewrite (local_fallback_unconfigured E unconfigured). unfold extended. cbn [calls trace].
    now rewrite <- app_assoc.
Qed.

End MorePlaceholder.

Lemma placeholder_stops_union_and_linoyts_witness :
  occurs_in "your-ngrok-url-here"
    (get_backend_url (scripted "https://your-ngrok-url-here.ngrok-free.app" []))
  /\ call_linoyts_approach_api (scripted "https://your-ngrok-url-here.ngrok-free.app" [])
       "sketch" "a cat" EmptyString fresh
     = (None,
        extended fresh [St st_warning "Linoyts Approach backend URL not configured";
                        St st_info "Update ngrok_config.py with your current ngrok URL";
                        St st_info "Switching to local ControlNet...";
                        St st_warning "Backend URL not configured";
                        St st_info "Update ngrok_config.py with your current ngrok URL";
                        St st_info "   Edit CURRENT_NGROK_URL in ngrok_config.py"]).
Proof.
  assert (H : occurs_in "your-ngrok-url-here"
                (get_backend_url (scripted "https://your-ngrok-url-here.ngrok-free.app" []))).
  { exists "https://", ".ngrok-free.app/generate". reflexivity. }
  split; [exact H|].
  exact (proj2 (placeholder_stops_union_and_linoyts _ H "sketch" "a cat" EmptyString fresh)).
Defined.

Section ThreeDimensional.

Variable E3 : env_3d.

Lemma fallback_3d_trace (image_bytes prompt negative_prompt : string) (w : world) :
  exists messages,
    Forall is_message messages
    /\ (fallback_3d E3 image_bytes prompt negative_prompt w).2
       = {| calls := S (calls w);
            trace := trace w
                     ++ [St st_warning "3D generation is currently unavailable";
                         St st_info "Switching to local ControlNet for image generation...";
                         Post MultipartForm (get_backend_url (outside E3))
                           [("image", JStr image_bytes); ("prompt", JStr prompt);
                            ("negative_prompt", JStr negative_prompt)]]
                     ++ messages |}.
Proof.
  unfold fallback_3d. rewrite !messages_then, extended_twice.
  unfold bind, post, extended. cbn [calls trace fst snd].
  destruct (requests_post _ _ _ _ _) as [response|cls].
  - destruct (status_code response =? 200)%Z.
    + destruct (Image_open _ _) as [result_image|].
      * exists [St st_success "Local ControlNet generation successful!"].
        split; [repeat constructor|]. unfold st, emit, ret. cbn [calls trace fst snd].
        now rewrite <- !app_assoc.
      * exists [St st_error "Local backend also failed: {local_error}";
                St st_info "Please check your Colab backend is running"].
        split; [repeat constructor|]. unfold st, emit, ret. cbn [calls trace fst snd].
        now rewrite <- !app_assoc.
    + exists [St st_error "Local backend error: {response.status_code}"].
      split; [repeat constructor|]. unfold st, emit, ret. cbn [calls trace fst snd].
      now rewrite <- !app_assoc.
  - exists [St st_error "Local backend also failed: {local_error}";
            St st_info "Please check your Colab backend is running"].
    split; [repeat constructor|]. unfold st, emit, ret. cbn [calls trace fst snd].
    now rewrite <- !app_assoc.
Qed.

(** X22: the fallback inside [call_3d_model_api] has no placeholder check.
    When the first Gradio call raises, the function shows two messages and
    posts the sketch and both prompts to [get_backend_url()], whatever that
    URL is (also when it still holds "your-ngrok-url-here"); two outside
    calls are made and only messages follow the request. *)
Theorem fallback_3d_posts_without_check
    (image_bytes prompt negative_prompt : string) (w : world) :
  gradio_client_installed (outside E3) = true ->
  (forall args, client_predict (outside E3) (calls w) "linoyts/sketch-to-3d"
                  "/preprocess_image" args = PredictRaises) ->
  exists args messages,
    Forall is_message messages
    /\ (call_3d_model_api E3 image_bytes prompt negative_prompt w).2
       = {| calls := calls w + 2;
            trace := trace w
                     ++ [Predict "linoyts/sketch-to-3d" "/preprocess_image" args;
                         St st_warning "3D generation is currently unavailable";
                         St st_info "Switching to local ControlNet for image generation...";
                         Post MultipartForm (get_backend_url (outside E3))
                           [("image", JStr image_bytes); ("prompt", JStr prompt);
                            ("negative_prompt", JStr negative_prompt)]]
                     ++ messages |}.
Proof.
  intros Hinstalled Hraises. unfold call_3d_model_api. rewrite Hinstalled. cbn [negb].
  unfold bind at 1. unfold predict at 1. rewrite Hraises.
  edestruct fallback_3d_trace as (messages & Hmessages & ->).
  do 2 eexists. split; [exact Hmessages|]. cbn [calls trace].
  f_equal; [lia|]. rewrite <- !app_assoc. reflexivity.
Qed.

End ThreeDimensional.

Lemma fallback_3d_posts_without_check_witness :
  let E3 := {| outside := scripted "https://your-ngrok-url-here.ngrok-free.app" [];
               client_predict_3d := fun _ _ => Predict3dRaises |} in
  contains "your-ngrok-url-here" (get_backend_url (outside E3)) = true
  /\ exists args messages,
       Forall is_message messages
       /\ (call_3d_model_api E3 "sketch" "a cat" EmptyString fresh).2
          = {| calls := 2;
               trace := [Predict "linoyts/sketch-to-3d" "/preprocess_image" args;
                         St st_warning "3D generation is currently unavailable";
                         St st_info "Switching to local ControlNet for image generation...";
                         Post MultipartForm "https://your-ngrok-url-here.ngrok-free.app/generate"
                           [("image", JStr "sketch"); ("prompt", JStr "a cat");
                            ("negative_prompt", JStr EmptyString)]]
                        ++ messages |}.
Proof.
  intros E3. split; [vm_compute; reflexivity|].
  exact (fallback_3d_posts_without_check E3 "sketch" "a cat" EmptyString fresh
           eq_refl (fun _ => eq_refl)).
Defined.

(** ** The configured URL and the updater script *)

Section ConfiguredUrl.

Lemma prefix_app_no_char (c : ascii) (needle s rest : string) :
  has_char c needle = false ->
  String.prefix needle (s +:+ String c rest) = String.prefix needle s.
Proof.
  revert s. induction needle as [|a needle IH]; intros s Hnone.
  - destruct s; reflexivity.
  - simpl in Hnone. apply orb_false_iff in Hnone as [Hhead Htail].
    destruct s as [|d s].
    + change (String.prefix (String a needle) (String c rest) = false). simpl.
      destruct (Ascii.ascii_dec a c) as [->|Hne]; [|reflexivity].
      now rewrite Ascii.eqb_refl in Hhead.
    + change (String.prefix (String a needle) (String d (s +:+ String c rest))
              = String.prefix (String a needle) (String d s)).
      simpl. destruct (Ascii.ascii_dec a d); [now apply IH | reflexivity].
Qed.

(** Appending a piece that starts with a character foreign to [needle], and
    in which [needle] does not occur, neither creates nor hides an
    occurrence of [needle]. *)
Lemma contains_app_no_char (c : ascii) (needle hay rest : string) :
  has_char c needle = false ->
  contains needle rest = false ->
  contains needle (hay +:+ String c rest) = contains needle hay.
Proof.
  intros Hnone Hrest. induction hay as [|d hay IH].
  - change (contains needle (String c rest) = contains needle EmptyString).
    rewrite contains_cons, contains_nil, Hrest.
    f_equal. exact (prefix_app_no_char c needle EmptyString rest Hnone).
  - change (contains needle (String d (hay +:+ String c rest))
            = contains needle (String d hay)).
    rewrite !contains_cons, IH.
    f_equal. exact (prefix_app_no_char c needle (String d hay) rest Hnone).
Qed.

Lemma occurs_in_trans (a b c : string) : occurs_in a b -> occurs_in b c -> occurs_in a c.
Proof.
  intros (before1 & after1 & ->) (before2 & after2 & ->).
  exists (before2 +:+ before1), (after1 +:+ after2).
  now rewrite !string_app_assoc.
Qed.

Lemma replace_from_skips (old new s : string) (skip : nat) :
  (String.length s <= skip)%nat -> replace_from old new skip s = EmptyString.
Proof.
  revert skip. induction s as [|c s IH]; intros skip Hskip; [reflexivity|].
  simpl in Hskip. destruct skip as [|more]; [lia|]. simpl. apply IH. lia.
Qed.

Lemma prefix_refl (s : string) : String.prefix s s = true.
Proof. apply prefix_starts_with. exists EmptyString. induction s as [|c s IH]; [reflexivity|].
  change (String c s = String c (s +:+ EmptyString)). now rewrite <- IH.
Qed.

(** Replacing [old] by the empty string takes a trailing [old] away and leaves the rest, when
    [old] does not occur in the rest and its first character does not recur
    in it. *)
Lemma replace_removes_suffix (c : ascii) (old base : string) :
  has_char c old = false ->
  contains (String c old) base = false ->
  replace (String c old) EmptyString (base +:+ String c old) = base.
Proof.
  intros Hnone Hbase. unfold replace. induction base as [|d base IH].
  - change (replace_from (String c old) EmptyString 0 (String c old) = EmptyString).
    cbn [replace_from]. rewrite prefix_refl.
    change (replace_from (String c old) EmptyString (String.length (String c old) - 1) old
            = EmptyString).
    apply replace_from_skips. simpl. lia.
  - rewrite contains_cons in Hbase. apply orb_false_iff in Hbase as [Hhead Htail].
    change (replace_from (String c old) EmptyString 0 (String d (base +:+ String c old))
            = String d base).
    cbn [replace_from].
    assert (Hprefix : String.prefix (String c old) (String d (base +:+ String c old)) = false).
    { simpl. simpl in Hhead. destruct (Ascii.ascii_dec c d); [|reflexivity].
      now rewrite (prefix_app_no_char c old base old Hnone). }
    rewrite Hprefix. now rewrite (IH Htail).
Qed.

(** X23: the placeholder test that the backend functions make on
    [get_backend_url()] is a test of the configured [CURRENT_NGROK_URL]:
    appending "/generate" neither creates nor hides an occurrence of
    "your-ngrok-url-here". *)
Theorem placeholder_test_is_on_configured_url (E : env) :
  contains "your-ngrok-url-here" (get_backend_url E)
  = contains "your-ngrok-url-here" (get_base_url E).
Proof.
  unfold get_backend_url, get_base_url.
  apply (contains_app_no_char "/" "your-ngrok-url-here" (CURRENT_NGROK_URL E) "generate");
    vm_compute; reflexivity.
Qed.

(** X24: [validate_url] of the updater script accepts every URL with an
    "http://" or "https://" scheme in which the placeholder
    "your-ngrok-url-here" occurs, the very URLs that the application treats
    as not configured: the placeholder itself contains "ngrok". *)
Theorem validate_url_accepts_placeholder (url : string) :
  occurs_in "your-ngrok-url-here" url ->
  occurs_in "http://" url \/ occurs_in "https://" url ->
  validate_url url = true
  /\ contains "your-ngrok-url-here" (url +:+ "/generate") = true.
Proof.
  intros Hplaceholder Hscheme.
  assert (Hngrok : contains "ngrok" url = true).
  { apply contains_occurs_in. apply (occurs_in_trans _ "your-ngrok-url-here"); [|assumption].
    exists "your-", "-url-here". reflexivity. }
  split.
  - unfold validate_url.
    assert (Htruthy : truthy url = true).
    { destruct Hplaceholder as ([|b before] & after & ->); reflexivity. }
    rewrite Htruthy, Hngrok. cbn [negb andb].
    assert (Hboth : contains "http://" url || contains "https://" url = true).
    { apply orb_true_iff. rewrite !contains_occurs_in. exact Hscheme. }
    now rewrite Hboth.
  - rewrite (contains_app_no_char "/" "your-ngrok-url-here" url "generate");
      [now apply contains_occurs_in | vm_compute; reflexivity | vm_compute; reflexivity].
Qed.

(** X25: [get_ngrok_url_from_backend] is given the base URL followed by
    "/generate" and asks the base URL followed by "/ngrok-url": removing
    "/generate" gives the base URL back, provided "/generate" does not occur
    in the base URL itself. *)
Theorem ngrok_endpoint_of_backend_url (E : env) :
  contains "/generate" (get_base_url E) = false ->
  ngrok_endpoint (get_backend_url E) = get_base_url E +:+ "/ngrok-url".
Proof.
  intros Hbase. unfold ngrok_endpoint, get_backend_url, get_base_url in *.
  rewrite (replace_removes_suffix "/" "generate" (CURRENT_NGROK_URL E)); [reflexivity | | exact Hbase].
  vm_compute. reflexivity.
Qed.

End ConfiguredUrl.

Lemma validate_url_accepts_placeholder_witness :
  occurs_in "your-ngrok-url-here" "https://your-ngrok-url-here.ngrok-free.app"
  /\ validate_url "https://your-ngrok-url-here.ngrok-free.app" = true.
Proof.
  assert (H : occurs_in "your-ngrok-url-here" "https://your-ngrok-url-here.ngrok-free.app")
    by (exists "https://", ".ngrok-free.app"; reflexivity).
  split; [exact H|].
  refine (proj1 (validate_url_accepts_placeholder _ H (or_intror _))).
  exists EmptyString, "your-ngrok-url-here.ngrok-free.app". reflexivity.
Defined.

Lemma ngrok_endpoint_of_backend_url_witness :
  ngrok_endpoint (get_backend_url (scripted "https://abc.ngrok-free.app" []))
  = "https://abc.ngrok-free.app/ngrok-url".
Proof.
  exact (ngrok_endpoint_of_backend_url (scripted "https://abc.ngrok-free.app" []) eq_refl).
Defined.
